(** * Generation / validation / retry pipeline of the agent factory

    A shallow embedding of

      - [archive_agent_factory_20251030/code_validator.py]
        (syntax and security validators for generated Python code),
      - [archive_agent_factory_20251030/tools/validate_agent_specification.py]
        (the validation tool for agent specifications and its
        completeness score),
      - [archive_agent_factory_20251030/tools/generate_agent_code.py]
        (code generation with retry on syntax errors, and in several
        files),
      - [archive_agent_factory_20251030/tools/generate_agent_specification.py]
        (the structure check of a generated specification),
      - [meta_agent/generators/script_generator.py]
        (the retry loop of [generate_script], the requirements of a
        script),
      - [meta_agent/validators/script_validator.py]
        (the validator of generated scripts),

    together with the properties of these functions that the
    specification of the repository states, and further properties
    that the code shows.

    Conventions.

    - A Python call either returns a value or raises: [outcome].
    - Calls that leave the program (the parser [ast.parse], the LLM
      client, writing a file) are recorded, in order, in a list of
      [event]s that is threaded through the code: the [Py] monad.
    - [ast.parse], [yaml.safe_load], the LLM client and the [:.2f]
      float formatting are not part of the repository; they are
      section variables of the functions that call them.
    - The risk score of the code validator is a Python float, and a
      binary64 float here: the primitive floats of the Standard
      Library, whose literals [0.1], [0.3], [0.4] are the nearest
      floats, as Python's are, and whose addition rounds as the
      processor does.  [min] on floats is written out as Python
      evaluates it.
    - The completeness score of a specification and the security score
      of a script are Python floats too; they are exact rationals
      here, and what is stated of them are comparisons that rounding
      does not change.
    - Text is a sequence of 8-bit characters, read as the code points
      0..255; the character classes of [re] and of [str.strip] follow
      Python's tables on that range.
    - Calls to the [loguru] logger are left out: they return [None] and
      no result or branch depends on them.
    - Writing the debug file of an attempt is taken to succeed.
    - Only exceptions that derive from [Exception] are modelled, the
      ones an [except Exception] clause catches. *)

From Stdlib Require Import List String Ascii ZArith QArith Qminmax Bool Lia.
From Stdlib Require Import Qround DecimalString DecimalPos DecimalZ.
From Stdlib Require Import Permutation Lqa.
From Stdlib Require Floats.SpecFloat Floats.Floats.
Import ListNotations.

Set Warnings "-register-all".
Set Warnings "-inexact-float".

Open Scope string_scope.
Open Scope Z_scope.

(* ===================================================================== *)
(** * Python values, exceptions and string operations                     *)
(* ===================================================================== *)

Module Python.

(** Exceptions, by class.  Every class here derives from [Exception];
    [OtherException] stands for any other subclass of [Exception]
    (AttributeError, MemoryError, OSError, ...). *)
Inductive exception : Type :=
| SyntaxError (lineno : option Z) (msg : string)
| ValueError (msg : string)
| RuntimeError (msg : string)
| YAMLError (msg : string)
| OtherException (msg : string).

Inductive outcome (A : Type) : Type :=
| Returned (a : A)
| Raised (e : exception).
Arguments Returned {A} a.
Arguments Raised {A} e.

(** What leaves the program. *)
Inductive event : Type :=
| EvParse (code : string)                            (* ast.parse(code) *)
| EvGenerate (system_prompt user_prompt : string)    (* llm_client.generate *)
| EvWrite (path content : string).                   (* open(path,'w').write *)

(** Effectful code: the events so far go in, the outcome and the
    extended list of events come out. *)
Definition Py (A : Type) : Type := list event -> outcome A * list event.

Definition ret {A} (a : A) : Py A := fun w => (Returned a, w).
Definition raise {A} (e : exception) : Py A := fun w => (Raised e, w).
Definition bind {A B} (m : Py A) (k : A -> Py B) : Py B :=
  fun w => match m w with
           | (Returned a, w') => k a w'
           | (Raised e, w') => (Raised e, w')
           end.
(** [try: m except Exception as e: h e] *)
Definition try_except {A} (m : Py A) (h : exception -> Py A) : Py A :=
  fun w => match m w with
           | (Returned a, w') => (Returned a, w')
           | (Raised e, w') => h e w'
           end.
Definition emit (ev : event) : Py unit := fun w => (Returned tt, (w ++ [ev])%list).

Declare Scope py_scope.
Delimit Scope py_scope with py.
Notation "x <- m ;; k" := (bind m (fun x => k))
  (at level 61, m at next level, right associativity) : py_scope.
Notation "m ;;; k" := (bind m (fun _ => k))
  (at level 61, right associativity) : py_scope.

(** ** Characters *)

(** [ord(c)] *)
Definition ord (c : ascii) : nat := nat_of_ascii c.

Definition newline : ascii := ascii_of_nat 10.
Definition dquote : ascii := ascii_of_nat 34.
Definition squote : ascii := ascii_of_nat 39.
Definition nl : string := String newline "".

Definition between (lo hi n : nat) : bool := Nat.leb lo n && Nat.leb n hi.

(** [str.isspace] on one character, also the class [\s] of [re]. *)
Definition is_space (c : ascii) : bool :=
  let n := ord c in
  between 9 13 n || between 28 32 n || Nat.eqb n 133 || Nat.eqb n 160.

Definition is_digit (c : ascii) : bool := between 48 57 (ord c).

(** The class [\w] of [re] for [str] patterns. *)
Definition is_word (c : ascii) : bool :=
  let n := ord c in
  between 48 57 n || between 65 90 n || between 97 122 n || Nat.eqb n 95
  || Nat.eqb n 170 || between 178 179 n || Nat.eqb n 181
  || between 185 186 n || between 188 190 n
  || between 192 214 n || between 216 246 n || between 248 255 n.

(** Case folding of the letters A..Z, all that [re.IGNORECASE] needs for
    the patterns of the source. *)
Definition lower (c : ascii) : ascii :=
  if between 65 90 (ord c) then ascii_of_nat (ord c + 32) else c.

(** ** Strings *)

Fixpoint startswith (s p : string) {struct p} : bool :=
  match p, s with
  | EmptyString, _ => true
  | String a p', String b s' => Ascii.eqb a b && startswith s' p'
  | String _ _, EmptyString => false
  end.

(** [sub in s] *)
Fixpoint contains (s sub : string) : bool :=
  startswith s sub ||
  match s with
  | EmptyString => false
  | String _ s' => contains s' sub
  end.

Fixpoint drop (n : nat) (s : string) : string :=
  match n, s with
  | O, _ => s
  | S n', String _ s' => drop n' s'
  | S _, EmptyString => EmptyString
  end.

Fixpoint take (n : nat) (s : string) : string :=
  match n, s with
  | O, _ => EmptyString
  | S n', String c s' => String c (take n' s')
  | S _, EmptyString => EmptyString
  end.

Definition len (s : string) : Z := Z.of_nat (String.length s).

(** A slice bound as Python normalises it: negative bounds count from
    the end, and everything is clamped to [0, len]. *)
Definition slice_bound (n i : Z) : Z :=
  let j := if i <? 0 then i + n else i in
  Z.max 0 (Z.min n j).

(** [s[a:b]] *)
Definition slice (s : string) (a b : Z) : string :=
  let lo := slice_bound (len s) a in
  let hi := slice_bound (len s) b in
  take (Z.to_nat (hi - lo)) (drop (Z.to_nat lo) s).

(** [s[a:]] and [s[:b]] *)
Definition slice_from (s : string) (a : Z) : string := slice s a (len s).
Definition slice_to (s : string) (b : Z) : string := slice s 0 b.

Definition endswith (s p : string) : bool :=
  (len p <=? len s) && String.eqb (slice_from s (len s - len p)) p.

(** Index of the first [c] at or after position [pos], [None] for
    Python's -1. *)
Fixpoint find_char_from (c : ascii) (s : string) (pos : nat) : option nat :=
  match s with
  | EmptyString => None
  | String d s' =>
      if Ascii.eqb c d then Some pos else find_char_from c s' (S pos)
  end.

(** [s.find(c, start)] for a one-character [c] and [0 <= start] *)
Definition find_char (c : ascii) (s : string) (start : nat) : Z :=
  match find_char_from c (drop start s) start with
  | Some i => Z.of_nat i
  | None => -1
  end.

(** Index of the last [c] in [s], scanning [s] from position [pos]. *)
Fixpoint rfind_char_from (c : ascii) (s : string) (pos : nat) : option nat :=
  match s with
  | EmptyString => None
  | String d s' =>
      match rfind_char_from c s' (S pos) with
      | Some i => Some i
      | None => if Ascii.eqb c d then Some pos else None
      end
  end.

(** [s.rfind(c, 0, stop)] for a one-character [c] and [stop <= len(s)] *)
Definition rfind_char (c : ascii) (s : string) (stop : nat) : Z :=
  match rfind_char_from c (take stop s) 0 with
  | Some i => Z.of_nat i
  | None => -1
  end.

(** [s.count(c)] for a one-character [c] *)
Fixpoint count_char (c : ascii) (s : string) : nat :=
  match s with
  | EmptyString => O
  | String d s' => (if Ascii.eqb c d then 1 else 0) + count_char c s'
  end.

(** [s.split(sep)] for a non-empty separator: [cur] holds, reversed,
    the characters of the piece being read. *)
Fixpoint split_aux (sep : string) (s : string) (cur : string)
  (skip : nat) : list string :=
  match s with
  | EmptyString => [cur]
  | String c s' =>
      match skip with
      | S k => split_aux sep s' cur k
      | O =>
          if startswith s sep
          then cur :: split_aux sep s' EmptyString (String.length sep - 1)
          else split_aux sep s' (cur ++ String c EmptyString) 0
      end
  end.

Definition split (s sep : string) : list string :=
  split_aux sep s EmptyString 0.

(** [sep.join(parts)] *)
Fixpoint join (sep : string) (parts : list string) : string :=
  match parts with
  | [] => EmptyString
  | [p] => p
  | p :: ps => p ++ sep ++ join sep ps
  end.

Fixpoint lstrip (s : string) : string :=
  match s with
  | String c s' => if is_space c then lstrip s' else s
  | EmptyString => EmptyString
  end.

(** Drops trailing white space: the result is empty when all of [s] is
    white space. *)
Fixpoint rstrip (s : string) : string :=
  match s with
  | EmptyString => EmptyString
  | String c s' =>
      match rstrip s' with
      | EmptyString => if is_space c then EmptyString else String c EmptyString
      | r => String c r
      end
  end.

(** [s.strip()] *)
Definition strip (s : string) : string := rstrip (lstrip s).

(** [str(n)] for an [int] *)
Definition str_of_Z (n : Z) : string := NilZero.string_of_int (Z.to_int n).

(** [str(x)] for an [Optional[int]], as an f-string renders it *)
Definition str_of_opt_Z (x : option Z) : string :=
  match x with
  | Some n => str_of_Z n
  | None => "None"
  end.

Definition underscore : ascii := ascii_of_nat 95.

(** The digits of an [int] literal given to [int()]: decimal digits,
    single underscores allowed between two digits. *)
Fixpoint digits_ok (s : string) (prev_digit : bool) : bool :=
  match s with
  | EmptyString => prev_digit
  | String c s' =>
      if is_digit c then digits_ok s' true
      else if Ascii.eqb c underscore then prev_digit && digits_ok s' false
      else false
  end.

Fixpoint remove_underscores (s : string) : string :=
  match s with
  | EmptyString => EmptyString
  | String c s' =>
      if Ascii.eqb c underscore then remove_underscores s'
      else String c (remove_underscores s')
  end.

Definition parse_digits (s : string) : option Z :=
  if digits_ok s false
  then option_map Z.of_uint (NilZero.uint_of_string (remove_underscores s))
  else None.

(** [int(s)] in base 10: [None] when Python raises [ValueError]. *)
Definition int_of_str (s : string) : option Z :=
  match strip s with
  | String "+" r => parse_digits r
  | String "-" r => option_map Z.opp (parse_digits r)
  | t => parse_digits t
  end.

Definition str_mem (x : string) (l : list string) : bool :=
  existsb (String.eqb x) l.

(** Every character of [s] satisfies [p]. *)
Fixpoint all_chars (p : ascii -> bool) (s : string) : bool :=
  match s with
  | EmptyString => true
  | String c s' => p c && all_chars p s'
  end.

(** The characters of [str(n)] for an [int]: digits and the minus
    sign. *)
Definition is_numeral_char (c : ascii) : bool :=
  is_digit c || Ascii.eqb c "-".

(** [str(e)].  A [SyntaxError] of the parser shows its message and,
    when it has one, its position in the file [<unknown>]. *)
Definition exc_str (e : exception) : string :=
  match e with
  | SyntaxError (Some l) msg => msg ++ " (<unknown>, line " ++ str_of_Z l ++ ")"
  | SyntaxError None msg => msg
  | ValueError msg => msg
  | RuntimeError msg => msg
  | YAMLError msg => msg
  | OtherException msg => msg
  end.

(** [range(n)] *)
Definition range (n : Z) : list Z := map Z.of_nat (seq 0 (Z.to_nat n)).

(** [l[a:b]] on a list *)
Definition list_slice {A : Type} (l : list A) (a b : Z) : list A :=
  let n := Z.of_nat (List.length l) in
  let lo := slice_bound n a in
  let hi := slice_bound n b in
  firstn (Z.to_nat (hi - lo)) (skipn (Z.to_nat lo) l).

(** [enumerate(l, start)] *)
Fixpoint enumerate {A : Type} (l : list A) (start : Z) : list (Z * A) :=
  match l with
  | [] => []
  | x :: l' => (start, x) :: enumerate l' (start + 1)
  end.

End Python.

(* ===================================================================== *)
(** * The regular expressions of the credential scan                      *)
(* ===================================================================== *)

(** The fragment of Python's [re] that [code_validator.py] uses:
    literals, the classes [\s] and [\w], bracket sets, and the greedy
    quantifiers [*] and [{n,}] on a single character, matched with
    backtracking, leftmost first. *)
Module Re.
Import Python.

Inductive item : Type :=
| IChar (c : ascii)
| ISpace            (* \s *)
| IWord.            (* \w *)

Inductive atom : Type :=
| Lit (c : ascii)
| Bracket (negated : bool) (items : list item).

Inductive quant : Type :=
| One
| Star
| AtLeast (n : nat).

Definition regex : Type := list (atom * quant).

Definition item_matches (ignorecase : bool) (it : item) (c : ascii) : bool :=
  match it with
  | IChar d => if ignorecase then Ascii.eqb (lower c) (lower d)
               else Ascii.eqb c d
  | ISpace => is_space c
  | IWord => is_word c
  end.

Definition atom_matches (ignorecase : bool) (a : atom) (c : ascii) : bool :=
  match a with
  | Lit d => item_matches ignorecase (IChar d) c
  | Bracket neg items =>
      xorb neg (existsb (fun it => item_matches ignorecase it c) items)
  end.

(** As many characters as possible, giving one back at a time until the
    rest of the pattern [k] matches. *)
Fixpoint greedy (ok : ascii -> bool) (k : string -> option nat)
  (s : string) : option nat :=
  match s with
  | String c s' =>
      if ok c
      then match greedy ok k s' with
           | Some n => Some (S n)
           | None => k s
           end
      else k s
  | EmptyString => k s
  end.

Fixpoint exactly (n : nat) (ok : ascii -> bool) (k : string -> option nat)
  (s : string) : option nat :=
  match n with
  | O => k s
  | S n' =>
      match s with
      | String c s' => if ok c then option_map S (exactly n' ok k s') else None
      | EmptyString => None
      end
  end.

(** A match of [r] that starts at the head of [s]: its length. *)
Fixpoint match_here (ignorecase : bool) (r : regex) (s : string)
  : option nat :=
  match r with
  | [] => Some O
  | (a, One) :: r' =>
      exactly 1 (atom_matches ignorecase a) (match_here ignorecase r') s
  | (a, Star) :: r' =>
      greedy (atom_matches ignorecase a) (match_here ignorecase r') s
  | (a, AtLeast n) :: r' =>
      exactly n (atom_matches ignorecase a)
        (greedy (atom_matches ignorecase a) (match_here ignorecase r')) s
  end.

(** [re.search(r, s)] as a truth value *)
Fixpoint search (ignorecase : bool) (r : regex) (s : string) : bool :=
  match match_here ignorecase r s with
  | Some _ => true
  | None =>
      match s with
      | String _ s' => search ignorecase r s'
      | EmptyString => false
      end
  end.

(** [re.finditer(r, s)]: the spans [(start, end)] of the matches, left
    to right, not overlapping.  [skip] counts the characters that still
    belong to the match found last. *)
Fixpoint finditer_from (ignorecase : bool) (r : regex) (s : string)
  (pos skip : nat) : list (nat * nat) :=
  match s with
  | EmptyString =>
      match skip, match_here ignorecase r s with
      | O, Some n => [(pos, (pos + n)%nat)]
      | _, _ => []
      end
  | String _ s' =>
      match skip with
      | S k => finditer_from ignorecase r s' (S pos) k
      | O =>
          match match_here ignorecase r s with
          | Some n =>
              (pos, (pos + n)%nat)
                :: finditer_from ignorecase r s' (S pos) (n - 1)
          | None => finditer_from ignorecase r s' (S pos) 0
          end
      end
  end.

Definition finditer (ignorecase : bool) (r : regex) (s : string)
  : list (nat * nat) :=
  finditer_from ignorecase r s 0 0.

(** A run of literal characters. *)
Definition lit (s : string) : regex :=
  map (fun c => (Lit c, One)) (list_ascii_of_string s).

Definition space : atom := Bracket false [ISpace].
(** a single or a double quote *)
Definition quote : atom := Bracket false [IChar dquote; IChar squote].
(** any character but a quote and the newline *)
Definition not_quote_nl : atom :=
  Bracket true [IChar dquote; IChar squote; IChar newline].

End Re.

(* ===================================================================== *)
(** * The syntax tree that the validators inspect                         *)
(* ===================================================================== *)

Module Ast.

(** The node classes of Python's [ast] that the validators test for,
    with the fields they read; every other class is [Other], also
    [AsyncFunctionDef], which is no [FunctionDef].  The children of a
    node are in the order of [ast.iter_child_nodes]; the [args] of a
    [Call] are its arguments followed by its keywords.  Child nodes
    that no check looks at and that have no children of their own
    ([alias], [Load], [Store], operators) are left out. *)
Inductive node : Type :=
| Module (body : list node)
| FunctionDef (children : list node)
| ClassDef (children : list node)
| Import (names : list string) (lineno : Z)
| ImportFrom (module : option string) (lineno : Z)
| Call (func : node) (args : list node) (lineno : Z)
| Name (id : string)
| Attribute (value : node) (attr : string)
| Other (children : list node).

(** [ast.iter_child_nodes] *)
Definition children (n : node) : list node :=
  match n with
  | Module body => body
  | FunctionDef cs => cs
  | ClassDef cs => cs
  | Import _ _ => []
  | ImportFrom _ _ => []
  | Call func args _ => func :: args
  | Name _ => []
  | Attribute value _ => [value]
  | Other cs => cs
  end.

(** Number of nodes of a tree. *)
Fixpoint size (n : node) : nat :=
  let fix sizes (l : list node) : nat :=
    match l with
    | [] => O
    | x :: l' => (size x + sizes l')%nat
    end in
  match n with
  | Module body => S (sizes body)
  | FunctionDef cs => S (sizes cs)
  | ClassDef cs => S (sizes cs)
  | Import _ _ => 1%nat
  | ImportFrom _ _ => 1%nat
  | Call func args _ => S (size func + sizes args)
  | Name _ => 1%nat
  | Attribute value _ => S (size value)
  | Other cs => S (sizes cs)
  end.

(** The loop of [ast.walk]: take the first node of the queue, put its
    children at the end of the queue, yield the node. *)
Fixpoint walk_queue (fuel : nat) (todo : list node) : list node :=
  match fuel, todo with
  | S fuel', n :: queue => n :: walk_queue fuel' (queue ++ children n)%list
  | _, _ => []
  end.

(** [ast.walk(tree)]: the nodes of [tree], breadth first. *)
Definition walk (tree : node) : list node := walk_queue (size tree) [tree].

(** The nodes of a tree, a node before its children: what "occurs in
    the tree" means, stated without the queue. *)
Fixpoint nodes (n : node) : list node :=
  let fix nodes_list (l : list node) : list node :=
    match l with
    | [] => []
    | x :: l' => (nodes x ++ nodes_list l')%list
    end in
  n :: match n with
       | Module body => nodes_list body
       | FunctionDef cs => nodes_list cs
       | ClassDef cs => nodes_list cs
       | Import _ _ => []
       | ImportFrom _ _ => []
       | Call func args _ => (nodes func ++ nodes_list args)%list
       | Name _ => []
       | Attribute value _ => nodes value
       | Other cs => nodes_list cs
       end.

(** Number of nodes of the trees of a queue. *)
Definition total_size (l : list node) : nat :=
  fold_right (fun x acc => (size x + acc)%nat) O l.

Definition is_function_def (n : node) : bool :=
  match n with FunctionDef _ => true | _ => false end.
Definition is_class_def (n : node) : bool :=
  match n with ClassDef _ => true | _ => false end.

End Ast.

(* ===================================================================== *)
(** * Python floats                                                       *)
(* ===================================================================== *)

Module Float.
Import PrimFloat.

(** [min(a, b)] on two floats: Python keeps the first argument unless
    the second is smaller. *)
Definition min (a b : PrimFloat.float) : PrimFloat.float :=
  if (b <? a)%float then b else a.

(** [x] after [n] executions of [x += c]. *)
Definition accumulate (x c : PrimFloat.float) (n : nat) : PrimFloat.float :=
  Nat.iter n (fun y => (y + c)%float) x.

(** A float that is not below zero, and so is no NaN. *)
Definition nonneg (x : PrimFloat.float) : Prop := (0 <=? x)%float = true.

End Float.

(* ===================================================================== *)
(** * code_validator.py                                                   *)
(* ===================================================================== *)

Module CodeValidator.
Import Python Ast.
Import PrimFloat.

Record ValidationIssue : Type := mkIssue {
  severity : string;        (* ERROR, WARNING, INFO *)
  issue_type : string;      (* syntax, security, quality *)
  message : string;
  line_number : Z;          (* default 0 *)
  suggestion : string       (* default "" *)
}.

Record ValidationResult : Type := mkResult {
  valid : bool;
  issues : list ValidationIssue;
  risk_score : PrimFloat.float;   (* default 0.0 *)
  summary : string
}.

Definition DANGEROUS_FUNCTIONS : list string :=
  ["eval"; "exec"; "compile"; "__import__"; "execfile"; "input"; "open"].

Definition DANGEROUS_IMPORTS : list string :=
  ["subprocess"; "socket"; "urllib"; "pickle"; "marshal"; "ctypes"; "cffi"].

Definition CONDITIONAL_IMPORTS : list (string * list string) :=
  [("os", ["getenv"; "environ.get"; "path"]);
   ("sys", ["argv"; "exit"]);
   ("requests", [])].

Definition ALLOWED_IMPORTS : list string :=
  ["typing"; "dataclasses"; "enum"; "abc"; "collections";
   "datetime"; "decimal"; "fractions"; "math"; "statistics";
   "json"; "re"; "pathlib";
   "pydantic"; "loguru"; "sqlalchemy"; "psycopg2";
   "langchain"; "langchain_openai"; "langgraph";
   "yaml"; "httpx";
   "os"; "sys"; "requests"].

(** [d.get(k)] on a dict with string keys *)
Fixpoint dict_get {V : Type} (d : list (string * V)) (k : string) : option V :=
  match d with
  | [] => None
  | (k', v) :: d' => if String.eqb k k' then Some v else dict_get d' k
  end.

(** [d[k] = v] *)
Fixpoint dict_set {V : Type} (d : list (string * V)) (k : string) (v : V)
  : list (string * V) :=
  match d with
  | [] => [(k, v)]
  | (k', v') :: d' =>
      if String.eqb k k' then (k', v) :: d' else (k', v') :: dict_set d' k v
  end.

Definition is_error (i : ValidationIssue) : bool :=
  String.eqb (severity i) "ERROR".

(** The local variables of [validate_code_security] that its loops
    update. *)
Record state : Type := mkState {
  st_issues : list ValidationIssue;
  st_risk : PrimFloat.float;
  imported_modules : list string;
  conditional_modules : list (string * list string)
}.

(** [issues.append(i); risk_score += r] *)
Definition report (i : ValidationIssue) (r : PrimFloat.float) (st : state)
  : state :=
  mkState (st_issues st ++ [i])%list (st_risk st + r)%float
          (imported_modules st) (conditional_modules st).

(** [alias.name.split('.')[0]] *)
Definition root_module (name : string) : string :=
  match split name "." with
  | m :: _ => m
  | [] => ""
  end.

(** Check 1, the body of the loop: dangerous function calls. *)
Definition func_name_of (func : node) : option string :=
  match func with
  | Name id => Some id
  | Attribute _ attr => Some attr
  | _ => None
  end.

Definition check_call (st : state) (n : node) : state :=
  match n with
  | Call func _ lineno =>
      match func_name_of func with
      | Some func_name =>
          if str_mem func_name DANGEROUS_FUNCTIONS
          then report
                 (mkIssue "ERROR" "security"
                    ("Dangerous function call: " ++ func_name ++ "()")
                    lineno
                    ("Remove " ++ func_name
                       ++ "() - not allowed in generated agents"))
                 0.3 st
          else st
      | None => st
      end
  | _ => st
  end.

(** Check 2, the body of the loop over [node.names] of an [Import]. *)
Definition check_import_alias (lineno : Z) (st : state) (name : string)
  : state :=
  let module := root_module name in
  let st := mkState (st_issues st) (st_risk st)
              (module :: imported_modules st) (conditional_modules st) in
  if str_mem module DANGEROUS_IMPORTS
  then report
         (mkIssue "ERROR" "security" ("Dangerous import: " ++ module) lineno
            ("Remove 'import " ++ module ++ "' - not allowed"))
         0.4 st
  else match dict_get CONDITIONAL_IMPORTS module with
       | Some allowed =>
           mkState (st_issues st) (st_risk st) (imported_modules st)
             (dict_set (conditional_modules st) module allowed)
       | None =>
           if negb (str_mem module ALLOWED_IMPORTS)
              && negb (startswith module "meta_agent")
           then report
                  (mkIssue "WARNING" "security"
                     ("Uncommon import: " ++ module) lineno
                     ("Verify " ++ module ++ " is necessary and safe"))
                  0.1 st
           else st
       end.

(** Check 2, the body of the loop over the nodes. *)
Definition check_import (st : state) (n : node) : state :=
  match n with
  | Import names lineno => fold_left (check_import_alias lineno) names st
  | ImportFrom (Some full) lineno =>
      if String.eqb full "" then st
      else
        let module := root_module full in
        let st := mkState (st_issues st) (st_risk st)
                    (module :: imported_modules st)
                    (conditional_modules st) in
        if str_mem module DANGEROUS_IMPORTS
        then report
               (mkIssue "ERROR" "security"
                  ("Dangerous import: from " ++ module) lineno
                  ("Remove 'from " ++ module ++ " import ...' - not allowed"))
               0.4 st
        else match dict_get CONDITIONAL_IMPORTS module with
             | Some allowed =>
                 mkState (st_issues st) (st_risk st) (imported_modules st)
                   (dict_set (conditional_modules st) module allowed)
             | None => st
             end
  | _ => st
  end.

(** Check 2b, the body of the loop: usage of conditional imports. *)
Definition check_usage (st : state) (n : node) : state :=
  match n with
  | Call (Attribute (Name module_name) func_name) _ lineno =>
      match dict_get (conditional_modules st) module_name with
      | Some allowed_funcs =>
          if negb (Nat.eqb (List.length allowed_funcs) 0)
             && negb (str_mem func_name allowed_funcs)
          then report
                 (mkIssue "ERROR" "security"
                    ("Unsafe usage of " ++ module_name ++ "." ++ func_name
                       ++ "()")
                    lineno
                    ("Only " ++ join ", " allowed_funcs ++ " are allowed for "
                       ++ module_name))
                 0.3 st
          else st
      | None => st
      end
  | _ => st    (* also [os.environ.get(...)]: the source does nothing *)
  end.

(** Check 3: hardcoded credentials. *)
Definition assigned (quantified : Re.atom * Re.quant) : Re.regex :=
  [(Re.space, Re.Star); (Re.Lit "=", Re.One); (Re.space, Re.Star);
   (Re.quote, Re.One); quantified; (Re.quote, Re.One)].

Definition hardcoded_patterns : list (Re.regex * string) :=
  [ (Re.lit "password"
       ++ assigned (Re.Bracket false [Re.IWord], Re.AtLeast 3),
     "Hardcoded password");
    (Re.lit "api_key" ++ assigned (Re.not_quote_nl, Re.AtLeast 8),
     "Hardcoded API key");
    (Re.lit "secret" ++ assigned (Re.not_quote_nl, Re.AtLeast 8),
     "Hardcoded secret");
    (Re.lit "token" ++ assigned (Re.not_quote_nl, Re.AtLeast 8),
     "Hardcoded token") ]%list.

Definition safe_patterns : list Re.regex :=
  [ Re.lit "os.getenv(";
    Re.lit "os.environ";
    Re.lit "getenv(";
    [(Re.Lit "=", Re.One); (Re.space, Re.Star);
     (Re.quote, Re.One); (Re.quote, Re.One)];
    [(Re.Lit "=", Re.One); (Re.space, Re.Star);
     (Re.Lit dquote, Re.One); (Re.Lit dquote, Re.One)];
    [(Re.Lit "=", Re.One); (Re.space, Re.Star);
     (Re.Lit squote, Re.One); (Re.Lit squote, Re.One)] ].

(** [code[code.rfind('\n', 0, match.start())+1 :
          code.find('\n', match.end())]] *)
Definition matched_line (code : string) (m : nat * nat) : string :=
  let '(m_start, m_end) := m in
  slice code (rfind_char newline code m_start + 1)
             (find_char newline code m_end).

Definition is_safe_line (line : string) : bool :=
  existsb (fun safe_pattern => Re.search false safe_pattern line)
          safe_patterns.

(** [code[:match.start()].count('\n') + 1] *)
Definition line_num (code : string) (m : nat * nat) : Z :=
  Z.of_nat (count_char newline (slice_to code (Z.of_nat (fst m)))) + 1.

Definition check_match (code message : string) (st : state) (m : nat * nat)
  : state :=
  if is_safe_line (matched_line code m) then st
  else report
         (mkIssue "ERROR" "security" message (line_num code m)
            "Use environment variables or config instead")
         0.3 st.

Definition check_pattern (code : string) (st : state)
  (pm : Re.regex * string) : state :=
  let '(pattern, message) := pm in
  fold_left (check_match code message) (Re.finditer true pattern code) st.

Definition check_credentials (code : string) (st : state) : state :=
  fold_left (check_pattern code) hardcoded_patterns st.

(** Check 4: complexity. *)
Definition function_count (tree : node) : Z :=
  Z.of_nat (List.length (filter is_function_def (walk tree))).

(** Computed by the source, and not used. *)
Definition class_count (tree : node) : Z :=
  Z.of_nat (List.length (filter is_class_def (walk tree))).

Definition check_complexity (tree : node) (st : state) : state :=
  if 50 <? function_count tree
  then mkState
         (st_issues st
            ++ [mkIssue "WARNING" "quality"
                  ("Very high function count: "
                     ++ str_of_Z (function_count tree))
                  0 "Consider breaking into multiple files"])%list
         (st_risk st) (imported_modules st) (conditional_modules st)
  else st.

(** The four checks, in the order of the source. *)
Definition run_checks (code : string) (tree : node) : state :=
  let st := mkState [] 0.0 [] [] in
  let st := fold_left check_call (walk tree) st in
  let st := fold_left check_import (walk tree) st in
  let st := fold_left check_usage (walk tree) st in
  let st := check_credentials code st in
  check_complexity tree st.

Section Validators.

(** [ast.parse]: the body of the [Module] it returns, or what it
    raises. *)
Variable ast_parse : string -> outcome (list node).
(** [f"{x:.2f}"] *)
Variable format_2f : PrimFloat.float -> string.

(** [tree = ast.parse(code)] *)
Definition parse (code : string) : Py node :=
  (_ <- emit (EvParse code) ;;
   match ast_parse code with
   | Returned body => ret (Module body)
   | Raised e => raise e
   end)%py.

Definition body_of (tree : node) : list node :=
  match tree with
  | Module body => body
  | _ => []
  end.

Definition validate_code_syntax (code : string) : Py ValidationResult :=
  try_except
    (tree <- parse code ;;
     let issues := [] in
     let issues :=
       match body_of tree with
       | [] => (issues
                  ++ [mkIssue "WARNING" "syntax"
                        "Code is empty or contains only comments" 0
                        "Ensure code contains actual implementation"])%list
       | _ :: _ => issues
       end in
     let has_class := existsb is_class_def (walk tree) in
     let has_function := existsb is_function_def (walk tree) in
     let issues :=
       if negb has_class && negb has_function
       then (issues
               ++ [mkIssue "WARNING" "syntax"
                     "Code contains no classes or functions" 0
                     "Agent code should contain at least a class definition"])%list
       else issues in
     ret (mkResult
            (Nat.eqb (List.length (filter is_error issues)) 0)
            issues
            0.0
            ("Syntax valid, " ++ str_of_Z (Z.of_nat (List.length issues))
               ++ " warnings")))%py
    (fun e =>
       match e with
       | SyntaxError lineno msg =>
           ret (mkResult false
                  [mkIssue "ERROR" "syntax" ("Syntax error: " ++ msg)
                     (match lineno with
                      | Some l => l     (* [e.lineno or 0] *)
                      | None => 0
                      end)
                     "Fix syntax error before proceeding"]
                  0.0
                  ("Syntax error at line " ++ str_of_opt_Z lineno ++ ": "
                     ++ msg))
       | _ =>
           ret (mkResult false
                  [mkIssue "ERROR" "syntax"
                     ("Failed to parse code: " ++ exc_str e) 0
                     "Check code structure"]
                  0.0
                  ("Validation error: " ++ exc_str e))
       end).

(** The end of the [try] block of [validate_code_security]: the result
    built from the issues and the risk accumulated by the checks. *)
Definition finalize (st : state) : ValidationResult :=
  let issues := st_issues st in
  (* Cap risk score at 1.0 *)
  let risk_score := Float.min (st_risk st) 1.0 in
  (* Determine if code is safe *)
  let has_errors := existsb is_error issues in
  let is_safe := negb has_errors && (risk_score <? 0.5)%float in
  mkResult is_safe issues risk_score
    ("Risk score: " ++ format_2f risk_score ++ ", "
       ++ str_of_Z (Z.of_nat (List.length issues)) ++ " issues found").

Definition validate_code_security (code : string) : Py ValidationResult :=
  try_except
    (tree <- parse code ;;
     ret (finalize (run_checks code tree)))%py
    (fun e =>
       ret (mkResult false
              [mkIssue "ERROR" "security"
                 ("Security validation failed: " ++ exc_str e) 0
                 "Fix syntax errors first"]
              1.0
              ("Validation failed: " ++ exc_str e))).

Definition validate_code (code : string) : Py ValidationResult :=
  (* Step 1: Syntax validation (must pass first) *)
  (syntax_result <- validate_code_syntax code ;;
   if negb (valid syntax_result) then ret syntax_result
   else
     (* Step 2: Security validation *)
     security_result <- validate_code_security code ;;
     (* Combine results *)
     let all_issues := (issues syntax_result ++ issues security_result)%list in
     let overall_valid := valid syntax_result && valid security_result in
     ret (mkResult overall_valid all_issues (risk_score security_result)
            ((if overall_valid then "✓ VALID" else "✗ INVALID")
               ++ " - " ++ str_of_Z (Z.of_nat (List.length all_issues))
               ++ " issues, risk: "
               ++ format_2f (risk_score security_result))))%py.

End Validators.

(** ** Vocabulary of the properties stated below *)



(** A statement that imports one module, and that module is denied. *)
Definition denied_import (stmt : node) : bool :=
  match stmt with
  | Import [name] _ => str_mem (root_module name) DANGEROUS_IMPORTS
  | ImportFrom (Some full) _ =>
      negb (String.eqb full "") && str_mem (root_module full) DANGEROUS_IMPORTS
  | _ => false
  end.

(** The spans of the text that one of the four credential patterns
    matches. *)
Definition credential_matches (code : string) : list (nat * nat) :=
  flat_map (fun pm => Re.finditer true (fst pm) code) hardcoded_patterns.

Definition is_warning (i : ValidationIssue) : bool :=
  String.eqb (severity i) "WARNING".

(** The warning of an uncommon import: the one warning of type
    [security]. *)
Definition is_import_warning (i : ValidationIssue) : bool :=
  is_warning i && String.eqb (issue_type i) "security".

Definition import_warnings (r : ValidationResult) : nat :=
  List.length (filter is_import_warning (issues r)).

(** One pass through the body of one of the loops of the checks, seen
    from the issues and the risk: nothing reported, an ERROR with its
    risk, the WARNING of an uncommon import with 0.1, or the WARNING of
    the complexity check with no risk. *)
Inductive finding (st st' : state) : Prop :=
| finding_none :
    st_issues st' = st_issues st ->
    st_risk st' = st_risk st ->
    finding st st'
| finding_error (i : ValidationIssue) (r : PrimFloat.float) :
    is_error i = true ->
    (0.3 <=? r)%float = true ->
    st_issues st' = (st_issues st ++ [i])%list ->
    st_risk st' = (st_risk st + r)%float ->
    finding st st'
| finding_import_warning (i : ValidationIssue) :
    is_error i = false ->
    is_import_warning i = true ->
    st_issues st' = (st_issues st ++ [i])%list ->
    st_risk st' = (st_risk st + 0.1)%float ->
    finding st st'
| finding_quality_warning (i : ValidationIssue) :
    is_error i = false ->
    is_import_warning i = false ->
    st_issues st' = (st_issues st ++ [i])%list ->
    st_risk st' = st_risk st ->
    finding st st'.

Inductive findings (st : state) : state -> Prop :=
| findings_done : findings st st
| findings_more (st' st'' : state) :
    findings st st' -> finding st' st'' -> findings st st''.

Definition errors_in (st : state) : bool := existsb is_error (st_issues st).

(** Number of uncommon-import warnings reported so far. *)
Definition warned (st : state) : nat :=
  List.length (filter is_import_warning (st_issues st)).


(** Number of parser calls among the events. *)
Definition parse_calls (w : list event) : nat :=
  List.length
    (filter (fun ev => match ev with EvParse _ => true | _ => false end) w).

(** The line of [code] that holds position [pos], without its newline:
    from after the last newline before [pos] to the next newline at or
    after [stop], or to the end of the text. *)
Definition enclosing_line (code : string) (m : nat * nat) : string :=
  let '(m_start, m_end) := m in
  let line_start := rfind_char newline code m_start + 1 in
  let line_end :=
    match find_char_from newline (drop m_end code) m_end with
    | Some i => Z.of_nat i
    | None => len code
    end in
  slice code line_start line_end.

End CodeValidator.

(* ===================================================================== *)
(** * Documents loaded by yaml.safe_load                                  *)
(* ===================================================================== *)

Module Yaml.
Import Python.

(** The Python values that [yaml.safe_load] builds. *)
Inductive value : Type :=
| YNone
| YBool (b : bool)
| YInt (n : Z)
| YFloat (f : SpecFloat.spec_float)
| YStr (s : string)
| YBytes (s : string)
| YDate (iso : string)                (* datetime.date, datetime.datetime *)
| YList (items : list value)
| YSet (items : list value)
| YDict (items : list (value * value)).

(** [bool(v)], the test of [if v:] *)
Definition truthy (v : value) : bool :=
  match v with
  | YNone => false
  | YBool b => b
  | YInt n => negb (n =? 0)
  | YFloat (SpecFloat.S754_zero _) => false
  | YFloat _ => true
  | YStr s => negb (String.eqb s "")
  | YBytes s => negb (String.eqb s "")
  | YDate _ => true
  | YList items => negb (Nat.eqb (List.length items) 0)
  | YSet items => negb (Nat.eqb (List.length items) 0)
  | YDict items => negb (Nat.eqb (List.length items) 0)
  end.

(** [d.get(field)] for a string [field]: only a string key can be equal
    to it. *)
Fixpoint lookup (d : list (value * value)) (field : string) : option value :=
  match d with
  | [] => None
  | (YStr k, v) :: d' => if String.eqb k field then Some v else lookup d' field
  | _ :: d' => lookup d' field
  end.

(** [type(v).__name__] *)
Definition type_name (v : value) : string :=
  match v with
  | YNone => "NoneType"
  | YBool _ => "bool"
  | YInt _ => "int"
  | YFloat _ => "float"
  | YStr _ => "str"
  | YBytes _ => "bytes"
  | YDate _ => "datetime.date"
  | YList _ => "list"
  | YSet _ => "set"
  | YDict _ => "dict"
  end.

End Yaml.

(* ===================================================================== *)
(** * tools/validate_agent_specification.py                               *)
(* ===================================================================== *)

Module SpecValidator.
Import Python Yaml.

(** The types a field is checked against with [isinstance]. *)
Inductive py_type : Type := TStr | TList | TDict.

(** [ValidateAgentSpecificationTool.REQUIRED_FIELDS], in the order of
    the dict; a tuple of types is a list of several. *)
Definition REQUIRED_FIELDS : list (string * list py_type) :=
  [("agent_name", [TStr]);
   ("agent_type", [TStr]);
   ("version", [TStr]);
   ("description", [TStr]);
   ("role", [TStr]);
   ("capabilities", [TList; TDict]);
   ("workflow", [TDict]);
   ("dependencies", [TDict])].

Definition OPTIONAL_FIELDS : list (string * list py_type) :=
  [("data_sources", [TList; TDict]);
   ("tools", [TList]);
   ("performance", [TDict]);
   ("logging", [TDict]);
   ("testing", [TDict])].

(** [field in spec and spec[field]] *)
Definition present (spec : list (value * value)) (field : string) : bool :=
  match lookup spec field with
  | Some v => truthy v
  | None => false
  end.

(** The loop [for field in fields.keys(): if ...: present_fields += 1] *)
Definition count_present (spec : list (value * value))
  (fields : list (string * list py_type)) (present_fields : Z) : Z :=
  fold_left
    (fun n field => if present spec (fst field) then n + 1 else n)
    fields present_fields.

(** [ValidateAgentSpecificationTool._calculate_completeness] *)
Definition _calculate_completeness (spec : list (value * value)) : Q :=
  let total_fields :=
    Z.of_nat (List.length REQUIRED_FIELDS) + Z.of_nat (List.length OPTIONAL_FIELDS) in
  let present_fields := 0 in
  let present_fields := count_present spec REQUIRED_FIELDS present_fields in
  let present_fields := count_present spec OPTIONAL_FIELDS present_fields in
  ((inject_Z present_fields / inject_Z total_fields) * 100)%Q.

(** [SpecValidationResult.validate_score], the validator of the field
    [completeness_score] *)
Definition validate_score (v : Q) : outcome Q :=
  if Qle_bool 0 v && Qle_bool v 100 then Returned v
  else Raised (ValueError "Completeness score must be between 0 and 100").

(** ** Vocabulary of the properties stated below *)

(** The fields that the score tracks: required, then optional. *)
Definition tracked_fields : list string :=
  (map fst REQUIRED_FIELDS ++ map fst OPTIONAL_FIELDS)%list.

(** Every tracked field is a key of the document, with a value that
    Python takes for true. *)
Definition all_present (spec : list (value * value)) : bool :=
  forallb (present spec) tracked_fields.

End SpecValidator.

(* ===================================================================== *)
(** * tools/generate_agent_code.py                                        *)
(* ===================================================================== *)

Module GenerateAgentCode.
Import Python Yaml.

Definition q : string := String dquote "".

Record Metadata : Type := mkMetadata {
  lines : Z;
  complexity : value;
  has_docstrings : bool;
  has_type_hints : bool;
  has_error_handling : bool;
  agent_name : value;
  agent_type : value
}.

(** The dict that [generate_agent_code] returns; the key [retry_count]
    is set by [generate_agent_code_with_retry] only. *)
Record Result : Type := mkResult {
  code : string;
  metadata : Metadata;
  retry_count : option Z
}.

Definition system_prompt : string :=
  "You are an expert Python developer specializing in agent systems.
Your task is to generate production-ready Python code from a YAML specification.

REQUIREMENTS:
1. Generate complete, working Python code
2. Follow PEP 8 style guide strictly
3. Use type hints throughout (from typing import ...)
4. Include comprehensive docstrings (Google style)
5. Use Pydantic for data validation
6. Use loguru for logging
7. Include error handling (try/except with specific exceptions)
8. NO hardcoded values - all config from environment or parameters
9. Make it compatible with the agent system (proper imports, structure)
10. Include __init__ method with proper initialization
11. All methods should have clear purpose and clean implementation
12. ENSURE ALL CODE IS SYNTACTICALLY VALID - no incomplete functions or classes
13. EVERY function and class MUST have a complete body
14. ALL brackets, parentheses, and quotes MUST be properly closed

SECURITY - CRITICAL RULES:
- NEVER hardcode passwords, API keys, tokens, or secrets
- ALWAYS use os.getenv() for sensitive configuration (e.g., os.getenv('DATABASE_URL'))
- Database credentials must come from environment variables
- Use empty strings " ++ q ++ "" ++ q ++ " for default password values, NOT example values like " ++ q ++ "admin" ++ q ++ " or " ++ q ++ "password123" ++ q ++ "
- Example: password = os.getenv('DB_PASSWORD', '') ✓
- Example: password = " ++ q ++ "admin" ++ q ++ " ✗ WRONG

CODE STRUCTURE:
- Imports at top (standard library, then third-party, then local)
- Pydantic models for data structures (if needed)
- Main agent class
- All methods with docstrings
- Proper error handling in each method
- Logger statements for key operations

CRITICAL - CODE COMPLETENESS:
- The generated code MUST parse without syntax errors
- DO NOT truncate output - generate the ENTIRE implementation
- Every function definition needs a body (cannot end with just a colon)
- Every class definition needs a body
- All strings must be properly quoted
- All parentheses, brackets, and braces must be balanced

IMPORTANT:
- Output ONLY Python code, no explanations
- Code must be syntactically correct and complete
- No placeholder or TODO comments
- Complete, working implementation based on spec
- All sensitive values from environment variables
".

(** The f-string that [generate_agent_code] sends as user prompt. *)
Definition user_prompt (yaml_specification additional_instructions : string)
  : string :=
  "Generate complete Python code for this agent:

YAML SPECIFICATION:
```yaml
" ++ yaml_specification ++ "
```

Generate production-ready Python code following all requirements.
The code should be complete and directly usable." ++ additional_instructions.

(** The f-string that becomes [additional_instructions] after a syntax
    error. *)
Definition feedback (syntax_error context : string) : string :=
  "

⚠️ PREVIOUS ATTEMPT FAILED WITH SYNTAX ERROR:
" ++ syntax_error ++ "

Code context around the error:
" ++ context ++ "

CRITICAL FIX REQUIRED:
1. The code MUST be syntactically valid Python
2. ALL brackets, parentheses, and braces MUST be properly closed
3. ALL function and class definitions MUST have proper bodies
4. ALL strings MUST have matching quotes
5. Check indentation carefully - Python requires consistent indentation
6. DO NOT leave any incomplete statements
7. DO NOT truncate the code - generate the COMPLETE implementation

Generate COMPLETE, VALID Python code. Every function must have a body. Every class must be complete.
".

(** [spec.get(key, default)]; a [spec] that is no dict has no [get]. *)
Definition spec_get (spec : value) (key : string) (default : value)
  : outcome value :=
  match spec with
  | YDict items =>
      match lookup items key with
      | Some v => Returned v
      | None => Returned default
      end
  | _ => Raised (OtherException
                   ("'" ++ type_name spec ++ "' object has no attribute 'get'"))
  end.

Definition lift {A : Type} (o : outcome A) : Py A := fun w => (o, w).

(** The clean-up of the text the LLM returns: white space and markdown
    code fences at its ends. *)
Definition remove_code_fences (code : string) : string :=
  let code := strip code in
  let code :=
    if startswith code "```python" then slice_from code 9 else code in
  let code := if startswith code "```" then slice_from code 3 else code in
  let code := if endswith code "```" then slice_to code (-3) else code in
  strip code.

Definition calculate_metadata (code : string)
  (complexity agent_name agent_type : value) : Metadata :=
  let lines := Z.of_nat (List.length (split code nl)) in
  let has_docstrings :=
    contains code (q ++ q ++ q) || contains code "'''" in
  let has_type_hints := contains code "->" || contains code ": " in
  let has_error_handling :=
    contains code "try:" && contains code "except" in
  mkMetadata lines complexity has_docstrings has_type_hints
    has_error_handling agent_name agent_type.

(** Number of calls of the LLM client so far. *)
Definition generate_calls (w : list event) : nat :=
  List.length
    (filter (fun ev => match ev with EvGenerate _ _ => true | _ => false end) w).

Section Generation.

(** [ast.parse]: the body of the module, or what it raises. *)
Variable ast_parse : string -> outcome (list Ast.node).
(** [yaml.safe_load] *)
Variable yaml_safe_load : string -> outcome value.
(** [llm_client.generate]: what call number [n] (from 0) returns or
    raises, given the system and the user prompt.  The source always
    passes [temperature=0.1] and [max_tokens=4096]. *)
Variable llm : nat -> string -> string -> outcome string.

Definition llm_generate (system_prompt user_prompt : string) : Py string :=
  fun w =>
    (llm (generate_calls w) system_prompt user_prompt,
     (w ++ [EvGenerate system_prompt user_prompt])%list).

(** [ast.parse(code)], the tree dropped *)
Definition parse (code : string) : Py unit :=
  (_ <- emit (EvParse code) ;;
   match ast_parse code with
   | Returned _ => ret tt
   | Raised e => raise e
   end)%py.

Definition _check_syntax (code : string) : Py (option string) :=
  try_except
    (_ <- parse code ;; ret None)%py
    (fun e =>
       match e with
       | SyntaxError lineno msg =>
           ret (Some ("Syntax error at line " ++ str_of_opt_Z lineno ++ ": "
                        ++ msg))
       | _ => ret (Some ("Parse error: " ++ exc_str e))
       end).

Definition generate_agent_code
  (yaml_specification style_guide additional_instructions : string)
  : Py Result :=
  (* Parse YAML to get agent details *)
  (parsed <-
     try_except
       (spec <- lift (yaml_safe_load yaml_specification) ;;
        agent_name <- lift (spec_get spec "agent_name" (YStr "UnknownAgent")) ;;
        agent_type <- lift (spec_get spec "agent_type" (YStr "unknown")) ;;
        complexity <- lift (spec_get spec "complexity" (YStr "MEDIUM")) ;;
        ret (agent_name, agent_type, complexity))
       (fun e =>
          match e with
          | YAMLError _ =>
              raise (ValueError ("Invalid YAML specification: " ++ exc_str e))
          | _ => raise e
          end) ;;
   let '(agent_name, agent_type, complexity) := parsed in
   let user_prompt := user_prompt yaml_specification additional_instructions in
   try_except
     ((* Call LLM to generate code *)
      code <- llm_generate system_prompt user_prompt ;;
      (* Remove markdown code blocks if present *)
      let code := remove_code_fences code in
      (* Calculate metadata *)
      let metadata :=
        calculate_metadata code complexity agent_name agent_type in
      ret (mkResult code metadata None))
     (fun e =>
        raise (RuntimeError
                 ("Code generation failed: " ++ exc_str e ++ ". "
                    ++ "This indicates an issue with LLM response."))))%py.

(** How one pass through the body of the retry loop ends when it does
    not raise: the function returns, or the loop goes on with these
    [additional_instructions]. *)
Inductive step : Type :=
| Return (result : Result)
| Next (additional_instructions : string).

(** [int(syntax_error.split('line ')[1].split(':')[0])
       if 'line ' in syntax_error else 0] *)
Definition error_line_num (syntax_error : string) : outcome Z :=
  if contains syntax_error "line "
  then
    let text := nth 0 (split (nth 1 (split syntax_error "line ") "") ":") "" in
    match int_of_str text with
    | Some n => Returned n
    | None =>
        Raised (ValueError
                  ("invalid literal for int() with base 10: '" ++ text ++ "'"))
    end
  else Returned 0.

(** The code snippet around the error line, each line with its
    number. *)
Definition context_of (code : string) (error_line_num : Z) : string :=
  let code_lines := split code nl in
  let context_start := Z.max 0 (error_line_num - 3) in
  let context_end :=
    Z.min (Z.of_nat (List.length code_lines)) (error_line_num + 2) in
  join nl
    (map (fun '(i, line) => str_of_Z (i + 1) ++ ": " ++ line)
       (enumerate (list_slice code_lines context_start context_end)
          context_start)).

Definition debug_path (attempt : Z) : string :=
  "/tmp/generated_code_attempt_" ++ str_of_Z (attempt + 1) ++ ".py".

(** The body of [for attempt in range(max_retries)], with its two
    [except] clauses. *)
Definition attempt_body (yaml_specification style_guide : string)
  (max_retries attempt : Z) (additional_instructions : string) : Py step :=
  try_except
    ((* Try to generate code *)
     result <- generate_agent_code yaml_specification style_guide
                 additional_instructions ;;
     let code := code result in
     (* Save for debugging if syntax error occurs *)
     _ <- emit (EvWrite (debug_path attempt) code) ;;
     (* Check syntax *)
     syntax_error <- _check_syntax code ;;
     match syntax_error with
     | None =>
         (* Success! *)
         ret (Return (mkResult code (metadata result) (Some attempt)))
     | Some syntax_error =>
         if attempt <? max_retries - 1
         then
           (* Try again with feedback *)
           n <- lift (error_line_num syntax_error) ;;
           ret (Next (feedback syntax_error (context_of code n)))
         else
           (* Final attempt failed *)
           raise (ValueError
                    ("Code generation failed after " ++ str_of_Z max_retries
                       ++ " attempts. " ++ "Last error: " ++ syntax_error
                       ++ ". " ++ "Debug code at: " ++ debug_path attempt))
     end)%py
    (fun e =>
       match e with
       | ValueError _ =>
           (* Re-raise ValueError (includes final retry failure) *)
           raise e
       | _ =>
           if attempt >=? max_retries - 1
           then raise (RuntimeError
                         ("Code generation failed after "
                            ++ str_of_Z max_retries ++ " attempts: "
                            ++ exc_str e))
           else ret (Next additional_instructions)
       end).

(** The loop over the attempts that are left. *)
Fixpoint attempts_loop (yaml_specification style_guide : string)
  (max_retries : Z) (attempts : list Z) (additional_instructions : string)
  : Py Result :=
  match attempts with
  | [] => raise (RuntimeError "Code generation failed: Maximum retries reached")
  | attempt :: rest =>
      (s <- attempt_body yaml_specification style_guide max_retries attempt
              additional_instructions ;;
       match s with
       | Return result => ret result
       | Next additional_instructions =>
           attempts_loop yaml_specification style_guide max_retries rest
             additional_instructions
       end)%py
  end.

Definition generate_agent_code_with_retry
  (yaml_specification style_guide : string) (max_retries : Z) : Py Result :=
  let additional_instructions := "" in
  attempts_loop yaml_specification style_guide max_retries
    (range max_retries) additional_instructions.

(** ** Vocabulary of the properties stated below *)

(** What [_check_syntax] returns for a text. *)
Definition syntax_error_of (code : string) : option string :=
  match ast_parse code with
  | Returned _ => None
  | Raised (SyntaxError lineno msg) =>
      Some ("Syntax error at line " ++ str_of_opt_Z lineno ++ ": " ++ msg)
  | Raised e => Some ("Parse error: " ++ exc_str e)
  end.

(** Every answer of the LLM client is a text with a syntax error in
    whose message the feedback builder finds a line number. *)
Definition always_fails : Prop :=
  forall n system user,
  exists text syntax_error line,
    llm n system user = Returned text
    /\ syntax_error_of (remove_code_fences text) = Some syntax_error
    /\ error_line_num syntax_error = Returned line.

(** Every answer of the LLM client is a text for which the parser
    raises a [SyntaxError] that has a line number. *)
Definition always_syntax_error : Prop :=
  forall n system user,
  exists text line msg,
    llm n system user = Returned text
    /\ ast_parse (remove_code_fences text)
       = Raised (SyntaxError (Some line) msg).

(** Every call of the LLM client raises. *)
Definition never_answers : Prop :=
  forall n system user, exists e, llm n system user = Raised e.

End Generation.

(** The values that [generate_agent_code] reads from a specification
    that loads as a dict. *)
Definition details_of (items : list (value * value)) : value * value * value :=
  (match lookup items "agent_name" with
   | Some v => v | None => YStr "UnknownAgent" end,
   match lookup items "agent_type" with
   | Some v => v | None => YStr "unknown" end,
   match lookup items "complexity" with
   | Some v => v | None => YStr "MEDIUM" end).

(** The dict that [generate_agent_code] returns when the LLM answers
    [text]. *)
Definition result_for (items : list (value * value)) (text : string)
  : Result :=
  let '(agent_name, agent_type, complexity) := details_of items in
  mkResult (remove_code_fences text)
    (calculate_metadata (remove_code_fences text) complexity agent_name
       agent_type)
    None.



(** The files written, oldest first. *)
Definition files_written (w : list event) : list (string * string) :=
  flat_map (fun ev => match ev with
                      | EvWrite path content => [(path, content)]
                      | _ => []
                      end) w.

End GenerateAgentCode.

(* ===================================================================== *)
(** * meta_agent/generators/script_generator.py: generate_script          *)
(* ===================================================================== *)

Module ScriptGenerator.
Import Python.

(** The fields of [TaskAnalysis] and [ExecutionPlan] that
    [generate_script] reads. *)
Record TaskAnalysis : Type := mkTaskAnalysis {
  task_type : string;
  requires_web_interface : bool;
  requires_simulation : bool
}.

Record ExecutionPlan : Type := mkExecutionPlan {
  plan_name : string;
  dependencies : list string
}.

Record Metadata : Type := mkMetadata {
  generated_at : string;
  md_task_type : string;
  md_plan_name : string;
  lines_of_code : Z;
  requires_web : bool;
  md_requires_simulation : bool;
  md_dependencies : list string
}.

Record GeneratedScript : Type := mkGeneratedScript {
  script : string;
  requirements : string;
  env_example : string;
  metadata : Metadata
}.

(** The f-string that [generate_script] appends to the system prompt
    after a syntax error. *)
Definition feedback (error_msg context : string) : string :=
  "

PREVIOUS ATTEMPT HAD SYNTAX ERROR:
Error: " ++ error_msg ++ "
Context:
" ++ context ++ "

CRITICAL FIX REQUIRED:
- Check all brackets (), [], {} are properly closed
- Check all quotes are properly closed
- Ensure proper indentation
- Make sure all function/class bodies are complete".

(** The lines around the error line, each with its number *)
Definition context_of (script_code : string) (lineno : option Z) : string :=
  let lines := split script_code nl in
  let error_line :=
    match lineno with
    | Some l => if l =? 0 then 1 else l
    | None => 1
    end in
  let context_start := Z.max 0 (error_line - 3) in
  let context_end := Z.min (Z.of_nat (List.length lines)) (error_line + 3) in
  join nl
    (map (fun i => str_of_Z (i + 1) ++ ": " ++ nth (Z.to_nat i) lines "")
       (map (fun k => context_start + k) (range (context_end - context_start)))).

Section Generation.

Variable ast_parse : string -> outcome (list Ast.node).
(** [llm_client.generate], as in [GenerateAgentCode] *)
Variable llm : nat -> string -> string -> outcome string.

(** Helpers of the same file whose results [generate_script] passes on
    as they are: the two prompt builders (the second one reads the
    database schema, a value [generate_script] only hands over), the
    clean-up of the text the LLM returns, the two file generators; and
    the clock. *)
Variable _build_system_prompt : string.
Variable Schema : Type.
Variable _build_user_prompt :
  TaskAnalysis -> ExecutionPlan -> option Schema -> string.
Variable _clean_code : string -> string.
Variable _generate_requirements : ExecutionPlan -> bool -> string -> string.
Variable _generate_env_example :
  TaskAnalysis -> ExecutionPlan -> string -> string.
Variable now_isoformat : string.

Definition llm_generate (system_prompt user_prompt : string) : Py string :=
  fun w =>
    (llm (GenerateAgentCode.generate_calls w) system_prompt user_prompt,
     (w ++ [EvGenerate system_prompt user_prompt])%list).

Definition parse (code : string) : Py unit :=
  (_ <- emit (EvParse code) ;;
   match ast_parse code with
   | Returned _ => ret tt
   | Raised e => raise e
   end)%py.

(** How one pass through the body of the loop ends when it does not
    raise: [return], or on to the next attempt with this system
    prompt. *)
Inductive step : Type :=
| Return (result : GeneratedScript)
| Next (system_prompt : string).

Definition attempt_body (task_analysis : TaskAnalysis)
  (execution_plan : ExecutionPlan) (user_prompt : string)
  (max_retries attempt : Z) (system_prompt : string) : Py step :=
  try_except
    ((* Generate script *)
     script_code <- llm_generate system_prompt user_prompt ;;
     (* Clean up markdown if present *)
     let script_code := _clean_code script_code in
     (* Validate syntax *)
     checked <-
       try_except
         (_ <- parse script_code ;; ret None)
         (fun e =>
            match e with
            | SyntaxError lineno msg =>
                let error_msg :=
                  "Syntax error at line " ++ str_of_opt_Z lineno ++ ": "
                    ++ msg in
                if attempt <? max_retries - 1
                then
                  (* Provide feedback for retry: [continue] *)
                  ret (Some (system_prompt
                               ++ feedback error_msg
                                    (context_of script_code lineno)))
                else raise e
            | _ => raise e
            end) ;;
     match checked with
     | Some system_prompt => ret (Next system_prompt)
     | None =>
         let requirements :=
           _generate_requirements execution_plan
             (requires_web_interface task_analysis) script_code in
         let env_example :=
           _generate_env_example task_analysis execution_plan script_code in
         let metadata :=
           mkMetadata now_isoformat (task_type task_analysis)
             (plan_name execution_plan)
             (Z.of_nat (List.length (split script_code nl)))
             (requires_web_interface task_analysis)
             (requires_simulation task_analysis)
             (dependencies execution_plan) in
         ret (Return (mkGeneratedScript script_code requirements env_example
                        metadata))
     end)%py
    (fun e =>
       match e with
       | SyntaxError _ _ =>
           if attempt >=? max_retries - 1
           then raise (ValueError
                         ("Failed to generate valid script after "
                            ++ str_of_Z max_retries ++ " attempts: "
                            ++ exc_str e))
           else ret (Next system_prompt)
       | _ => raise (ValueError ("Failed to generate script: " ++ exc_str e))
       end).

(** The loop; when the attempts run out without a [return] or a
    [raise], the function falls off its end and returns [None]. *)
Fixpoint attempts_loop (task_analysis : TaskAnalysis)
  (execution_plan : ExecutionPlan) (user_prompt : string)
  (max_retries : Z) (attempts : list Z) (system_prompt : string)
  : Py (option GeneratedScript) :=
  match attempts with
  | [] => ret None
  | attempt :: rest =>
      (s <- attempt_body task_analysis execution_plan user_prompt
              max_retries attempt system_prompt ;;
       match s with
       | Return result => ret (Some result)
       | Next system_prompt =>
           attempts_loop task_analysis execution_plan user_prompt
             max_retries rest system_prompt
       end)%py
  end.

Definition generate_script (task_analysis : TaskAnalysis)
  (execution_plan : ExecutionPlan) (database_schema : option Schema)
  (max_retries : Z) : Py (option GeneratedScript) :=
  (* Build comprehensive prompts *)
  let system_prompt := _build_system_prompt in
  let user_prompt :=
    _build_user_prompt task_analysis execution_plan database_schema in
  attempts_loop task_analysis execution_plan user_prompt max_retries
    (range max_retries) system_prompt.

End Generation.

(** ** Vocabulary of the properties stated below *)


(** The system prompt after attempts that were retried: [failures]
    holds, for each of them in order, the text the LLM returned and the
    line and the message of the syntax error found in it. *)
Definition prompt_after (_clean_code : string -> string)
  (system_prompt : string) (failures : list (string * option Z * string))
  : string :=
  fold_left
    (fun system_prompt failure =>
       let '(text, lineno, msg) := failure in
       system_prompt
         ++ feedback
              ("Syntax error at line " ++ str_of_opt_Z lineno ++ ": " ++ msg)
              (context_of (_clean_code text) lineno))
    failures system_prompt.


End ScriptGenerator.

(* ===================================================================== *)
(** * Sample inputs                                                       *)
(* ===================================================================== *)

(** Concrete texts with the trees [ast.parse] builds for them, a parser
    that knows these texts, and a [:.2f] formatter: the inputs at which
    the properties below are tried. *)
Module Samples.
Import Python Ast.

Definition q : string := String dquote "".

(** A parser given by a table; a text that is not in the table is a
    syntax error on line 1. *)
Fixpoint table_parse (table : list (string * outcome (list node)))
  (code : string) : outcome (list node) :=
  match table with
  | [] => Raised (SyntaxError (Some 1) "invalid syntax")
  | (text, result) :: table' =>
      if String.eqb code text then result else table_parse table' code
  end.

(** Five imports of modules that are in no policy table. *)
Definition five_imports : string :=
  "import numpy
import pandas
import scipy
import flask
import redis".

Definition five_imports_body : list node :=
  [Import ["numpy"] 1; Import ["pandas"] 2; Import ["scipy"] 3;
   Import ["flask"] 4; Import ["redis"] 5].

(** Four of them. *)
Definition four_imports : string :=
  "import numpy
import pandas
import scipy
import flask".

Definition four_imports_body : list node :=
  [Import ["numpy"] 1; Import ["pandas"] 2; Import ["scipy"] 3;
   Import ["flask"] 4].

Definition import_subprocess : string := "import subprocess".
Definition import_subprocess_body : list node := [Import ["subprocess"] 1].

(** An expression statement that calls [eval], then one that calls
    [obj.exec]. *)
Definition two_denied_calls : string :=
  "eval(x)
obj.exec(y)".

Definition two_denied_calls_body : list node :=
  [Other [Call (Name "eval") [Name "x"] 1];
   Other [Call (Attribute (Name "obj") "exec") [Name "y"] 2]].

Definition three_denied_calls : string :=
  "eval(x)
obj.exec(y)
compile(z)".

Definition three_denied_calls_body : list node :=
  [Other [Call (Name "eval") [Name "x"] 1];
   Other [Call (Attribute (Name "obj") "exec") [Name "y"] 2];
   Other [Call (Name "compile") [Name "z"] 3]].

(** Two assignments on the last line of a text that does not end in a
    newline: a password literal and an empty string. *)
Definition password_then_empty : string :=
  "password = " ++ q ++ "abcd" ++ q ++ "; user = " ++ q ++ q.

Definition password_then_empty_body : list node :=
  [Other [Name "password"; Other []]; Other [Name "user"; Other []]].

Definition unparsable : string := "def f(:".

(** An agent specification with every tracked field filled in, and one
    with the agent name only. *)
Definition complete_spec : list (Yaml.value * Yaml.value) :=
  let s := Yaml.YStr in
  [(s "agent_name", s "CalcAgent");
   (s "agent_type", s "calculation");
   (s "version", s "1.0.0");
   (s "description", s "Calculates the debt coverage ratio");
   (s "role", s "primary_agent");
   (s "capabilities", Yaml.YList [s "calculate_dscr"]);
   (s "workflow", Yaml.YDict [(s "steps", Yaml.YDict [(s "step_1", s "load")])]);
   (s "dependencies", Yaml.YDict [(s "python_packages", Yaml.YList [s "pydantic"])]);
   (s "data_sources", Yaml.YList [s "postgresql"]);
   (s "tools", Yaml.YList [s "calculator"]);
   (s "performance", Yaml.YDict [(s "timeout", Yaml.YInt 30)]);
   (s "logging", Yaml.YDict [(s "level", s "INFO")]);
   (s "testing", Yaml.YDict [(s "test_scenarios", Yaml.YList [s "basic"])])].

Definition name_only_spec : list (Yaml.value * Yaml.value) :=
  [(Yaml.YStr "agent_name", Yaml.YStr "CalcAgent")].

(** The YAML text of [name_only_spec], and a loader that knows it. *)
Definition spec_text : string := "agent_name: CalcAgent".

Definition yaml_loader (text : string) : outcome Yaml.value :=
  if String.eqb text spec_text then Returned (Yaml.YDict name_only_spec)
  else Raised (YAMLError "could not find expected ':'").

(** An LLM client that gives the answers of a list, one per call, and
    is unreachable after the last. *)
Definition scripted (answers : list (outcome string)) (n : nat)
  (system_prompt user_prompt : string) : outcome string :=
  nth n answers (Raised (OtherException "Connection refused")).

(** Texts an LLM may return: one that parses, two with different
    syntax errors, one with a NUL character. *)
Definition good_code : string := "x = 1".
Definition good_code_body : list node := [Other [Name "x"; Other []]].
Definition bad_code_1 : string := "def f(:".
Definition bad_code_2 : string := "x = (1".
Definition nul_code : string := "x = " ++ String (ascii_of_nat 0) "1".

(** A parser for these texts; for the text with the NUL character it
    raises the [SyntaxError] without position that CPython 3.12 and
    later raise. *)
Definition code_parser : string -> outcome (list node) :=
  table_parse
    [(good_code, Returned good_code_body);
     (bad_code_1, Raised (SyntaxError (Some 1) "invalid syntax"));
     (bad_code_2, Raised (SyntaxError (Some 1) "'(' was never closed"));
     (nul_code,
      Raised (SyntaxError None
                "source code string cannot contain null bytes"))].

(** Stand-ins for the helpers of [script_generator.py] that
    [generate_script] passes its data through, and a task. *)
Definition script_system_prompt : string :=
  "You are an expert Python developer. Generate production-ready, executable Python scripts.".
Definition script_user_prompt
  (task : ScriptGenerator.TaskAnalysis) (plan : ScriptGenerator.ExecutionPlan)
  (database_schema : option unit) : string :=
  "Generate a complete Python script for this task: "
    ++ ScriptGenerator.plan_name plan.
Definition requirements_of (plan : ScriptGenerator.ExecutionPlan)
  (has_web_interface : bool) (script_code : string) : string :=
  join nl (ScriptGenerator.dependencies plan).
Definition env_example_of (task : ScriptGenerator.TaskAnalysis)
  (plan : ScriptGenerator.ExecutionPlan) (script_code : string) : string := "".
Definition clock : string := "2025-11-03T01:21:45".
Definition task : ScriptGenerator.TaskAnalysis :=
  ScriptGenerator.mkTaskAnalysis "calculation" false false.
Definition plan : ScriptGenerator.ExecutionPlan :=
  ScriptGenerator.mkExecutionPlan "dscr" ["loguru"].

Definition llm_unavailable : exception :=
  RuntimeError
    "LLM is not available. Cannot generate without LM Studio. Please ensure LM Studio is running with model loaded.".

(** An LLM client that fails once and then answers; one that is never
    reachable; one that returns the text with the NUL character; one
    that returns two texts with different syntax errors, then a text
    that parses. *)
Definition llm_fails_once : nat -> string -> string -> outcome string :=
  scripted [Raised llm_unavailable; Returned good_code].
Definition llm_down : nat -> string -> string -> outcome string :=
  scripted [].
Definition llm_nul : nat -> string -> string -> outcome string :=
  scripted [Returned nul_code; Returned nul_code].
Definition llm_third_time : nat -> string -> string -> outcome string :=
  scripted [Returned bad_code_1; Returned bad_code_2; Returned good_code].
Definition llm_bad : nat -> string -> string -> outcome string :=
  scripted [Returned bad_code_1].

Definition parser : string -> outcome (list node) :=
  table_parse
    [(five_imports, Returned five_imports_body);
     (four_imports, Returned four_imports_body);
     (import_subprocess, Returned import_subprocess_body);
     (two_denied_calls, Returned two_denied_calls_body);
     (three_denied_calls, Returned three_denied_calls_body);
     (password_then_empty, Returned password_then_empty_body);
     (password_then_empty ++ nl, Returned password_then_empty_body)].

(** The number that a finite float stands for. *)
Definition value_of (x : PrimFloat.float) : Q :=
  match FloatOps.Prim2SF x with
  | SpecFloat.S754_finite s m e =>
      let v := if 0 <=? e then inject_Z (Zpos m * 2 ^ e)
               else (Zpos m # Z.to_pos (2 ^ (- e))) in
      if s then (- v)%Q else v
  | _ => 0%Q
  end.

(** [f"{x:.2f}"] for a finite float that is not negative: its value
    to two decimals, rounded to the nearest, a tie to the even one. *)
Definition format_2f (x : PrimFloat.float) : string :=
  let q := (value_of x * 100)%Q in
  let n := match (q - inject_Z (Qfloor q) ?= 1 # 2)%Q with
           | Lt => Qfloor q
           | Gt => Qfloor q + 1
           | Eq => if Z.even (Qfloor q) then Qfloor q else Qfloor q + 1
           end in
  let cents := n mod 100 in
  str_of_Z (n / 100) ++ "."
    ++ (if cents <? 10 then "0" else "") ++ str_of_Z cents.

End Samples.

(* ===================================================================== *)
(** * code_validator.py: what a tree holds                                *)
(* ===================================================================== *)

(** Vocabulary for the properties of the security validator that speak
    of nodes anywhere in the tree. *)
Module Policy.
Import Python Ast CodeValidator.

(** An [import] or [from ... import] statement that names module [m]:
    the first component of one of its dotted names is [m]. *)
Definition imports_module (m : string) (n : node) : bool :=
  match n with
  | Import names _ =>
      existsb (fun name => String.eqb (root_module name) m) names
  | ImportFrom (Some full) _ =>
      negb (String.eqb full "") && String.eqb (root_module full) m
  | _ => false
  end.

(** An import statement that names a denied module. *)
Definition imports_denied (n : node) : bool :=
  existsb (fun m => imports_module m n) DANGEROUS_IMPORTS.

(** The issue that Check 2b reports for the call [module.func(...)]. *)
Definition unsafe_usage (module_name func_name : string)
  (allowed_funcs : list string) (lineno : Z) : ValidationIssue :=
  mkIssue "ERROR" "security"
    ("Unsafe usage of " ++ module_name ++ "." ++ func_name ++ "()")
    lineno
    ("Only " ++ join ", " allowed_funcs ++ " are allowed for " ++ module_name).

(** An [import] statement, as opposed to [from ... import]. *)
Definition is_import (n : node) : bool :=
  match n with
  | Import _ _ => true
  | _ => false
  end.

End Policy.

(* ===================================================================== *)
(** * tools/validate_agent_specification.py: the validation tool          *)
(* ===================================================================== *)

Module SpecTool.
Import Python Yaml SpecValidator.

Record ValidationIssue : Type := mkIssue {
  severity : string;            (* error, warning, or info *)
  field : string;
  message : string;
  suggestion : option string
}.

Record SpecValidationResult : Type := mkResult {
  is_valid : bool;
  issues : list ValidationIssue;
  warnings : Z;
  errors : Z;
  completeness_score : Q
}.

(** The constructor of the pydantic model: the validator of
    [completeness_score] runs, and what it raises comes out of the
    constructor (as a [ValidationError], a [ValueError]). *)
Definition SpecValidationResult_new (is_valid : bool)
  (issues : list ValidationIssue) (warnings errors : Z)
  (completeness_score : Q) : outcome SpecValidationResult :=
  match validate_score completeness_score with
  | Returned v => Returned (mkResult is_valid issues warnings errors v)
  | Raised e => Raised e
  end.

Definition VALID_AGENT_TYPES : list string :=
  ["data_retrieval"; "calculation"; "validation"; "orchestration";
   "monitoring"; "transformation"].

Definition VALID_ROLES : list string :=
  ["primary_agent"; "secondary_agent"; "support_agent"; "orchestrator"].

(** [isinstance(v, t)] *)
Definition isinstance (v : value) (t : py_type) : bool :=
  match t, v with
  | TStr, YStr _ => true
  | TList, YList _ => true
  | TDict, YDict _ => true
  | _, _ => false
  end.

(** [isinstance(v, expected_type)], for a type or a tuple of types *)
Definition isinstance_any (v : value) (expected_type : list py_type) : bool :=
  existsb (isinstance v) expected_type.

(** [t.__name__] *)
Definition py_type_name (t : py_type) : string :=
  match t with
  | TStr => "str"
  | TList => "list"
  | TDict => "dict"
  end.

(** [isinstance(expected_type, tuple)]: in the tables a type that
    stands alone is a list of one. *)
Definition is_tuple (expected_type : list py_type) : bool :=
  match expected_type with
  | [_] => false
  | _ => true
  end.

(** [str(expected_type)] for a tuple of two or more types *)
Definition tuple_str (expected_type : list py_type) : string :=
  "(" ++ join ", "
           (map (fun t => "<class '" ++ py_type_name t ++ "'>") expected_type)
      ++ ")".

(** [field in spec] *)
Definition has_key (spec : list (value * value)) (field : string) : bool :=
  match lookup spec field with
  | Some _ => true
  | None => false
  end.

(** [v in strings], for a list of strings: only a string is equal to
    one of them. *)
Definition in_strings (v : value) (strings : list string) : bool :=
  match v with
  | YStr s => str_mem s strings
  | _ => false
  end.

(** The characters for which [str.isdigit] holds: the decimal digits
    and the superscripts one, two and three. *)
Definition is_digit_char (c : ascii) : bool :=
  let n := ord c in
  between 48 57 n || between 178 179 n || Nat.eqb n 185.

(** [s.isdigit()] *)
Definition isdigit (s : string) : bool :=
  negb (String.eqb s "") && all_chars is_digit_char s.

(** [v.split(sep)]: a method of [str]; [bytes] has it too, and wants a
    [bytes] separator. *)
Definition value_split (v : value) (sep : string) : outcome (list string) :=
  match v with
  | YStr s => Returned (split s sep)
  | YBytes _ =>
      Raised (OtherException "a bytes-like object is required, not 'str'")
  | _ =>
      Raised (OtherException
                ("'" ++ type_name v ++ "' object has no attribute 'split'"))
  end.

Section Tool.

(** [yaml.safe_load] *)
Variable yaml_safe_load : string -> outcome value.
(** [repr(v)], which is [str(v)] for the values that are neither
    [None], a [bool], an [int] nor a [str]. *)
Variable repr : value -> string.

(** [str(v)], what an f-string shows of [v] *)
Definition str_of_value (v : value) : string :=
  match v with
  | YNone => "None"
  | YBool true => "True"
  | YBool false => "False"
  | YInt n => str_of_Z n
  | YStr s => s
  | _ => repr v
  end.

Definition _validate_required_fields (spec : list (value * value))
  : list ValidationIssue :=
  flat_map
    (fun '(field, expected_type) =>
       if negb (has_key spec field)
       then [mkIssue "error" field
               ("Required field '" ++ field ++ "' is missing")
               (Some ("Add '" ++ field ++ "' to the specification"))]
       else [])
    REQUIRED_FIELDS.

Definition _validate_field_types (spec : list (value * value))
  : list ValidationIssue :=
  flat_map
    (fun '(field, expected_type) =>
       match lookup spec field with
       | Some value =>
           if is_tuple expected_type
           then
             if negb (isinstance_any value expected_type)
             then [mkIssue "error" field
                     ("Field '" ++ field ++ "' must be one of types "
                        ++ tuple_str expected_type)
                     (Some ("Change '" ++ field ++ "' to a valid type"))]
             else []
           else
             if negb (isinstance_any value expected_type)
             then [mkIssue "error" field
                     ("Field '" ++ field ++ "' must be of type "
                        ++ join ", " (map py_type_name expected_type))
                     (Some ("Change '" ++ field ++ "' to "
                              ++ join ", " (map py_type_name expected_type)))]
             else []
       | None => []
       end)
    REQUIRED_FIELDS.

Definition _validate_agent_type (spec : list (value * value))
  : list ValidationIssue :=
  match lookup spec "agent_type" with
  | Some agent_type =>
      if negb (in_strings agent_type VALID_AGENT_TYPES)
      then [mkIssue "warning" "agent_type"
              ("Agent type '" ++ str_of_value agent_type
                 ++ "' is not in standard types")
              (Some ("Consider using one of: "
                       ++ join ", " VALID_AGENT_TYPES))]
      else []
  | None => []
  end.

Definition _validate_role (spec : list (value * value))
  : list ValidationIssue :=
  match lookup spec "role" with
  | Some role =>
      if negb (in_strings role VALID_ROLES)
      then [mkIssue "warning" "role"
              ("Role '" ++ str_of_value role ++ "' is not in standard roles")
              (Some ("Consider using one of: " ++ join ", " VALID_ROLES))]
      else []
  | None => []
  end.

(** The version is split without a look at its type, so this check
    raises for a version that is no string. *)
Definition _validate_version (spec : list (value * value))
  : outcome (list ValidationIssue) :=
  match lookup spec "version" with
  | Some version =>
      match value_split version "." with
      | Returned parts =>
          if negb (Nat.eqb (List.length parts) 3)
          then Returned
                 [mkIssue "warning" "version"
                    "Version should follow semantic versioning (MAJOR.MINOR.PATCH)"
                    (Some "Use format like '1.0.0'")]
          else if existsb (fun part => negb (isdigit part)) parts
          then Returned
                 [mkIssue "warning" "version"
                    "Version parts should be numeric"
                    (Some "Use format like '1.0.0'")]
          else Returned []
      | Raised e => Raised e
      end
  | None => Returned []
  end.

(** The body of the loop over the capabilities. *)
Definition check_capability (i_cap : Z * value) : list ValidationIssue :=
  let '(i, cap) := i_cap in
  match cap with
  | YDict items =>
      if negb (has_key items "name")
      then [mkIssue "error" ("capabilities[" ++ str_of_Z i ++ "]")
              "Capability missing 'name' field"
              (Some "Add 'name' field to capability")]
      else []
  | YStr _ => []
  | _ =>
      [mkIssue "error" ("capabilities[" ++ str_of_Z i ++ "]")
         "Capability must be a string or dictionary"
         (Some "Define capability as string or object with 'name'")]
  end.

Definition _validate_capabilities (spec : list (value * value))
  : list ValidationIssue :=
  match lookup spec "capabilities" with
  | Some (YList capabilities) =>
      ((if Nat.eqb (List.length capabilities) 0
        then [mkIssue "warning" "capabilities" "Capabilities list is empty"
                (Some "Define at least one capability")]
        else [])
         ++ flat_map check_capability (enumerate capabilities 0))%list
  | _ => []
  end.

Definition _validate_workflow (spec : list (value * value))
  : list ValidationIssue :=
  match lookup spec "workflow" with
  | Some (YDict workflow) =>
      match lookup workflow "steps" with
      | Some (YDict steps) =>
          if Nat.eqb (List.length steps) 0
          then [mkIssue "warning" "workflow.steps"
                  "Workflow has no steps defined"
                  (Some "Define at least one workflow step")]
          else []
      | Some _ =>
          [mkIssue "error" "workflow.steps"
             "Workflow steps must be a dictionary"
             (Some "Define steps as key-value pairs")]
      | None =>
          [mkIssue "warning" "workflow" "Workflow missing 'steps' section"
             (Some "Add 'steps' to define workflow logic")]
      end
  | Some _ =>
      [mkIssue "error" "workflow" "Workflow must be a dictionary"
         (Some "Define workflow with 'steps' key")]
  | None => []
  end.

Definition _validate_dependencies (spec : list (value * value))
  : list ValidationIssue :=
  match lookup spec "dependencies" with
  | Some (YDict deps) =>
      (* Check for empty dependencies *)
      if negb (existsb truthy (map snd deps))
      then [mkIssue "info" "dependencies" "No dependencies defined" None]
      else []
  | Some _ =>
      [mkIssue "error" "dependencies" "Dependencies must be a dictionary"
         (Some "Define dependencies with keys like 'python_packages', 'internal_agents', etc.")]
  | None => []
  end.

Definition _validate_testing (spec : list (value * value))
  : list ValidationIssue :=
  let testing :=
    match lookup spec "testing" with
    | Some v => v
    | None => YDict []
    end in
  match testing with
  | YDict testing =>
      match lookup testing "test_scenarios" with
      | Some (YList scenarios) =>
          if Nat.eqb (List.length scenarios) 0
          then [mkIssue "warning" "testing.test_scenarios"
                  "No test scenarios defined"
                  (Some "Add at least one test scenario")]
          else []
      | Some _ =>
          [mkIssue "error" "testing.test_scenarios"
             "Test scenarios must be a list"
             (Some "Define test scenarios as a list of test cases")]
      | None =>
          [mkIssue "info" "testing" "No test scenarios defined"
             (Some "Consider adding 'test_scenarios' for automated testing")]
      end
  | _ =>
      [mkIssue "error" "testing" "Testing section must be a dictionary"
         (Some "Define testing with 'test_scenarios'")]
  end.

Definition _check_optional_fields (spec : list (value * value))
  : list ValidationIssue :=
  ((if negb (has_key spec "performance")
    then [mkIssue "info" "performance" "Performance settings not defined"
            (Some "Consider adding timeout, caching, etc.")]
    else [])
     ++ (if negb (has_key spec "logging")
         then [mkIssue "info" "logging" "Logging configuration not defined"
                 (Some "Consider adding log level and options")]
         else []))%list.

Definition has_severity (s : string) (i : ValidationIssue) : bool :=
  String.eqb (severity i) s.

(** [len([i for i in issues if i.severity == s])] *)
Definition count_severity (s : string) (issues : list ValidationIssue) : Z :=
  Z.of_nat (List.length (filter (has_severity s) issues)).

Definition _create_result (issues : list ValidationIssue) (is_valid : bool)
  : outcome SpecValidationResult :=
  let errors := count_severity "error" issues in
  let warnings := count_severity "warning" issues in
  SpecValidationResult_new is_valid issues warnings errors
    (if negb is_valid then 0.0 else 50.0).

(** The checks of [validate_specification] on a document that is a
    dict, up to the list of issues. *)
Definition collect_issues (spec : list (value * value)) (strict_mode : bool)
  : outcome (list ValidationIssue) :=
  let issues := [] in
  let issues := (issues ++ _validate_required_fields spec)%list in
  let issues := (issues ++ _validate_field_types spec)%list in
  let issues := (issues ++ _validate_agent_type spec)%list in
  let issues := (issues ++ _validate_role spec)%list in
  match _validate_version spec with
  | Raised e => Raised e
  | Returned version_issues =>
      let issues := (issues ++ version_issues)%list in
      let issues := (issues ++ _validate_capabilities spec)%list in
      let issues := (issues ++ _validate_workflow spec)%list in
      let issues := (issues ++ _validate_dependencies spec)%list in
      (* Validate testing scenarios (if present) *)
      let issues :=
        if has_key spec "testing"
        then (issues ++ _validate_testing spec)%list
        else issues in
      (* Check for optional but recommended fields *)
      let issues :=
        if negb strict_mode
        then (issues ++ _check_optional_fields spec)%list
        else issues in
      Returned issues
  end.

Definition validate_specification (spec_content : string)
  (strict_mode : bool) : outcome SpecValidationResult :=
  (* Parse YAML *)
  match yaml_safe_load spec_content with
  | Raised (YAMLError msg) =>
      _create_result
        [mkIssue "error" "yaml_syntax"
           ("YAML parsing error: " ++ exc_str (YAMLError msg))
           (Some "Check YAML syntax and indentation")]
        false
  | Raised e => Raised e
  | Returned (YDict spec) =>
      match collect_issues spec strict_mode with
      | Raised e => Raised e
      | Returned issues =>
          (* Determine if valid (no errors) *)
          let errors := count_severity "error" issues in
          let warnings := count_severity "warning" issues in
          let is_valid := errors =? 0 in
          (* Calculate completeness score *)
          let completeness := _calculate_completeness spec in
          SpecValidationResult_new is_valid issues warnings errors
            completeness
      end
  | Returned _ =>
      _create_result
        [mkIssue "error" "root" "Specification must be a YAML dictionary"
           (Some "Ensure the YAML starts with key-value pairs")]
        false
  end.

End Tool.

(** ** Vocabulary of the properties stated below *)

Definition is_str (v : value) : bool :=
  match v with
  | YStr _ => true
  | _ => false
  end.

Definition is_dict (v : value) : bool :=
  match v with
  | YDict _ => true
  | _ => false
  end.

End SpecTool.

(* ===================================================================== *)
(** * meta_agent/generators/script_generator.py: requirements.txt         *)
(* ===================================================================== *)

Module ScriptParts.
Import Python ScriptGenerator.

(** A Python [set] of strings: a list without duplicates; the order of
    its elements is not observed, the source sorts the set before it
    reads it. *)
Definition set_add (x : string) (s : list string) : list string :=
  if str_mem x s then s else (s ++ [x])%list.

(** [set(l)] *)
Definition set_of_list (l : list string) : list string :=
  fold_left (fun s x => set_add x s) l [].

(** [s.remove(x)] for an [x] that is in [s] *)
Definition set_remove (x : string) (s : list string) : list string :=
  filter (fun y => negb (String.eqb y x)) s.

(** [sorted(s)] on strings, which Python compares by code point. *)
Fixpoint insert_sorted (x : string) (l : list string) : list string :=
  match l with
  | [] => [x]
  | y :: l' => if String.leb x y then x :: l else y :: insert_sorted x l'
  end.

Definition sorted (l : list string) : list string :=
  fold_right insert_sorted [] l.

(** ["import m" in script_code or "from m" in script_code] *)
Definition imports (script_code m : string) : bool :=
  contains script_code ("import " ++ m) || contains script_code ("from " ++ m).

(** [if "import m" in script_code or "from m" in script_code:
       requirements.add(m)] *)
Definition detect (script_code m : string) (requirements : list string)
  : list string :=
  if imports script_code m then set_add m requirements else requirements.

(** The set [requirements] before it is sorted. *)
Definition requirements_set (execution_plan : ExecutionPlan)
  (has_web_interface : bool) (script_code : string) : list string :=
  let requirements := set_of_list (dependencies execution_plan) in
  (* Auto-detect imports from script code *)
  let requirements :=
    if negb (String.eqb script_code "")
    then
      let requirements := detect script_code "psycopg2" requirements in
      let requirements := detect script_code "pandas" requirements in
      let requirements := detect script_code "numpy" requirements in
      let requirements := detect script_code "sqlalchemy" requirements in
      detect script_code "flask" requirements
    else requirements in
  (* Replace psycopg2 with psycopg2-binary for Docker compatibility *)
  let requirements :=
    if str_mem "psycopg2" requirements
    then set_add "psycopg2-binary" (set_remove "psycopg2" requirements)
    else requirements in
  (* Add Flask for web interfaces *)
  let requirements :=
    if has_web_interface then set_add "flask" requirements
    else requirements in
  (* Add common dependencies *)
  let requirements := set_add "loguru" requirements in
  let requirements := set_add "python-dotenv" requirements in
  set_add "pydantic" requirements.

(** Sort and format *)
Definition req_list (execution_plan : ExecutionPlan)
  (has_web_interface : bool) (script_code : string) : list string :=
  sorted (requirements_set execution_plan has_web_interface script_code).

Definition _generate_requirements (execution_plan : ExecutionPlan)
  (has_web_interface : bool) (script_code : string) : string :=
  join nl (req_list execution_plan has_web_interface script_code).

(** ** Vocabulary of the properties stated below *)

(** The modules that are looked for in the script. *)
Definition detected_modules : list string :=
  ["psycopg2"; "pandas"; "numpy"; "sqlalchemy"; "flask"].

(** The plan lists module [m], or [m] is one of the modules looked for
    and the script is seen to import it. *)
Definition wanted (execution_plan : ExecutionPlan) (script_code m : string)
  : Prop :=
  In m (dependencies execution_plan)
  \/ (In m detected_modules /\ imports script_code m = true).

(** Each element is at most the next one, in the order of the code
    points. *)
Fixpoint ascending (l : list string) : Prop :=
  match l with
  | x :: l' =>
      match l' with
      | y :: _ => String.leb x y = true
      | [] => True
      end /\ ascending l'
  | [] => True
  end.

End ScriptParts.

(* ===================================================================== *)
(** * meta_agent/validators/script_validator.py                           *)
(* ===================================================================== *)

Module ScriptValidator.
Import Python.

Record ValidationIssue : Type := mkIssue {
  severity : string;            (* "error", "warning", "info" *)
  category : string;            (* "syntax", "security", "resource", "style" *)
  message : string;
  line_number : option Z        (* default None *)
}.

Record ValidationResult : Type := mkResult {
  is_valid : bool;
  issues : list ValidationIssue;
  syntax_valid : bool;
  security_score : Q;           (* 0.0 to 1.0 *)
  estimated_memory_mb : Z;
  estimated_cpu_cores : Q
}.

(** ** Patterns *)

(** The patterns of this file also use the quantifier [?]: a pattern is
    a list of pieces, each an atom of [Re] with one of its quantifiers
    or an optional atom. *)
Inductive piece : Type :=
| Piece (a : Re.atom) (q : Re.quant)
| Maybe (a : Re.atom).

Definition pattern : Type := list piece.

(** One character if it matches and the rest of the pattern matches
    after it, none otherwise. *)
Definition optional (ok : ascii -> bool) (k : string -> option nat)
  (s : string) : option nat :=
  match s with
  | String c s' =>
      if ok c
      then match k s' with
           | Some n => Some (S n)
           | None => k s
           end
      else k s
  | EmptyString => k s
  end.

(** A match of [r] that starts at the head of [s]: its length. *)
Fixpoint match_here (ignorecase : bool) (r : pattern) (s : string)
  : option nat :=
  match r with
  | [] => Some O
  | Piece a Re.One :: r' =>
      Re.exactly 1 (Re.atom_matches ignorecase a) (match_here ignorecase r') s
  | Piece a Re.Star :: r' =>
      Re.greedy (Re.atom_matches ignorecase a) (match_here ignorecase r') s
  | Piece a (Re.AtLeast n) :: r' =>
      Re.exactly n (Re.atom_matches ignorecase a)
        (Re.greedy (Re.atom_matches ignorecase a) (match_here ignorecase r')) s
  | Maybe a :: r' =>
      optional (Re.atom_matches ignorecase a) (match_here ignorecase r') s
  end.

(** [re.search(r, s)] as a truth value *)
Fixpoint search (ignorecase : bool) (r : pattern) (s : string) : bool :=
  match match_here ignorecase r s with
  | Some _ => true
  | None =>
      match s with
      | String _ s' => search ignorecase r s'
      | EmptyString => false
      end
  end.

(** [re.finditer(r, s)]: the spans of the matches, as in [Re]. *)
Fixpoint finditer_from (ignorecase : bool) (r : pattern) (s : string)
  (pos skip : nat) : list (nat * nat) :=
  match s with
  | EmptyString =>
      match skip, match_here ignorecase r s with
      | O, Some n => [(pos, (pos + n)%nat)]
      | _, _ => []
      end
  | String _ s' =>
      match skip with
      | S k => finditer_from ignorecase r s' (S pos) k
      | O =>
          match match_here ignorecase r s with
          | Some n =>
              (pos, (pos + n)%nat)
                :: finditer_from ignorecase r s' (S pos) (n - 1)
          | None => finditer_from ignorecase r s' (S pos) 0
          end
      end
  end.

Definition finditer (ignorecase : bool) (r : pattern) (s : string)
  : list (nat * nat) :=
  finditer_from ignorecase r s 0 0.

Definition lit (s : string) : pattern :=
  map (fun c => Piece (Re.Lit c) Re.One) (list_ascii_of_string s).

(** any character but a quote *)
Definition not_quote : Re.atom :=
  Re.Bracket true [Re.IChar dquote; Re.IChar squote].

(** The tail of the credential patterns: white space, an equals sign,
    white space, a quote, one character or more that is no quote, a
    quote. *)
Definition assigned_literal : pattern :=
  [Piece Re.space Re.Star; Piece (Re.Lit "=") Re.One;
   Piece Re.space Re.Star;
   Piece Re.quote Re.One; Piece not_quote (Re.AtLeast 1);
   Piece Re.quote Re.One].

Definition credential_patterns : list (pattern * string) :=
  [ (lit "password" ++ assigned_literal, "Potential hardcoded password");
    (lit "api"
       ++ [Maybe (Re.Bracket false [Re.IChar "_"; Re.IChar "-"])]
       ++ lit "key" ++ assigned_literal,
     "Potential hardcoded API key");
    (lit "secret" ++ assigned_literal, "Potential hardcoded secret");
    (lit "token" ++ assigned_literal, "Potential hardcoded token") ]%list.

(** [name\s*\(] *)
Definition called (name : string) : pattern :=
  (lit name ++ [Piece Re.space Re.Star; Piece (Re.Lit "(") Re.One])%list.

Definition dangerous_patterns : list (pattern * string) :=
  [ (called "eval", "Use of eval() is dangerous");
    (called "exec", "Use of exec() is dangerous");
    (called "__import__", "Dynamic imports can be dangerous") ].

(** ** Strings *)

(** [c.lower()] on the code points 0..255 *)
Definition lower_char (c : ascii) : ascii :=
  let n := ord c in
  if between 65 90 n || (between 192 222 n && negb (Nat.eqb n 215))
  then ascii_of_nat (n + 32)
  else c.

(** [s.lower()] *)
Fixpoint str_lower (s : string) : string :=
  match s with
  | EmptyString => EmptyString
  | String c s' => String (lower_char c) (str_lower s')
  end.

(** ** The checks *)

(** The local variables of [_validate_security] that its loops update:
    the list [issues] that it shares with its caller, and [score]. *)
Record state : Type := mkState {
  st_issues : list ValidationIssue;
  score : Q
}.

(** The body of the loop over the matches of a credential pattern. *)
Definition check_match (code message : string) (strict : bool) (st : state)
  (m : nat * nat) : state :=
  let '(m_start, m_end) := m in
  (* Check if it's using os.getenv() *)
  let context :=
    slice code (Z.max 0 (Z.of_nat m_start - 50)) (Z.of_nat m_end + 50) in
  if contains context "os.getenv" || contains context "os.environ"
  then st   (* Safe usage *)
  else
    (* Check if it's an empty string *)
    let group := slice code (Z.of_nat m_start) (Z.of_nat m_end) in
    if endswith group (String dquote (String dquote ""))
       || endswith group "''"
    then st   (* Empty default is ok *)
    else
      mkState
        (st_issues st
           ++ [mkIssue (if strict then "error" else "warning") "security"
                 message None])%list
        (score st - 0.2)%Q.

Definition check_credential_pattern (code : string) (strict : bool)
  (st : state) (pm : pattern * string) : state :=
  let '(pattern, message) := pm in
  fold_left (check_match code message strict) (finditer true pattern code) st.

(** Check for os.getenv() usage (good practice) *)
Definition check_env_usage (code : string) (st : state) : state :=
  if contains code "os.getenv" || contains code "os.environ.get"
  then st
  else mkState
         (st_issues st
            ++ [mkIssue "warning" "security"
                  "No environment variable usage detected" None])%list
         (score st - 0.1)%Q.

Definition check_dangerous_pattern (code : string) (st : state)
  (pm : pattern * string) : state :=
  let '(pattern, message) := pm in
  if search false pattern code
  then mkState
         (st_issues st ++ [mkIssue "warning" "security" message None])%list
         (score st - 0.15)%Q
  else st.

(** [_validate_security]: the issues after it, and the score it
    returns. *)
Definition _validate_security (code : string)
  (issues : list ValidationIssue) (strict : bool)
  : list ValidationIssue * Q :=
  let st := mkState issues 1.0 in
  let st := fold_left (check_credential_pattern code strict)
              credential_patterns st in
  let st := check_env_usage code st in
  let st := fold_left (check_dangerous_pattern code) dangerous_patterns st in
  (st_issues st, Qmax 0.0 (score st)).

(** [_estimate_resources]; the number of lines that the source computes
    first is not used. *)
Definition _estimate_resources (code : string) : Z * Q :=
  (* Base memory *)
  let memory_mb := 128 in
  (* Add for data processing *)
  let memory_mb :=
    if contains code "pandas" then memory_mb + 256 else memory_mb in
  let memory_mb :=
    if contains code "numpy" then memory_mb + 128 else memory_mb in
  let memory_mb :=
    if contains code "torch" || contains code "tensorflow"
    then memory_mb + 1024 else memory_mb in
  (* Add for web server *)
  let memory_mb :=
    if contains (str_lower code) "flask" || contains (str_lower code) "fastapi"
    then memory_mb + 128 else memory_mb in
  (* CPU estimation *)
  let cpu_cores :=
    if contains code "multiprocessing" || contains code "concurrent"
    then 1.0%Q else 0.5%Q in
  (memory_mb, cpu_cores).

Definition _validate_best_practices (code : string)
  (issues : list ValidationIssue) : list ValidationIssue :=
  (* Check for logging *)
  let issues :=
    if negb (contains code "logger") && negb (contains code "logging")
    then (issues
            ++ [mkIssue "warning" "style"
                  "No logging detected - consider adding logging" None])%list
    else issues in
  (* Check for error handling *)
  let issues :=
    if negb (contains code "try:")
    then (issues
            ++ [mkIssue "info" "style"
                  "No error handling detected - consider adding try/except blocks"
                  None])%list
    else issues in
  (* Check for type hints *)
  let issues :=
    if negb (contains code "->")
    then (issues
            ++ [mkIssue "info" "style"
                  "No type hints detected - consider adding type annotations"
                  None])%list
    else issues in
  (* Check for docstrings *)
  if negb (contains code (String dquote (String dquote (String dquote ""))))
     && negb (contains code "'''")
  then (issues
          ++ [mkIssue "info" "style"
                "No docstrings detected - consider adding documentation"
                None])%list
  else issues.

Definition is_error (i : ValidationIssue) : bool :=
  String.eqb (severity i) "error".

Section Validator.

(** [ast.parse]: the body of the module, or what it raises. *)
Variable ast_parse : string -> outcome (list Ast.node).

(** [_validate_syntax]: the issues after it, and the truth value it
    returns. *)
Definition _validate_syntax (code : string) (issues : list ValidationIssue)
  : Py (list ValidationIssue * bool) :=
  (_ <- emit (EvParse code) ;;
   match ast_parse code with
   | Returned _ => ret (issues, true)
   | Raised (SyntaxError lineno msg) =>
       ret ((issues
               ++ [mkIssue "error" "syntax" ("Syntax error: " ++ msg)
                     lineno])%list,
            false)
   | Raised e =>
       ret ((issues
               ++ [mkIssue "error" "syntax" ("Parse error: " ++ exc_str e)
                     None])%list,
            false)
   end)%py.

Definition validate_script (script_code : string) (strict_mode : bool)
  : Py ValidationResult :=
  (let issues := [] in
   (* 1. Syntax validation *)
   checked <- _validate_syntax script_code issues ;;
   let '(issues, syntax_valid) := checked in
   (* 2. Security validation *)
   let '(issues, security_score) :=
     _validate_security script_code issues strict_mode in
   (* 3. Resource estimation *)
   let '(memory_mb, cpu_cores) := _estimate_resources script_code in
   (* 4. Best practices *)
   let issues := _validate_best_practices script_code issues in
   (* Determine if valid *)
   let error_count := Z.of_nat (List.length (filter is_error issues)) in
   let is_valid :=
     syntax_valid && (error_count =? 0) && Qle_bool 0.8 security_score in
   ret (mkResult is_valid issues syntax_valid security_score memory_mb
          cpu_cores))%py.

End Validator.

(** ** Vocabulary of the properties stated below *)

(** The text of a match, [match.group()]. *)
Definition group (code : string) (m : nat * nat) : string :=
  slice code (Z.of_nat (fst m)) (Z.of_nat (snd m)).

(** An issue of the credential scan. *)
Definition is_credential_issue (i : ValidationIssue) : bool :=
  str_mem (message i) (map snd credential_patterns).

(** What each step of the checks does to the state: issues are
    appended, the score does not grow. *)
Definition advances (st st' : state) : Prop :=
  (exists extra, st_issues st' = (st_issues st ++ extra)%list)
  /\ (score st' <= score st)%Q.

(** An issue in strict mode and the issue in its place otherwise: the
    same, or a credential issue as error and as warning. *)
Definition relaxed (i1 i2 : ValidationIssue) : Prop :=
  i2 = i1
  \/ exists message,
      is_credential_issue (mkIssue "error" "security" message None) = true
      /\ i1 = mkIssue "error" "security" message None
      /\ i2 = mkIssue "warning" "security" message None.

(** The score has lost 0.2 for every credential issue. *)
Definition charged (st : state) : Prop :=
  (score st
   + 0.2 * inject_Z
             (Z.of_nat (List.length (filter is_credential_issue (st_issues st))))
   <= 1)%Q.

(** The quoted text at the end of each credential pattern. *)
Definition quoted_literal : pattern :=
  [Piece Re.quote Re.One; Piece not_quote (Re.AtLeast 1);
   Piece Re.quote Re.One].

(** Two lists of issues that differ in the severity of their
    credential issues at most. *)
Definition same_findings (l1 l2 : list ValidationIssue) : Prop :=
  Forall2
    (fun i1 i2 =>
       category i1 = category i2 /\ message i1 = message i2
       /\ line_number i1 = line_number i2
       /\ (is_credential_issue i1 = false -> severity i1 = severity i2))
    l1 l2.

End ScriptValidator.

(* ===================================================================== *)
(** * tools/generate_agent_code.py: code in several files                 *)
(* ===================================================================== *)

Module MultiFile.
Import Python Yaml GenerateAgentCode.

(** [v.lower()]: a method of [str] and of [bytes]. *)
Definition value_lower (v : value) : outcome value :=
  match v with
  | YStr s => Returned (YStr (ScriptValidator.str_lower s))
  | YBytes b =>
      Returned (YBytes (string_of_list_ascii
                          (map lower (list_ascii_of_string b))))
  | _ =>
      Raised (OtherException
                ("'" ++ type_name v ++ "' object has no attribute 'lower'"))
  end.

(** [for x in v]: the elements that the loop sees, or the [TypeError]
    of a value that cannot be iterated. *)
Definition iterate (v : value) : outcome (list value) :=
  match v with
  | YList items => Returned items
  | YSet items => Returned items
  | YDict items => Returned (map fst items)
  | YStr s =>
      Returned (map (fun c => YStr (String c "")) (list_ascii_of_string s))
  | YBytes b =>
      Returned (map (fun c => YInt (Z.of_nat (ord c))) (list_ascii_of_string b))
  | _ =>
      Raised (OtherException ("'" ++ type_name v ++ "' object is not iterable"))
  end.

(** [len(v)], or the [TypeError] of a value that has no length. *)
Definition py_len (v : value) : outcome Z :=
  match v with
  | YStr s => Returned (Z.of_nat (String.length s))
  | YBytes b => Returned (Z.of_nat (String.length b))
  | YList items => Returned (Z.of_nat (List.length items))
  | YSet items => Returned (Z.of_nat (List.length items))
  | YDict items => Returned (Z.of_nat (List.length items))
  | _ =>
      Raised (OtherException
                ("object of type '" ++ type_name v ++ "' has no len()"))
  end.

Section MultiFile.

Variable yaml_safe_load : string -> outcome value.
Variable llm : nat -> string -> string -> outcome string.
(** [repr], as in [SpecTool] *)
Variable repr : value -> string.

#[local] Abbreviation str := (SpecTool.str_of_value repr).

(** Parse YAML to check for internal components *)
Definition load_components (yaml_specification : string)
  : Py (value * value) :=
  try_except
    (spec <- lift (yaml_safe_load yaml_specification) ;;
     agent_name <- lift (spec_get spec "agent_name" (YStr "UnknownAgent")) ;;
     internal_components <-
       lift (spec_get spec "internal_components" (YList [])) ;;
     ret (agent_name, internal_components))%py
    (fun e =>
       match e with
       | YAMLError _ =>
           raise (ValueError ("Invalid YAML specification: " ++ exc_str e))
       | _ => raise e
       end).

(** The f-string of the name of the main file *)
Definition main_filename (agent_name : value) : Py string :=
  (lowered <- lift (value_lower agent_name) ;;
   ret (str lowered ++ ".py"))%py.

(** Create mini-spec for component *)
Definition component_spec (component agent_name : value) : string :=
  "
agent_name: " ++ str component ++ "
agent_type: component
description: Component of " ++ str agent_name ++ "
parent_agent: " ++ str agent_name ++ "
role: internal_component
".

(** The body of the loop over the components: what goes wrong in it is
    logged, and the component is left out. *)
Definition generate_component (agent_name : value)
  (files : list (string * string)) (component : value)
  : Py (list (string * string)) :=
  try_except
    (component_result <-
       generate_agent_code yaml_safe_load llm
         (component_spec component agent_name) "pep8" "" ;;
     lowered <- lift (value_lower agent_name) ;;
     lowered_component <- lift (value_lower component) ;;
     let component_filename :=
       str lowered ++ "_" ++ str lowered_component ++ ".py" in
     ret (CodeValidator.dict_set files component_filename
            (code component_result)))%py
    (fun e => ret files).

Fixpoint generate_components (agent_name : value)
  (internal_components : list value) (files : list (string * string))
  : Py (list (string * string)) :=
  match internal_components with
  | [] => ret files
  | component :: rest =>
      (files <- generate_component agent_name files component ;;
       generate_components agent_name rest files)%py
  end.

Definition generate_multi_file_code (yaml_specification : string)
  : Py (list (string * string)) :=
  (loaded <- load_components yaml_specification ;;
   let '(agent_name, internal_components) := loaded in
   if negb (truthy internal_components)
   then
     (* If no internal components, generate single file *)
     result <- generate_agent_code yaml_safe_load llm yaml_specification
                 "pep8" "" ;;
     filename <- main_filename agent_name ;;
     ret [(filename, code result)]
   else
     (* Generate main agent file; the message that is logged first
        holds [len(internal_components)] *)
     _ <- lift (py_len internal_components) ;;
     main_result <- generate_agent_code yaml_safe_load llm
                      yaml_specification "pep8" "" ;;
     filename <- main_filename agent_name ;;
     let files := [(filename, code main_result)] in
     (* Generate each component as separate file *)
     components <- lift (iterate internal_components) ;;
     generate_components agent_name components files)%py.

End MultiFile.

End MultiFile.

(* ===================================================================== *)
(** * tools/generate_agent_specification.py: the structure check          *)
(* ===================================================================== *)

Module SpecStructure.
Import Python Yaml.

(** [key in v] for a string [key]: a key of a dict, an element of a
    list or a set, a part of a string; a [TypeError] for the rest. *)
Definition py_in (key : string) (v : value) : outcome bool :=
  let is_key (x : value) : bool :=
    match x with
    | YStr s => String.eqb s key
    | _ => false
    end in
  match v with
  | YDict items => Returned (SpecTool.has_key items key)
  | YList items => Returned (existsb is_key items)
  | YSet items => Returned (existsb is_key items)
  | YStr s => Returned (contains s key)
  | YBytes _ =>
      Raised (OtherException "a bytes-like object is required, not 'str'")
  | _ =>
      Raised (OtherException
                ("argument of type '" ++ type_name v ++ "' is not iterable"))
  end.

(** [v[key]] for a string [key] *)
Definition getitem (v : value) (key : string) : outcome value :=
  match v with
  | YDict items =>
      match lookup items key with
      | Some x => Returned x
      | None => Raised (OtherException ("'" ++ key ++ "'"))
      end
  | YStr _ =>
      Raised (OtherException "string indices must be integers, not 'str'")
  | YBytes _ => Raised (OtherException "byte indices must be integers or slices, not str")
  | YList _ =>
      Raised (OtherException "list indices must be integers or slices, not str")
  | _ =>
      Raised (OtherException
                ("'" ++ type_name v ++ "' object is not subscriptable"))
  end.

Definition required_fields : list string :=
  ["agent_name"; "agent_type"; "version"; "description"; "role"].

(** Check required top-level fields *)
Fixpoint check_required (spec_dict : value) (fields : list string)
  : outcome unit :=
  match fields with
  | [] => Returned tt
  | field :: rest =>
      match py_in field spec_dict with
      | Returned true => check_required spec_dict rest
      | Returned false =>
          Raised (ValueError ("Missing required field: " ++ field))
      | Raised e => Raised e
      end
  end.

(** The loop over the capabilities *)
Fixpoint check_names (capabilities : list value) : outcome unit :=
  match capabilities with
  | [] => Returned tt
  | cap :: rest =>
      match py_in "name" cap with
      | Returned true => check_names rest
      | Returned false =>
          Raised (ValueError "Each capability must have a 'name'")
      | Raised e => Raised e
      end
  end.

(** Check capabilities if present *)
Definition check_capabilities (spec_dict : value) : outcome unit :=
  match py_in "capabilities" spec_dict with
  | Returned true =>
      match getitem spec_dict "capabilities" with
      | Returned (YList capabilities) => check_names capabilities
      | Returned _ => Raised (ValueError "capabilities must be a list")
      | Raised e => Raised e
      end
  | Returned false => Returned tt
  | Raised e => Raised e
  end.

(** Check dependencies if present *)
Definition check_dependencies (spec_dict : value) : outcome unit :=
  match py_in "dependencies" spec_dict with
  | Returned true =>
      match getitem spec_dict "dependencies" with
      | Returned (YDict _) => Returned tt
      | Returned _ => Raised (ValueError "dependencies must be a dictionary")
      | Raised e => Raised e
      end
  | Returned false => Returned tt
  | Raised e => Raised e
  end.

Section Structure.

Variable yaml_safe_load : string -> outcome value.

Definition validate_specification_structure (yaml_spec : string)
  : outcome bool :=
  match yaml_safe_load yaml_spec with
  | Raised (YAMLError msg) =>
      Raised (ValueError ("Invalid YAML syntax: " ++ exc_str (YAMLError msg)))
  | Raised e => Raised e
  | Returned spec_dict =>
      match check_required spec_dict required_fields with
      | Raised e => Raised e
      | Returned _ =>
          match check_capabilities spec_dict with
          | Raised e => Raised e
          | Returned _ =>
              match check_dependencies spec_dict with
              | Raised e => Raised e
              | Returned _ => Returned true
              end
          end
      end
  end.

End Structure.

(** ** Vocabulary of the properties stated below *)

(** A capability that the structure check lets through: a dict with
    the key [name], a list or a set with the element [name], or a
    string with the text [name] somewhere in it. *)
Definition names_itself (cap : value) : bool :=
  match cap with
  | YDict items => SpecTool.has_key items "name"
  | YList items | YSet items =>
      existsb (fun x => match x with
                        | YStr s => String.eqb s "name"
                        | _ => false
                        end) items
  | YStr s => contains s "name"
  | _ => false
  end.

End SpecStructure.

(* ===================================================================== *)
(** * More sample inputs                                                  *)
(* ===================================================================== *)

Module MoreSamples.
Import Python Ast.

(** An import of a denied module inside a function; the first child of
    a [FunctionDef] is its [arguments] node. *)
Definition nested_import : string :=
  "def load():
    import pickle".

Definition nested_import_body : list node :=
  [FunctionDef [Other []; Import ["pickle"] 2]].

(** A call of [os.system] before the import of [os]. *)
Definition os_system : string :=
  "def run(cmd):
    os.system(cmd)
import os".

Definition os_system_body : list node :=
  [FunctionDef
     [Other [Other []];
      Other [Call (Attribute (Name "os") "system") [Name "cmd"] 2]];
   Import ["os"] 3].

(** An uncommon module, imported with [from]. *)
Definition from_numpy : string := "from numpy import array".
Definition from_numpy_body : list node := [ImportFrom (Some "numpy") 1].

Definition parser : string -> outcome (list node) :=
  Samples.table_parse
    [(nested_import, Returned nested_import_body);
     (os_system, Returned os_system_body);
     (from_numpy, Returned from_numpy_body)].

(** A loader that also knows the empty document, which loads as
    [None]. *)
Definition yaml_loader (text : string) : outcome Yaml.value :=
  if String.eqb text "" then Returned Yaml.YNone
  else Samples.yaml_loader text.

(** An LLM client that always returns the same text with a syntax
    error. *)
Definition llm_always_bad (n : nat) (system_prompt user_prompt : string)
  : outcome string :=
  Returned Samples.bad_code_1.

(** The YAML text of [Samples.complete_spec]; a document whose version
    is the YAML float 1.0; and a loader that knows them and the empty
    document. *)
Definition complete_spec_text : string :=
  "agent_name: CalcAgent
agent_type: calculation
version: 1.0.0
description: Calculates the debt coverage ratio
role: primary_agent
capabilities: [calculate_dscr]
workflow: {steps: {step_1: load}}
dependencies: {python_packages: [pydantic]}
data_sources: [postgresql]
tools: [calculator]
performance: {timeout: 30}
logging: {level: INFO}
testing: {test_scenarios: [basic]}".

Definition float_version_text : string :=
  "agent_name: CalcAgent
version: 1.0".

Definition float_version_spec : list (Yaml.value * Yaml.value) :=
  [(Yaml.YStr "agent_name", Yaml.YStr "CalcAgent");
   (Yaml.YStr "version",
    Yaml.YFloat (SpecFloat.S754_finite false 4503599627370496 (-52)))].

Definition spec_loader (text : string) : outcome Yaml.value :=
  if String.eqb text complete_spec_text
  then Returned (Yaml.YDict Samples.complete_spec)
  else if String.eqb text float_version_text
  then Returned (Yaml.YDict float_version_spec)
  else yaml_loader text.

(** A stand-in for [repr] on the values that the model does not
    print. *)
Definition repr (v : Yaml.value) : string :=
  "<" ++ Yaml.type_name v ++ ">".

(** A script that reads its settings from the environment and keeps
    one token in the text, more than 50 characters away from the
    lookup. *)
Definition script_with_token : string :=
  let q := Samples.q in
  "import os
from loguru import logger

DATABASE_URL = os.getenv(" ++ q ++ "DATABASE_URL" ++ q ++ ")

def connect() -> None:
    " ++ q ++ q ++ q
    ++ "Connect to the service with the settings of the environment."
    ++ q ++ q ++ q ++ "
    try:
        token = " ++ q ++ "abc123" ++ q ++ "
        logger.info(token)
    except Exception:
        pass".

Definition script_with_token_body : list node :=
  [Import ["os"] 1;
   ImportFrom (Some "loguru") 2;
   Other [Name "DATABASE_URL";
          Call (Attribute (Name "os") "getenv") [Other []] 4];
   FunctionDef
     [Other [];
      Other [Other []];
      Other [Other [Name "token"; Other []];
             Other [Call (Attribute (Name "logger") "info") [Name "token"] 10];
             Other [Name "Exception"; Other []]];
      Other []]].

Definition script_parser : string -> outcome (list node) :=
  Samples.table_parse [(script_with_token, Returned script_with_token_body)].

(** A specification with two internal components, one of them given
    as a number; a loader that knows it and the mini-specs of its
    components; and an LLM client that answers the first call only. *)
Definition components_text : string :=
  "agent_name: CalcAgent
internal_components: [Loader, 7]".

Definition components_spec : list (Yaml.value * Yaml.value) :=
  [(Yaml.YStr "agent_name", Yaml.YStr "CalcAgent");
   (Yaml.YStr "internal_components",
    Yaml.YList [Yaml.YStr "Loader"; Yaml.YInt 7])].

Definition component_of (name : string) : list (Yaml.value * Yaml.value) :=
  [(Yaml.YStr "agent_name", Yaml.YStr name);
   (Yaml.YStr "agent_type", Yaml.YStr "component");
   (Yaml.YStr "description", Yaml.YStr "Component of CalcAgent");
   (Yaml.YStr "parent_agent", Yaml.YStr "CalcAgent");
   (Yaml.YStr "role", Yaml.YStr "internal_component")].

Definition component_loader (text : string) : outcome Yaml.value :=
  if String.eqb text components_text
  then Returned (Yaml.YDict components_spec)
  else if contains text "agent_name: Loader"
  then Returned (Yaml.YDict (component_of "Loader"))
  else if contains text "agent_name: 7"
  then Returned
         (Yaml.YDict
            ((Yaml.YStr "agent_name", Yaml.YInt 7) :: tl (component_of "")))
  else yaml_loader text.

Definition llm_answers_once : nat -> string -> string -> outcome string :=
  Samples.scripted [Returned Samples.good_code].

End MoreSamples.


(* ===================================================================== *)
(** * Properties of binary64 addition and comparison                      *)
(* ===================================================================== *)

(** The primitive floats are specified by the Standard Library
    through [Prim2SF] and the operations of [SpecFloat]; what is
    needed of them here is that adding a float that is not negative
    never gives less, and that the comparisons order what is no
    NaN. *)

Module FloatProps.
Import Stdlib.Floats.Floats.
Import Float.

Lemma digits2_log2 (p : positive) :
  Zpos (digits2_pos p) = Z.log2 (Zpos p) + 1.
Proof.
  induction p as [p IH|p IH|]; cbn [digits2_pos]; [| |reflexivity].
  - rewrite Pos2Z.inj_succ, IH. destruct p; simpl; lia.
  - rewrite Pos2Z.inj_succ, IH. destruct p; simpl; lia.
Qed.

Lemma iter_xO (d : positive) (m : positive) :
  Zpos (Pos.iter xO m d) = Zpos m * 2 ^ Zpos d.
Proof.
  induction d as [|d IH] using Pos.peano_ind.
  - cbn [Pos.iter]. lia.
  - rewrite Pos.iter_succ, Pos2Z.inj_xO, IH, Pos2Z.inj_succ, Z.pow_succ_r by lia.
    lia.
Qed.

Lemma shl_align_value (m : positive) (e e' : Z) :
  e' <= e ->
  Zpos (fst (shl_align m e e')) = Zpos m * 2 ^ (e - e').
Proof.
  intro H. unfold shl_align. destruct (e' - e) as [|d|d] eqn:E; try lia.
  - replace (e - e') with 0 by lia. cbn [fst]. lia.
  - cbn [fst]. rewrite iter_xO. f_equal. f_equal. lia.
Qed.

Lemma shl_align_none (m : positive) (e e' : Z) :
  e <= e' -> shl_align m e e' = (m, e).
Proof.
  intro H. unfold shl_align. destruct (e' - e) eqn:E; try reflexivity. lia.
Qed.

Lemma shr_1_m (r : shr_record) :
  0 <= shr_m r -> shr_m (shr_1 r) = shr_m r / 2.
Proof.
  destruct r as [m r s]. cbn [shr_m]. intro H.
  destruct m as [|[p|p|]|p]; cbn [shr_1 shr_m]; try lia; Z.div_mod_to_equations; lia.
Qed.

Lemma iter_pos_shr_1 (p : positive) :
  forall r, 0 <= shr_m r ->
            shr_m (iter_pos shr_1 p r) = shr_m r / 2 ^ Zpos p.
Proof.
  assert (Hdiv : forall a b c, 0 < b -> 0 < c -> a / b / c = a / (b * c)).
  { intros. apply Z.div_div; lia. }
  assert (Hnn : forall r, 0 <= shr_m r -> 0 <= shr_m (shr_1 r)).
  { intros r H. rewrite shr_1_m by exact H. apply Z.div_pos; lia. }
  induction p as [p IH|p IH|]; intros r H; cbn [iter_pos].
  - assert (H1 := Hnn _ H).
    assert (H2 : 0 <= shr_m (iter_pos shr_1 p (shr_1 r))).
    { rewrite IH by exact H1. apply Z.div_pos; lia. }
    rewrite IH by exact H2. rewrite IH by exact H1. rewrite shr_1_m by exact H.
    rewrite !Hdiv by lia. f_equal.
    replace (Zpos p~1) with (1 + Zpos p + Zpos p) by lia.
    rewrite !Z.pow_add_r by lia. lia.
  - assert (H2 : 0 <= shr_m (iter_pos shr_1 p r)).
    { rewrite IH by exact H. apply Z.div_pos; lia. }
    rewrite IH by exact H2. rewrite IH by exact H.
    rewrite !Hdiv by lia. f_equal.
    replace (Zpos p~0) with (Zpos p + Zpos p) by lia.
    rewrite !Z.pow_add_r by lia. lia.
  - rewrite shr_1_m by exact H. reflexivity.
Qed.

Lemma shr_record_of_loc_m (m : Z) (l : location) :
  shr_m (shr_record_of_loc m l) = m.
Proof. destruct l as [|[]]; reflexivity. Qed.

Lemma shr_spec (r : shr_record) (e n : Z) :
  0 <= shr_m r ->
  shr_m (fst (shr r e n)) = shr_m r / 2 ^ Z.max n 0
  /\ snd (shr r e n) = e + Z.max n 0.
Proof.
  intro H. unfold shr. destruct n as [|p|p]; cbn [fst snd].
  - cbn. rewrite Z.div_1_r. lia.
  - rewrite iter_pos_shr_1 by exact H. rewrite Z.max_l by lia. lia.
  - cbn. rewrite Z.div_1_r. lia.
Qed.

Lemma round_nearest_even_bounds (m : Z) (l : location) :
  m <= round_nearest_even m l <= m + 1.
Proof.
  unfold round_nearest_even. destruct l as [|[]]; try lia.
  destruct (Z.even m); lia.
Qed.

Lemma fexp_eq (e : Z) : fexp prec emax e = Z.max (e - 53) (-1074).
Proof. reflexivity. Qed.

Lemma Zdigits2_log2 (m : Z) : 0 < m -> Zdigits2 m = Z.log2 m + 1.
Proof. destruct m as [|p|p]; try lia. intros _. apply digits2_log2. Qed.

Lemma div_pow2_log2 (m k : Z) :
  0 < m -> 0 <= k <= Z.log2 m -> 0 < m / 2 ^ k.
Proof.
  intros Hm Hk. apply Z.div_str_pos. split; [apply Z.pow_pos_nonneg; lia|].
  eapply Z.le_trans; [|apply Z.log2_spec; exact Hm].
  apply Z.pow_le_mono_r; lia.
Qed.

(** The result of rounding a positive number [M * 2^e] is not below a
    float [mx * 2^ex] that is not above it. *)
Lemma binary_round_aux_ge (M mx : positive) (e ex : Z) :
  let n1 := fexp prec emax (Zdigits2 (Zpos M) + e) - e in
  0 <= n1 ->
  ex <= e + n1 ->
  (ex = e + n1 -> Zpos mx <= Zpos M / 2 ^ n1) ->
  0 < Zpos M / 2 ^ n1 ->
  SFleb (S754_finite false mx ex)
        (binary_round_aux prec emax false (Zpos M) e loc_Exact) = true.
Proof.
  intros n1 Hn1 Hex Hmx Hpos.
  unfold binary_round_aux, shr_fexp. fold n1.
  destruct (shr_spec (shr_record_of_loc (Zpos M) loc_Exact) e n1)
    as [Hm1 He1]; [rewrite shr_record_of_loc_m; lia|].
  rewrite shr_record_of_loc_m, Z.max_l in Hm1 by lia.
  rewrite Z.max_l in He1 by lia.
  destruct (shr (shr_record_of_loc (Zpos M) loc_Exact) e n1) as [mrs' e'].
  cbn [fst snd] in Hm1, He1.
  pose proof (round_nearest_even_bounds (shr_m mrs') (loc_of_shr_record mrs'))
    as Hm2.
  set (m2 := round_nearest_even (shr_m mrs') (loc_of_shr_record mrs')) in *.
  set (n2 := fexp prec emax (Zdigits2 m2 + e') - e').
  destruct (shr_spec (shr_record_of_loc m2 loc_Exact) e' n2)
    as [Hm3 He3]; [rewrite shr_record_of_loc_m; lia|].
  rewrite shr_record_of_loc_m in Hm3.
  destruct (shr (shr_record_of_loc m2 loc_Exact) e' n2) as [mrs'' e''].
  cbn [fst snd] in Hm3, He3.
  assert (He' : -1074 <= e').
  { rewrite He1. unfold n1. rewrite fexp_eq. lia. }
  assert (Hm3pos : 0 < shr_m mrs'').
  { rewrite Hm3. destruct (Z.max_spec n2 0) as [[Hn ->]|[Hn ->]].
    - rewrite Z.pow_0_r, Z.div_1_r. lia.
    - apply div_pow2_log2; [lia|].
      pose proof (Z.log2_nonneg m2).
      unfold n2 in *. rewrite fexp_eq, Zdigits2_log2 in * by lia. lia. }
  destruct (shr_m mrs'') as [|m|m] eqn:Em; try lia.
  destruct (e'' <=? emax - prec); [|reflexivity].
  unfold SFleb, SFcompare.
  destruct (Z.compare_spec ex e'') as [Heq|Hlt|Hgt]; [|reflexivity|lia].
  change (Pos.compare_cont Eq mx m) with (Pos.compare mx m).
  destruct (Pos.compare_spec mx m) as [?|?|Hgt]; try reflexivity.
  exfalso.
  assert (Hn2 : Z.max n2 0 = 0) by lia.
  rewrite Hn2, Z.pow_0_r, Z.div_1_r in Hm3.
  assert (Zpos mx <= Zpos M / 2 ^ n1) by (apply Hmx; lia).
  lia.
Qed.

Lemma SFadd_finite_grows (mx my : positive) (ex ey : Z) :
  canonical_mantissa prec emax mx ex = true ->
  SFleb (S754_finite false mx ex)
        (SFadd prec emax (S754_finite false mx ex) (S754_finite false my ey))
  = true.
Proof.
  intro Hc. unfold canonical_mantissa in Hc. apply Z.eqb_eq in Hc.
  rewrite fexp_eq, digits2_log2 in Hc.
  unfold SFadd. cbn [cond_Zopp].
  set (ez := Z.min ex ey).
  pose proof (shl_align_value mx ex ez ltac:(lia)) as Ha.
  pose proof (shl_align_value my ey ez ltac:(lia)) as Hb.
  set (a := fst (shl_align mx ex ez)) in *.
  set (b := fst (shl_align my ey ez)) in *.
  change (Zpos a + Zpos b) with (Zpos (a + b)).
  cbn [binary_normalize]. unfold binary_round.
  assert (Hpow : 0 < 2 ^ (ex - ez)) by (apply Z.pow_pos_nonneg; lia).
  assert (Hpowb : 0 < 2 ^ (ey - ez)) by (apply Z.pow_pos_nonneg; lia).
  assert (HM : Zpos mx * 2 ^ (ex - ez) < Zpos (a + b)).
  { rewrite Pos2Z.inj_add, Ha, Hb. nia. }
  assert (Hlog : Z.log2 (Zpos mx) + (ex - ez) <= Z.log2 (Zpos (a + b))).
  { pose proof (Z.log2_mul_pow2 (Zpos mx) (ex - ez) ltac:(lia) ltac:(lia)).
    pose proof (Z.log2_le_mono (Zpos mx * 2 ^ (ex - ez)) (Zpos (a + b))
                  ltac:(lia)).
    lia. }
  assert (Hlogpos : 0 <= Z.log2 (Zpos (a + b))) by apply Z.log2_nonneg.
  rewrite shl_align_none
    by (rewrite fexp_eq, digits2_log2; lia).
  assert (Hdiv : Zpos mx <= Zpos (a + b) / 2 ^ (ex - ez)).
  { apply Z.div_le_lower_bound; lia. }
  apply binary_round_aux_ge; rewrite ?fexp_eq, ?Zdigits2_log2 by lia.
  - lia.
  - lia.
  - intro H. replace (Z.max _ _ - ez) with (ex - ez) by lia. exact Hdiv.
  - destruct (Z.eq_dec (Z.max (Z.log2 (Zpos (a + b)) + 1 + ez - 53) (-1074)) ex)
      as [E|E].
    + rewrite E. lia.
    + apply div_pow2_log2; lia.
Qed.

Lemma SFcompare_refl_finite (s : bool) (m : positive) (e : Z) :
  SFcompare (S754_finite s m e) (S754_finite s m e) = Some Eq.
Proof.
  unfold SFcompare. rewrite Z.compare_refl.
  change (Pos.compare_cont Eq m m) with (Pos.compare m m).
  rewrite Pos.compare_refl. destruct s; reflexivity.
Qed.

(** Adding a float that is not negative to a float that is not
    negative gives a float that is not below the first. *)
Lemma SFadd_grows (x y : spec_float) :
  valid_binary x = true ->
  SFleb (S754_zero false) x = true ->
  SFleb (S754_zero false) y = true ->
  SFleb x (SFadd prec emax x y) = true.
Proof.
  intros Hv Hx Hy.
  destruct x as [sx|[]| |[] mx ex]; try discriminate Hx;
    destruct y as [sy|[]| |[] my ey]; try discriminate Hy;
    try reflexivity.
  - destruct sx, sy; reflexivity.
  - unfold SFadd, SFleb. now rewrite SFcompare_refl_finite.
  - apply SFadd_finite_grows. cbn [valid_binary] in Hv. unfold bounded in Hv.
    now apply andb_prop in Hv.
Qed.

Lemma SFadd_comm (x y : spec_float) :
  SFadd prec emax x y = SFadd prec emax y x.
Proof.
  destruct x as [[]|[]| |sx mx ex], y as [[]|[]| |sy my ey]; try reflexivity.
  unfold SFadd. now rewrite Z.min_comm, Z.add_comm.
Qed.

Ltac compare_cases :=
  repeat match goal with
    | H : context [Pos.compare_cont Eq ?a ?b] |- _ =>
        change (Pos.compare_cont Eq a b) with (Pos.compare a b) in H
    | |- context [Pos.compare_cont Eq ?a ?b] =>
        change (Pos.compare_cont Eq a b) with (Pos.compare a b)
    end;
  repeat match goal with
    | H : context [Z.compare ?a ?b] |- _ =>
        destruct (Z.compare_spec a b); try discriminate H
    | H : context [Pos.compare ?a ?b] |- _ =>
        destruct (Pos.compare_spec a b); try discriminate H
    end;
  repeat match goal with
    | |- context [Z.compare ?a ?b] => destruct (Z.compare_spec a b)
    | |- context [Pos.compare ?a ?b] => destruct (Pos.compare_spec a b)
    end;
  try reflexivity; try discriminate; try lia.

Lemma SFleb_trans (x y z : spec_float) :
  SFleb x y = true -> SFleb y z = true -> SFleb x z = true.
Proof.
  unfold SFleb, SFcompare.
  destruct x as [[]|[]| |[] mx ex], y as [[]|[]| |[] my ey],
           z as [[]|[]| |[] mz ez];
    intros H1 H2; try discriminate; try reflexivity; compare_cases.
Qed.


Lemma SFleb_ltb_trans (x y z : spec_float) :
  SFleb x y = true -> SFltb y z = true -> SFltb x z = true.
Proof.
  unfold SFleb, SFltb, SFcompare.
  destruct x as [[]|[]| |[] mx ex], y as [[]|[]| |[] my ey],
           z as [[]|[]| |[] mz ez];
    intros H1 H2; try discriminate; try reflexivity; compare_cases.
Qed.

Lemma SFleb_ltb_false (x y : spec_float) :
  SFleb x y = true -> SFltb y x = false.
Proof.
  unfold SFleb, SFltb, SFcompare.
  destruct x as [[]|[]| |[] mx ex], y as [[]|[]| |[] my ey];
    intros H1; try discriminate; try reflexivity; compare_cases.
Qed.

Lemma SFltb_false_leb (x y z : spec_float) :
  SFleb z x = true -> SFleb z y = true ->
  SFltb y x = false -> SFleb x y = true.
Proof.
  unfold SFleb, SFltb, SFcompare.
  destruct x as [[]|[]| |[] mx ex], y as [[]|[]| |[] my ey], z;
    intros H0 H0' H1; try discriminate; try reflexivity; compare_cases.
Qed.

Lemma SFleb_refl (z x : spec_float) :
  SFleb z x = true -> SFleb x x = true.
Proof.
  unfold SFleb, SFcompare.
  destruct x as [[]|[]| |[] mx ex], z; intros H0; try discriminate;
    try reflexivity; compare_cases.
Qed.

(** ** Binary64 addition and comparison *)

Lemma Prim2SF_zero : Prim2SF 0 = S754_zero false.
Proof. reflexivity. Qed.

Lemma nonneg_spec (x : float) :
  nonneg x <-> SFleb (S754_zero false) (Prim2SF x) = true.
Proof. unfold nonneg. now rewrite leb_spec, Prim2SF_zero. Qed.

Lemma add_grows (x y : float) :
  nonneg x -> nonneg y -> (x <=? x + y)%float = true.
Proof.
  rewrite !nonneg_spec, leb_spec, add_spec. intros Hx Hy.
  apply SFadd_grows; [apply Prim2SF_valid | exact Hx | exact Hy].
Qed.

Lemma add_comm (x y : float) : (x + y)%float = (y + x)%float.
Proof. apply Prim2SF_inj. rewrite !add_spec. apply SFadd_comm. Qed.

Lemma leb_trans (x y z : float) :
  (x <=? y)%float = true -> (y <=? z)%float = true -> (x <=? z)%float = true.
Proof. rewrite !leb_spec. apply SFleb_trans. Qed.


Lemma leb_ltb_trans (x y z : float) :
  (x <=? y)%float = true -> (y <? z)%float = true -> (x <? z)%float = true.
Proof. rewrite !leb_spec, !ltb_spec. apply SFleb_ltb_trans. Qed.

Lemma leb_ltb_false (x y : float) :
  (x <=? y)%float = true -> (y <? x)%float = false.
Proof. rewrite !leb_spec, !ltb_spec. apply SFleb_ltb_false. Qed.

Lemma ltb_false_leb (x y : float) :
  nonneg x -> nonneg y -> (y <? x)%float = false -> (x <=? y)%float = true.
Proof. rewrite !nonneg_spec, !leb_spec, !ltb_spec. apply SFltb_false_leb. Qed.

Lemma leb_refl (x : float) : nonneg x -> (x <=? x)%float = true.
Proof. rewrite nonneg_spec, leb_spec. apply SFleb_refl. Qed.

Lemma add_nonneg (x y : float) : nonneg x -> nonneg y -> nonneg (x + y)%float.
Proof.
  intros Hx Hy. unfold nonneg. eapply leb_trans; [exact Hx|].
  now apply add_grows.
Qed.

(** The sum is not below the second term either. *)
Lemma add_grows_r (x y : float) :
  nonneg x -> nonneg y -> (y <=? x + y)%float = true.
Proof. intros Hx Hy. rewrite add_comm. now apply add_grows. Qed.

(** ** Repeated addition *)

Lemma accumulate_succ (x c : float) (n : nat) :
  accumulate x c (S n) = (accumulate x c n + c)%float.
Proof. reflexivity. Qed.


Lemma accumulate_nonneg (x c : float) (n : nat) :
  nonneg x -> nonneg c -> nonneg (accumulate x c n).
Proof.
  intros Hx Hc. induction n as [|n IH]; [exact Hx|].
  rewrite accumulate_succ. now apply add_nonneg.
Qed.

Lemma accumulate_grows (x c : float) (n m : nat) :
  nonneg x -> nonneg c -> (n <= m)%nat ->
  (accumulate x c n <=? accumulate x c m)%float = true.
Proof.
  intros Hx Hc. induction 1 as [|m _ IH].
  - apply leb_refl. now apply accumulate_nonneg.
  - eapply leb_trans; [exact IH|]. rewrite accumulate_succ.
    apply add_grows; [now apply accumulate_nonneg | exact Hc].
Qed.

(** ** The cap [min(x, 1.0)] *)

Lemma min_nonneg (x y : float) : nonneg x -> nonneg y -> nonneg (min x y).
Proof. intros Hx Hy. unfold min. now destruct (y <? x)%float. Qed.

Lemma min_le_r (x y : float) :
  nonneg x -> nonneg y -> (min x y <=? y)%float = true.
Proof.
  intros Hx Hy. unfold min. destruct (y <? x)%float eqn:E.
  - now apply leb_refl.
  - now apply ltb_false_leb.
Qed.

Lemma min_glb (c x y : float) :
  (c <=? x)%float = true -> (c <=? y)%float = true ->
  (c <=? min x y)%float = true.
Proof. intros Hx Hy. unfold min. now destruct (y <? x)%float. Qed.



End FloatProps.

(* ===================================================================== *)
(** * Properties of the string operations                                 *)
(* ===================================================================== *)

Module PythonProps.
Import Python.

Lemma append_assoc (a b c : string) : (a ++ b) ++ c = a ++ (b ++ c).
Proof. induction a as [|x a IH]; simpl; [reflexivity | now rewrite IH]. Qed.

Lemma append_empty (a : string) : a ++ "" = a.
Proof. induction a as [|x a IH]; simpl; [reflexivity | now rewrite IH]. Qed.

Lemma all_chars_weaken (p p' : ascii -> bool) (s : string) :
  (forall c, p c = true -> p' c = true) ->
  all_chars p s = true -> all_chars p' s = true.
Proof.
  intro Hp. induction s as [|c s IH]; simpl; [reflexivity|].
  intro H. apply andb_prop in H as [Hc Hs]. now rewrite (Hp c Hc), IH.
Qed.

(** What a digit or a minus sign is not. *)
Lemma numeral_char_is_plain (c : ascii) :
  is_numeral_char c = true ->
  is_space c = false /\ Ascii.eqb c underscore = is_digit c && false
  /\ Ascii.eqb ":" c = false /\ Ascii.eqb "l" c = false.
Proof.
  destruct c as [[] [] [] [] [] [] [] []]; intro H;
    try discriminate H; repeat split.
Qed.

Lemma digit_is_plain (c : ascii) :
  is_digit c = true ->
  is_numeral_char c = true /\ Ascii.eqb c underscore = false.
Proof.
  destruct c as [[] [] [] [] [] [] [] []]; intro H;
    try discriminate H; repeat split.
Qed.

(** ** [strip] leaves a text without white space as it is *)

Lemma rstrip_plain (s : string) :
  all_chars (fun c => negb (is_space c)) s = true -> rstrip s = s.
Proof.
  induction s as [|c s IH]; simpl; [reflexivity|].
  intro H. apply andb_prop in H as [Hc Hs]. rewrite (IH Hs).
  apply negb_true_iff in Hc. rewrite Hc. now destruct s.
Qed.

Lemma strip_plain (s : string) :
  all_chars (fun c => negb (is_space c)) s = true -> strip s = s.
Proof.
  intro H. unfold strip.
  assert (Hl : lstrip s = s).
  { destruct s as [|c s]; [reflexivity|]. simpl in *.
    apply andb_prop in H as [Hc _]. apply negb_true_iff in Hc.
    now rewrite Hc. }
  rewrite Hl. now apply rstrip_plain.
Qed.

(** ** [int(str(n)) == n] *)

Lemma uint_string_digits (d : Decimal.uint) :
  all_chars is_digit (NilEmpty.string_of_uint d) = true.
Proof. induction d; simpl; auto. Qed.

Lemma digits_accepted (s : string) :
  all_chars is_digit s = true ->
  forall b, digits_ok s b = b || negb (String.eqb s "")
            /\ remove_underscores s = s.
Proof.
  induction s as [|c s IH]; simpl; intros H b.
  - now rewrite orb_false_r.
  - apply andb_prop in H as [Hc Hs]. rewrite Hc.
    destruct (digit_is_plain c Hc) as [_ Hu]. rewrite Hu.
    destruct (IH Hs true) as [Hok Hrm]. rewrite Hok, Hrm.
    now rewrite orb_true_r.
Qed.

Lemma parse_digits_uint (d : Decimal.uint) :
  d <> Decimal.Nil ->
  parse_digits (NilZero.string_of_uint d) = Some (Z.of_uint d).
Proof.
  intro Hd. unfold parse_digits.
  assert (Hs : NilZero.string_of_uint d = NilEmpty.string_of_uint d)
    by (destruct d; [contradiction | reflexivity ..]).
  assert (Hne : String.eqb (NilZero.string_of_uint d) "" = false)
    by (rewrite Hs; destruct d; [contradiction | reflexivity ..]).
  destruct (digits_accepted (NilZero.string_of_uint d)) with (b := false)
    as [Hok Hrm].
  { rewrite Hs. apply uint_string_digits. }
  rewrite Hok, Hrm, Hne. simpl. now rewrite NilZero.usu.
Qed.

Lemma str_of_Z_numeral (n : Z) : all_chars is_numeral_char (str_of_Z n) = true.
Proof.
  assert (Hu : forall d, all_chars is_numeral_char (NilZero.string_of_uint d)
                         = true).
  { intro d. destruct d; try reflexivity;
      apply (all_chars_weaken is_digit);
      try (intros c Hc; now apply digit_is_plain);
      apply (uint_string_digits (_ d)). }
  unfold str_of_Z.
  destruct n; cbn [Z.to_int NilZero.string_of_int all_chars]; rewrite ?Hu;
    reflexivity.
Qed.

Lemma int_of_digits (c : ascii) (s : string) :
  is_digit c = true ->
  all_chars is_digit s = true ->
  int_of_str (String c s) = parse_digits (String c s).
Proof.
  intros Hc Hs. unfold int_of_str. rewrite strip_plain.
  - destruct c as [[] [] [] [] [] [] [] []]; try discriminate Hc; reflexivity.
  - apply (all_chars_weaken is_digit); [|simpl; now rewrite Hc].
    intros x Hx. destruct (digit_is_plain x Hx) as [Hn _].
    now destruct (numeral_char_is_plain x Hn) as [-> _].
Qed.

Lemma int_of_uint (d : Decimal.uint) :
  d <> Decimal.Nil ->
  int_of_str (NilZero.string_of_uint d) = Some (Z.of_uint d).
Proof.
  intro Hd. rewrite <- (parse_digits_uint d Hd).
  assert (Hs : NilZero.string_of_uint d = NilEmpty.string_of_uint d)
    by (destruct d; [contradiction | reflexivity ..]).
  rewrite Hs. pose proof (uint_string_digits d) as Hall.
  destruct (NilEmpty.string_of_uint d) as [|c s] eqn:E.
  - destruct d; [contradiction | discriminate E ..].
  - simpl in Hall. apply andb_prop in Hall as [Hc Hall].
    now apply int_of_digits.
Qed.

Lemma int_of_str_of_Z (n : Z) : int_of_str (str_of_Z n) = Some n.
Proof.
  unfold str_of_Z. destruct n as [|p|p]; [reflexivity| |]; simpl.
  - rewrite int_of_uint by apply Unsigned.to_uint_nonnil.
    f_equal. exact (DecimalZ.of_to (Z.pos p)).
  - pose proof (Unsigned.to_uint_nonnil p) as Hd.
    unfold int_of_str. rewrite strip_plain.
    + rewrite parse_digits_uint by exact Hd. simpl. f_equal.
      exact (DecimalZ.of_to (Z.neg p)).
    + apply (all_chars_weaken is_numeral_char).
      * intros c Hc. now destruct (numeral_char_is_plain c Hc) as [-> _].
      * exact (str_of_Z_numeral (Z.neg p)).
Qed.

(** ** [split] *)

Lemma nth_0_hd {A : Type} (l : list A) (d : A) : nth 0 l d = hd d l.
Proof. now destruct l. Qed.

(** The first piece begins with the characters read so far. *)
Lemma split_aux_head (sep s : string) :
  forall cur skip, exists t, hd "" (split_aux sep s cur skip) = cur ++ t.
Proof.
  induction s as [|c s IH]; intros cur skip; cbn [split_aux].
  - exists "". cbn [hd]. now rewrite append_empty.
  - destruct skip as [|k]; [|apply IH].
    destruct (startswith (String c s) sep).
    + exists "". cbn [hd]. now rewrite append_empty.
    + destruct (IH (cur ++ String c "") 0%nat) as [t Ht].
      exists (String c t). now rewrite Ht, append_assoc.
Qed.

(** Characters that cannot begin the separator join the current
    piece. *)
Lemma split_aux_plain (f : ascii) (sep' d rest : string) :
  all_chars (fun c => negb (Ascii.eqb f c)) d = true ->
  forall cur,
    split_aux (String f sep') (d ++ rest) cur 0
    = split_aux (String f sep') rest (cur ++ d) 0.
Proof.
  induction d as [|c d IH]; simpl; intros H cur.
  - now rewrite append_empty.
  - apply andb_prop in H as [Hc Hd]. apply negb_true_iff in Hc.
    rewrite Hc. simpl. rewrite (IH Hd). now rewrite append_assoc.
Qed.

End PythonProps.

(* ===================================================================== *)
(** * Properties of [ast.walk]                                            *)
(* ===================================================================== *)

Module AstProps.
Import Ast.

Lemma size_children (n : node) : size n = S (total_size (children n)).
Proof.
  destruct n as [body|cs|cs| | |func args l| |value a|cs]; simpl;
    try reflexivity; try lia; repeat f_equal;
    match goal with |- _ ?l = _ => induction l as [|x l' IH] end;
    simpl; congruence.
Qed.

Lemma nodes_children (n : node) :
  nodes n = n :: flat_map nodes (children n).
Proof.
  destruct n as [body|cs|cs| | |func args l| |value a|cs]; simpl;
    try reflexivity; try (now rewrite app_nil_r); repeat f_equal;
    match goal with |- _ ?l = _ => induction l as [|x l' IH] end;
    simpl; congruence.
Qed.

Lemma size_pos (n : node) : (1 <= size n)%nat.
Proof. rewrite size_children. lia. Qed.

Lemma total_size_app (l1 l2 : list node) :
  total_size (l1 ++ l2) = (total_size l1 + total_size l2)%nat.
Proof. induction l1 as [|x l1 IH]; simpl; [reflexivity | rewrite IH; lia]. Qed.

(** With fuel for every node of the queue, the loop of [ast.walk] yields
    each node of each tree of the queue, once. *)
Lemma walk_queue_nodes (fuel : nat) :
  forall todo, (total_size todo <= fuel)%nat ->
               Permutation (walk_queue fuel todo) (flat_map nodes todo).
Proof.
  induction fuel as [|fuel IH]; intros [|n queue] H; simpl; auto.
  - pose proof (size_pos n). simpl in H. lia.
  - rewrite nodes_children. simpl. constructor.
    rewrite IH.
    + rewrite flat_map_app. apply Permutation_app_comm.
    + rewrite total_size_app. simpl in H. rewrite size_children in H. lia.
Qed.

(** [ast.walk] visits exactly the nodes of the tree. *)
Lemma walk_nodes (tree : node) : Permutation (walk tree) (nodes tree).
Proof.
  unfold walk. rewrite walk_queue_nodes by (simpl; lia).
  simpl. now rewrite app_nil_r.
Qed.



Lemma walk_head (tree : node) : exists rest, walk tree = tree :: rest.
Proof.
  unfold walk. pose proof (size_pos tree).
  destruct (size tree) as [|k]; [lia|]. simpl. eauto.
Qed.

End AstProps.

(* ===================================================================== *)
(** * Properties of code_validator.py                                     *)
(* ===================================================================== *)

Module CodeValidatorProps.
Import Python Ast CodeValidator AstProps.
Import PrimFloat.

(** ** What the checks do to the issues and the risk *)

Lemma findings_trans (a b c : state) :
  findings a b -> findings b c -> findings a c.
Proof.
  intros Hab Hbc. induction Hbc; [assumption | econstructor; eassumption].
Qed.

Lemma findings_one (a b : state) : finding a b -> findings a b.
Proof. intro H. econstructor; [constructor | exact H]. Qed.

Lemma fold_findings {A : Type} (f : state -> A -> state) (l : list A) :
  (forall st x, findings st (f st x)) ->
  forall st, findings st (fold_left f l st).
Proof.
  intro Hf. induction l as [|x l IH]; intro st; simpl.
  - constructor.
  - eapply findings_trans; [apply Hf | apply IH].
Qed.

Lemma report_error (st : state) (i : ValidationIssue) (r : float) :
  is_error i = true -> (0.3 <=? r)%float = true -> findings st (report i r st).
Proof.
  intros Hi Hr. apply findings_one.
  eapply finding_error; eauto.
Qed.

Ltac silent := apply findings_one; apply finding_none; reflexivity.
Ltac an_error :=
  first [ apply report_error; reflexivity
        | eapply findings_trans;
          [| apply report_error; reflexivity]; silent ].

Lemma check_call_findings (st : state) (n : node) :
  findings st (check_call st n).
Proof.
  unfold check_call. destruct n; try constructor.
  destruct (func_name_of n) as [f|]; [|constructor].
  destruct (str_mem f DANGEROUS_FUNCTIONS); [an_error | constructor].
Qed.

Lemma check_import_alias_findings (lineno : Z) (st : state) (name : string) :
  findings st (check_import_alias lineno st name).
Proof.
  unfold check_import_alias.
  destruct (str_mem (root_module name) DANGEROUS_IMPORTS); [an_error|].
  destruct (dict_get CONDITIONAL_IMPORTS (root_module name)); [silent|].
  destruct (negb _ && negb _); [|silent].
  eapply findings_trans; [silent|]. apply findings_one.
  eapply finding_import_warning; cycle 2; reflexivity.
Qed.

Lemma check_import_findings (st : state) (n : node) :
  findings st (check_import st n).
Proof.
  unfold check_import. destruct n; try constructor.
  - apply fold_findings. intros. apply check_import_alias_findings.
  - destruct module as [full|]; [|constructor].
    destruct (String.eqb full ""); [constructor|].
    destruct (str_mem (root_module full) DANGEROUS_IMPORTS); [an_error|].
    destruct (dict_get CONDITIONAL_IMPORTS (root_module full)); silent.
Qed.

Lemma check_usage_findings (st : state) (n : node) :
  findings st (check_usage st n).
Proof.
  unfold check_usage. destruct n; try constructor.
  destruct n; try constructor. destruct n; try constructor.
  destruct (dict_get (conditional_modules st) id) as [allowed|]; [|constructor].
  destruct (negb _ && negb _); [an_error | constructor].
Qed.

Lemma check_match_findings (code message : string) (st : state)
  (m : nat * nat) :
  findings st (check_match code message st m).
Proof.
  unfold check_match.
  destruct (is_safe_line (matched_line code m)); [constructor | an_error].
Qed.

Lemma check_credentials_findings (code : string) (st : state) :
  findings st (check_credentials code st).
Proof.
  apply fold_findings. intros st' [pattern message]. simpl.
  apply fold_findings. intros. apply check_match_findings.
Qed.

Lemma check_complexity_findings (tree : node) (st : state) :
  findings st (check_complexity tree st).
Proof.
  unfold check_complexity. destruct (50 <? function_count tree)%Z; [|constructor].
  apply findings_one. eapply finding_quality_warning; cycle 2; reflexivity.
Qed.

Lemma run_checks_findings (code : string) (tree : node) :
  findings (mkState [] 0.0 [] []) (run_checks code tree).
Proof.
  unfold run_checks.
  eapply findings_trans; [|apply check_complexity_findings].
  eapply findings_trans; [|apply check_credentials_findings].
  eapply findings_trans; [|apply fold_findings, check_usage_findings].
  eapply findings_trans; [|apply fold_findings, check_import_findings].
  apply fold_findings, check_call_findings.
Qed.

Lemma finding_issues (a b : state) :
  finding a b -> exists extra, st_issues b = (st_issues a ++ extra)%list.
Proof.
  intros [Hi _|i r _ _ Hi _|i _ _ Hi _|i _ _ Hi _]; rewrite Hi;
    [exists []; now rewrite app_nil_r | eauto ..].
Qed.

(** The issues are only appended to. *)
Lemma findings_issues (a b : state) :
  findings a b -> exists extra, st_issues b = (st_issues a ++ extra)%list.
Proof.
  induction 1 as [|b c _ [extra IHi] Hf].
  - exists []. now rewrite app_nil_r.
  - destruct (finding_issues _ _ Hf) as [extra' Hi].
    exists (extra ++ extra')%list. now rewrite Hi, IHi, app_assoc.
Qed.

Lemma finding_risk (a b : state) :
  finding a b -> Float.nonneg (st_risk a) ->
  (st_risk a <=? st_risk b)%float = true.
Proof.
  intros [_ Hr|i r _ Hge _ Hr|i _ _ _ Hr|i _ _ _ Hr] Ha; rewrite Hr.
  - now apply FloatProps.leb_refl.
  - apply FloatProps.add_grows; [exact Ha|].
    unfold Float.nonneg. eapply FloatProps.leb_trans; [|exact Hge]. reflexivity.
  - apply FloatProps.add_grows; [exact Ha | reflexivity].
  - now apply FloatProps.leb_refl.
Qed.

(** The risk only grows: no rounding of a sum takes it below what it
    was. *)
Lemma findings_grow (a b : state) :
  findings a b -> Float.nonneg (st_risk a) ->
  (st_risk a <=? st_risk b)%float = true.
Proof.
  intros H Ha. induction H as [|b c _ IH Hf].
  - now apply FloatProps.leb_refl.
  - eapply FloatProps.leb_trans; [exact IH|]. apply finding_risk; [exact Hf|].
    unfold Float.nonneg. eapply FloatProps.leb_trans; [exact Ha | exact IH].
Qed.

Lemma findings_keep_errors (a b : state) :
  findings a b -> errors_in a = true -> errors_in b = true.
Proof.
  intros H Ha. destruct (findings_issues _ _ H) as [extra Hi].
  unfold errors_in in *. now rewrite Hi, existsb_app, Ha.
Qed.

Lemma warned_snoc (a b : state) (i : ValidationIssue) :
  st_issues b = (st_issues a ++ [i])%list ->
  warned b = (warned a + (if is_import_warning i then 1 else 0))%nat.
Proof.
  intro Hi. unfold warned. rewrite Hi, filter_app, length_app. simpl.
  now destruct (is_import_warning i).
Qed.

(** Without an ERROR, the risk is what the additions of 0.1, one for
    each uncommon import, have made of it. *)
Lemma findings_warning_risk (a b : state) :
  findings a b -> errors_in b = false ->
  st_risk a = Float.accumulate 0.0 0.1 (warned a) ->
  st_risk b = Float.accumulate 0.0 0.1 (warned b).
Proof.
  induction 1 as [|b c _ IH Hf]; intros Hc Ha; [exact Ha|].
  assert (Hb : errors_in b = false).
  { destruct (finding_issues _ _ Hf) as [extra Hi]. unfold errors_in in *.
    rewrite Hi, existsb_app in Hc. now apply orb_false_elim in Hc. }
  specialize (IH Hb Ha).
  destruct Hf as [Hi Hr|i r Herr _ Hi _|i _ Hw Hi Hr|i _ Hw Hi Hr].
  - unfold warned. now rewrite Hi, Hr.
  - unfold errors_in in Hc. rewrite Hi, existsb_app in Hc. simpl in Hc.
    rewrite Herr, orb_true_r in Hc. discriminate.
  - rewrite (warned_snoc _ _ _ Hi), Hw, Hr, IH, Nat.add_1_r. reflexivity.
  - rewrite (warned_snoc _ _ _ Hi), Hw, Hr, IH, Nat.add_0_r. reflexivity.
Qed.

(** ** Check 1 and the denied calls *)




(** ** Running the validators *)

Section Runs.

Variable ast_parse : string -> outcome (list node).
Variable format_2f : float -> string.

Lemma security_parsed (code : string) (body : list node) (w : list event) :
  ast_parse code = Returned body ->
  validate_code_security ast_parse format_2f code w
  = (Returned (finalize format_2f (run_checks code (Module body))),
     (w ++ [EvParse code])%list).
Proof.
  intro H. unfold validate_code_security, try_except, bind, parse, emit, ret.
  simpl. now rewrite H.
Qed.

Lemma security_raised (code : string) (e : exception) (w : list event) :
  ast_parse code = Raised e ->
  validate_code_security ast_parse format_2f code w
  = (Returned
       (mkResult false
          [mkIssue "ERROR" "security"
             ("Security validation failed: " ++ exc_str e) 0
             "Fix syntax errors first"]
          1.0 ("Validation failed: " ++ exc_str e)),
     (w ++ [EvParse code])%list).
Proof.
  intro H. unfold validate_code_security, try_except, bind, parse, emit, ret.
  simpl. now rewrite H.
Qed.

(** Every call of the security validator shows among the events: it
    starts by calling the parser. *)
Lemma security_parses (code : string) (w : list event) :
  snd (validate_code_security ast_parse format_2f code w)
  = (w ++ [EvParse code])%list.
Proof.
  destruct (ast_parse code) as [body|e] eqn:H.
  - now rewrite (security_parsed _ _ _ H).
  - now rewrite (security_raised _ _ _ H).
Qed.

Lemma syntax_raised (code : string) (e : exception) (w : list event) :
  ast_parse code = Raised e ->
  exists i s,
    validate_code_syntax ast_parse code w
    = (Returned (mkResult false [i] 0.0 s), (w ++ [EvParse code])%list)
    /\ severity i = "ERROR" /\ issue_type i = "syntax".
Proof.
  intro H. unfold validate_code_syntax, try_except, bind, parse, emit, ret.
  simpl. rewrite H. simpl.
  destruct e; simpl; eexists; eexists; (split; [reflexivity|]); split; reflexivity.
Qed.

(** A text that parses passes the syntax validator, whatever it
    holds: that validator reports warnings only. *)
Lemma syntax_parsed (code : string) (body : list node) (w : list event) :
  ast_parse code = Returned body ->
  exists r,
    validate_code_syntax ast_parse code w
    = (Returned r, (w ++ [EvParse code])%list)
    /\ valid r = true.
Proof.
  intro H. cbv [validate_code_syntax try_except bind parse emit ret raise].
  rewrite H. cbn beta iota.
  destruct body; cbn [body_of];
    match goal with
    | |- context [if ?b then _ else _] => destruct b
    end; eexists; split; reflexivity.
Qed.

(** For a text that parses, [validate_code] runs both validators: the
    parser is called twice. *)
Lemma parsable_runs_security (code : string) (body : list node)
  (w : list event) :
  ast_parse code = Returned body ->
  snd (validate_code ast_parse format_2f code w)
  = (w ++ [EvParse code; EvParse code])%list.
Proof.
  intro H. destruct (syntax_parsed code body w H) as (r & Hrun & Hvalid).
  unfold validate_code, bind at 1. rewrite Hrun, Hvalid. cbn [negb].
  unfold bind. rewrite (security_parsed _ _ _ H). cbn [snd ret].
  now rewrite <- app_assoc.
Qed.


Lemma no_credential_matches (code : string) (st : state) :
  credential_matches code = [] -> check_credentials code st = st.
Proof.
  unfold credential_matches, check_credentials, hardcoded_patterns.
  cbn [flat_map fold_left fst check_pattern]. intro H.
  repeat (apply app_eq_nil in H; destruct H as [?H H]).
  repeat match goal with Hm : Re.finditer _ _ _ = [] |- _ =>
                           rewrite Hm; clear Hm end.
  reflexivity.
Qed.

Lemma warning_is_no_error (l : list ValidationIssue) :
  forallb is_warning l = true -> existsb is_error l = false.
Proof.
  induction l as [|i l IH]; simpl; [reflexivity|].
  intro H. apply andb_prop in H as [Hi Hl]. rewrite (IH Hl), orb_false_r.
  unfold is_warning, is_error in *. apply String.eqb_eq in Hi. now rewrite Hi.
Qed.

(** The capped sum of [n] additions of 0.1 is below the threshold
    exactly for fewer than five: the fifth addition gives 0.5, and
    no addition gives less than there was. *)
Lemma tenths_below_half (n : nat) :
  (Float.min (Float.accumulate 0.0 0.1 n) 1.0 <? 0.5)%float = true
  <-> (n < 5)%nat.
Proof.
  split; intro H.
  - destruct (Nat.lt_ge_cases n 5) as [Hn|Hn]; [exact Hn|]. exfalso.
    assert (Hge : (0.5 <=? Float.min (Float.accumulate 0.0 0.1 n) 1.0)%float
                  = true).
    { apply FloatProps.min_glb; [|reflexivity].
      change 0.5%float with (Float.accumulate 0.0 0.1 5).
      apply FloatProps.accumulate_grows; [reflexivity | reflexivity | exact Hn]. }
    rewrite (FloatProps.leb_ltb_false _ _ Hge) in H. discriminate.
  - do 5 (destruct n as [|n]; [reflexivity|]). lia.
Qed.

(** C3, as the code has it: when every finding is a WARNING, the risk
    score is what the additions of 0.1, one for each uncommon import
    (the complexity warning adds nothing), have made of 0.0, capped at
    1.0, and the result is valid exactly when there are fewer than five
    uncommon imports. *)
Theorem warnings_only_validity (code : string) (w : list event)
  (r : ValidationResult) :
  fst (validate_code_security ast_parse format_2f code w) = Returned r ->
  forallb is_warning (issues r) = true ->
  risk_score r = Float.min (Float.accumulate 0.0 0.1 (import_warnings r)) 1.0
  /\ (valid r = true <-> (import_warnings r < 5)%nat).
Proof.
  destruct (ast_parse code) as [body|e] eqn:Hp.
  - rewrite (security_parsed _ _ _ Hp). simpl. intros [= <-] Hw.
    set (st := run_checks code (Module body)) in *.
    unfold finalize in *. cbn [issues risk_score valid] in *.
    unfold import_warnings. cbn [issues].
    pose proof (warning_is_no_error _ Hw) as Herr.
    pose proof (findings_warning_risk _ _
                  (run_checks_findings code (Module body)) Herr eq_refl)
      as Hrisk.
    fold st in Hrisk. unfold warned in Hrisk. rewrite Hrisk.
    split; [reflexivity|].
    rewrite Herr. cbn [negb andb]. apply tenths_below_half.
  - rewrite (security_raised _ _ _ Hp). simpl. intros [= <-]. discriminate.
Qed.

(** C4: for a text that fails to parse, the syntax validator returns
    valid = false with exactly one issue, an ERROR of type syntax; and
    [validate_code] returns that result having called the parser once,
    for the syntax validator: the security validator, which would
    call the parser again, is not run. *)
Theorem unparsable_short_circuit (code : string) (e : exception)
  (w : list event) :
  ast_parse code = Raised e ->
  exists i s,
    validate_code_syntax ast_parse code w
    = (Returned (mkResult false [i] 0.0 s), (w ++ [EvParse code])%list)
    /\ severity i = "ERROR" /\ issue_type i = "syntax"
    /\ validate_code ast_parse format_2f code w
       = validate_code_syntax ast_parse code w
    /\ parse_calls (snd (validate_code ast_parse format_2f code w))
       = S (parse_calls w)
    /\ forall w', parse_calls
                    (snd (validate_code_security ast_parse format_2f code w'))
                  = S (parse_calls w').
Proof.
  intro H. destruct (syntax_raised code e w H) as (i & s & Hrun & Hsev & Hty).
  exists i, s. repeat split; try assumption.
  - unfold validate_code, bind. rewrite Hrun. reflexivity.
  - unfold validate_code, bind. rewrite Hrun. simpl.
    unfold parse_calls. rewrite filter_app, length_app. simpl. lia.
  - intro w'. rewrite security_parses.
    unfold parse_calls. rewrite filter_app, length_app. simpl. lia.
Qed.


(** C9: a text whose only statement imports one denied module, and in
    which the credential scan finds nothing, gets exactly one issue, an
    ERROR, a risk score of 0.4, and valid = false. *)
Theorem denied_import_alone (code : string) (stmt : node) (w : list event) :
  ast_parse code = Returned [stmt] ->
  denied_import stmt = true ->
  credential_matches code = [] ->
  exists i s rs,
    fst (validate_code_security ast_parse format_2f code w)
    = Returned (mkResult false [i] rs s)
    /\ is_error i = true
    /\ rs = 0.4%float.
Proof.
  intros Hp Hd Hc. rewrite (security_parsed _ _ _ Hp).
  unfold finalize, run_checks, check_complexity, function_count.
  destruct stmt as [| | |names l|module l| | | |]; try discriminate Hd.
  - destruct names as [|name [|? ?]]; try discriminate Hd.
    cbn [denied_import] in Hd.
    change (walk (Module [Import [name] l]))
      with [Module [Import [name] l]; Import [name] l].
    cbn [fold_left check_call check_usage check_import].
    unfold check_import_alias. rewrite Hd.
    rewrite no_credential_matches by exact Hc.
    do 3 eexists. split; [reflexivity|]. split; reflexivity.
  - destruct module as [full|]; [|discriminate Hd]. cbn [denied_import] in Hd.
    apply andb_prop in Hd as [Hne Hd]. apply negb_true_iff in Hne.
    change (walk (Module [ImportFrom (Some full) l]))
      with [Module [ImportFrom (Some full) l]; ImportFrom (Some full) l].
    cbn [fold_left check_call check_usage check_import].
    rewrite Hne, Hd.
    rewrite no_credential_matches by exact Hc.
    do 3 eexists. split; [reflexivity|]. split; reflexivity.
Qed.

(** C10: the security validator returns a result for every text and
    never raises; when its analysis raises, that result has
    valid = false, exactly one issue, an ERROR, and a risk score
    of 1.0. *)
Theorem security_total (code : string) (w : list event) :
  exists r,
    validate_code_security ast_parse format_2f code w
    = (Returned r, (w ++ [EvParse code])%list)
    /\ forall e, ast_parse code = Raised e ->
                 valid r = false
                 /\ (exists i, issues r = [i] /\ severity i = "ERROR")
                 /\ risk_score r = 1.0%float.
Proof.
  destruct (ast_parse code) as [body|e] eqn:Hp.
  - rewrite (security_parsed _ _ _ Hp). eexists. split; [reflexivity|].
    intros e [=].
  - rewrite (security_raised _ _ _ Hp). eexists. split; [reflexivity|].
    intros _ _. cbn [valid issues risk_score]. repeat split.
    eexists. split; reflexivity.
Qed.

End Runs.

(** ** The properties at the sample inputs *)

(** C3, counterexample: five imports of modules that are in no policy
    table give five WARNINGs and no ERROR, yet the risk score is 0.5,
    which is not below the threshold, and the result is not valid. *)
Lemma five_uncommon_imports_fail :
  exists r,
    fst (validate_code_security Samples.parser Samples.format_2f
           Samples.five_imports [])
    = Returned r
    /\ forallb is_warning (issues r) = true
    /\ List.length (issues r) = 5%nat
    /\ risk_score r = 0.5%float
    /\ (risk_score r <? 0.5)%float = false
    /\ valid r = false.
Proof.
  eexists. split; [vm_compute; reflexivity|].
  repeat split; reflexivity.
Qed.


Lemma warnings_only_validity_witness :
  exists r,
    fst (validate_code_security Samples.parser Samples.format_2f
           Samples.four_imports [])
    = Returned r
    /\ forallb is_warning (issues r) = true
    /\ risk_score r
       = Float.min (Float.accumulate 0.0 0.1 (import_warnings r)) 1.0
    /\ (valid r = true <-> (import_warnings r < 5)%nat).
Proof.
  eexists. split; [vm_compute; reflexivity|]. split; [reflexivity|].
  apply (warnings_only_validity Samples.parser Samples.format_2f
           Samples.four_imports []); reflexivity.
Defined.

Lemma unparsable_short_circuit_witness :
  Samples.parser Samples.unparsable
  = Raised (SyntaxError (Some 1) "invalid syntax")
  /\ exists i s,
      validate_code_syntax Samples.parser Samples.unparsable []
      = (Returned (mkResult false [i] 0.0 s), [EvParse Samples.unparsable])
      /\ severity i = "ERROR" /\ issue_type i = "syntax"
      /\ validate_code Samples.parser Samples.format_2f Samples.unparsable []
         = validate_code_syntax Samples.parser Samples.unparsable []
      /\ parse_calls
           (snd (validate_code Samples.parser Samples.format_2f
                   Samples.unparsable []))
         = 1%nat
      /\ forall w', parse_calls
                      (snd (validate_code_security Samples.parser
                              Samples.format_2f Samples.unparsable w'))
                    = S (parse_calls w').
Proof.
  split; [reflexivity|].
  apply (unparsable_short_circuit Samples.parser Samples.format_2f
           Samples.unparsable (SyntaxError (Some 1) "invalid syntax") []).
  reflexivity.
Defined.


Lemma denied_import_alone_witness :
  Samples.parser Samples.import_subprocess = Returned [Import ["subprocess"] 1]
  /\ denied_import (Import ["subprocess"] 1) = true
  /\ credential_matches Samples.import_subprocess = []
  /\ exists i s rs,
      fst (validate_code_security Samples.parser Samples.format_2f
             Samples.import_subprocess [])
      = Returned (mkResult false [i] rs s)
      /\ is_error i = true
      /\ rs = 0.4%float.
Proof.
  split; [reflexivity|]. split; [reflexivity|]. split; [reflexivity|].
  apply (denied_import_alone Samples.parser Samples.format_2f
           Samples.import_subprocess (Import ["subprocess"] 1) []);
    reflexivity.
Defined.

(** ** The credential scan *)

(** What the scan does with one match: nothing when the extracted line
    has a safe shape, else one ERROR with 0.3 of risk, on the line
    found by counting the newlines before the start of the match. *)
Lemma check_match_cases (code message : string) (st : state)
  (m : nat * nat) :
  (is_safe_line (matched_line code m) = true ->
   check_match code message st m = st)
  /\ (is_safe_line (matched_line code m) = false ->
      check_match code message st m
      = report
          (mkIssue "ERROR" "security" message
             (Z.of_nat (count_char newline (slice_to code (Z.of_nat (fst m))))
              + 1)
             "Use environment variables or config instead")
          0.3 st).
Proof. unfold check_match, line_num. split; intros ->; reflexivity. Qed.

(** When a newline follows the match, the extracted line is the
    enclosing line. *)
Lemma matched_line_enclosing (code : string) (m_start m_end i : nat) :
  find_char_from newline (drop m_end code) m_end = Some i ->
  matched_line code (m_start, m_end) = enclosing_line code (m_start, m_end).
Proof.
  intro H. unfold matched_line, enclosing_line, find_char. now rewrite H.
Qed.

(** C8, at the failing input: the text is one line, not ended by a
    newline, that assigns a password literal and then an empty string.
    The password pattern matches once; the enclosing line has the safe
    shape of an empty-string assignment; but the scan extracts the line
    without its last character, finds no safe shape in it and reports
    the ERROR.  With a newline at its end the same line is skipped. *)
Theorem last_line_suppression_missed :
  credential_matches Samples.password_then_empty = [(0%nat, 17%nat)]
  /\ is_safe_line (enclosing_line Samples.password_then_empty (0%nat, 17%nat))
     = true
  /\ matched_line Samples.password_then_empty (0%nat, 17%nat)
     = "password = " ++ Samples.q ++ "abcd" ++ Samples.q ++ "; user = "
         ++ Samples.q
  /\ (exists r,
         fst (validate_code_security Samples.parser Samples.format_2f
                Samples.password_then_empty [])
         = Returned r
         /\ issues r
            = [mkIssue "ERROR" "security" "Hardcoded password" 1
                 "Use environment variables or config instead"]
         /\ risk_score r = 0.3%float
         /\ valid r = false)
  /\ (exists r,
         fst (validate_code_security Samples.parser Samples.format_2f
                (Samples.password_then_empty ++ nl) [])
         = Returned r
         /\ issues r = []
         /\ valid r = true).
Proof.
  repeat split; try (vm_compute; reflexivity);
    eexists; (split; [vm_compute; reflexivity|]); repeat split.
Qed.

End CodeValidatorProps.

(* ===================================================================== *)
(** * Properties of validate_agent_specification.py                       *)
(* ===================================================================== *)

Module SpecValidatorProps.
Import Python Yaml SpecValidator.

Section Counting.

Variable spec : list (value * value).

Lemma count_present_filter (fields : list (string * list py_type)) :
  forall n,
    count_present spec fields n
    = n + Z.of_nat (List.length (filter (present spec) (map fst fields))).
Proof.
  unfold count_present.
  induction fields as [|f fields IH]; intro n; cbn [fold_left map filter].
  - simpl. lia.
  - rewrite IH. destruct (present spec (fst f)); cbn [List.length]; lia.
Qed.

Lemma filter_all {A : Type} (p : A -> bool) (l : list A) :
  (List.length (filter p l) <= List.length l)%nat
  /\ (List.length (filter p l) = List.length l <-> forallb p l = true).
Proof.
  induction l as [|x l [IHle IHeq]]; simpl.
  - split; [lia | tauto].
  - destruct (p x); simpl.
    + split; [lia|]. rewrite <- IHeq. split; [intros [=]|intros ->]; auto.
    + split; [lia|]. split; [lia | discriminate].
Qed.

(** Number of tracked fields that are present. *)
Lemma completeness_counts :
  _calculate_completeness spec
  == inject_Z
       (Z.of_nat (List.length (filter (present spec) tracked_fields)))
     * (100 # 13).
Proof.
  unfold _calculate_completeness, tracked_fields.
  rewrite !count_present_filter, filter_app, length_app, Nat2Z.inj_add.
  change (Z.of_nat (List.length REQUIRED_FIELDS)
          + Z.of_nat (List.length OPTIONAL_FIELDS)) with 13.
  rewrite Z.add_0_l. change (inject_Z 13) with 13%Q. field.
Qed.

(** C5, as the code has it: the completeness score is a percentage.  It
    lies in [0, 100], it is 100 exactly when every tracked required and
    optional field is a key of the document with a value that counts as
    true, and the validator of [completeness_score] accepts it. *)
Theorem completeness_percentage :
  (0 <= _calculate_completeness spec <= 100)%Q
  /\ (_calculate_completeness spec == 100 <-> all_present spec = true)
  /\ validate_score (_calculate_completeness spec)
     = Returned (_calculate_completeness spec).
Proof.
  pose proof completeness_counts as Hc.
  destruct (filter_all (present spec) tracked_fields) as [Hle Heq].
  change (List.length tracked_fields) with 13%nat in *.
  set (c := List.length (filter (present spec) tracked_fields)) in *.
  clearbody c.
  assert (H0 : (inject_Z 0 <= inject_Z (Z.of_nat c))%Q)
    by (rewrite <- Zle_Qle; lia).
  assert (H13 : (inject_Z (Z.of_nat c) <= inject_Z 13)%Q)
    by (rewrite <- Zle_Qle; lia).
  change (inject_Z 0) with 0%Q in H0. change (inject_Z 13) with 13%Q in H13.
  assert (Hrange : (0 <= _calculate_completeness spec <= 100)%Q)
    by (rewrite Hc; split; lra).
  split; [exact Hrange|]. split.
  - unfold all_present. rewrite <- Heq, Hc. split.
    + intro H. assert (Hq : inject_Z (Z.of_nat c) == inject_Z 13)
        by (change (inject_Z 13) with 13%Q; lra).
      apply (proj1 (inject_Z_injective _ _)) in Hq. lia.
    + intros ->. change (inject_Z (Z.of_nat 13)) with 13%Q. lra.
  - unfold validate_score. destruct Hrange as [Hlo Hhi].
    apply Qle_bool_iff in Hlo, Hhi. now rewrite Hlo, Hhi.
Qed.

End Counting.

(** C5, counterexample: a specification with every tracked field filled
    in scores 100, which is outside [0, 1] and is not 1.0; one with the
    agent name only scores 100/13, above 1 as well. *)
Lemma complete_spec_scores_100 :
  all_present Samples.complete_spec = true
  /\ _calculate_completeness Samples.complete_spec == 100
  /\ ~ (_calculate_completeness Samples.complete_spec <= 1)%Q
  /\ ~ _calculate_completeness Samples.complete_spec == 1.0
  /\ all_present Samples.name_only_spec = false
  /\ _calculate_completeness Samples.name_only_spec == 100 # 13
  /\ ~ (_calculate_completeness Samples.name_only_spec <= 1)%Q.
Proof.
  repeat split; try reflexivity; intro H; vm_compute in H;
    first [discriminate | now apply H].
Qed.

End SpecValidatorProps.

(* ===================================================================== *)
(** * Properties of the retry loops                                       *)
(* ===================================================================== *)

Module RetryProps.
Import Python Yaml GenerateAgentCode PythonProps.

(** ** The line number that the feedback builder reads *)

(** From the message of a syntax error that has a line number, the
    feedback builder reads that number back. *)
Lemma error_line_num_located (l : Z) (msg : string) :
  error_line_num ("Syntax error at line " ++ str_of_Z l ++ ": " ++ msg)
  = Returned l.
Proof.
  pose proof (str_of_Z_numeral l) as Hnum. revert Hnum.
  pose proof (int_of_str_of_Z l) as Hint. revert Hint.
  generalize (str_of_Z l) as d. intros d Hint Hnum.
  unfold error_line_num.
  assert (Hl : all_chars (fun c => negb (Ascii.eqb "l" c)) d = true).
  { apply (all_chars_weaken is_numeral_char); [|exact Hnum].
    intros c Hc. destruct (numeral_char_is_plain c Hc) as (_ & _ & _ & ->).
    reflexivity. }
  assert (Hcolon : all_chars (fun c => negb (Ascii.eqb ":" c)) d = true).
  { apply (all_chars_weaken is_numeral_char); [|exact Hnum].
    intros c Hc. destruct (numeral_char_is_plain c Hc) as (_ & _ & -> & _).
    reflexivity. }
  set (rest := d ++ ": " ++ msg).
  change (contains ("Syntax error at line " ++ rest) "line ") with true.
  cbn iota.
  change (split ("Syntax error at line " ++ rest) "line ")
    with ("Syntax error at " :: split_aux "line " rest "" 0).
  cbn [nth]. rewrite !nth_0_hd. unfold rest.
  rewrite (split_aux_plain "l" "ine " d _ Hl).
  change (split_aux "line " (": " ++ msg) ("" ++ d) 0)
    with (split_aux "line " msg ((d ++ ":") ++ " ") 0).
  destruct (split_aux_head "line " msg ((d ++ ":") ++ " ") 0) as [t ->].
  rewrite !PythonProps.append_assoc. unfold split.
  rewrite (split_aux_plain ":" "" d _ Hcolon).
  cbn [append split_aux startswith Ascii.eqb Bool.eqb andb hd].
  now rewrite Hint.
Qed.

Section AgentCode.

Variable ast_parse : string -> outcome (list Ast.node).
Variable yaml_safe_load : string -> outcome value.
Variable llm : nat -> string -> string -> outcome string.

#[local] Abbreviation generate_agent_code :=
  (generate_agent_code yaml_safe_load llm).
#[local] Abbreviation attempt_body :=
  (attempt_body ast_parse yaml_safe_load llm).
#[local] Abbreviation attempts_loop :=
  (attempts_loop ast_parse yaml_safe_load llm).
#[local] Abbreviation syntax_error_of := (syntax_error_of ast_parse).
#[local] Abbreviation always_fails := (always_fails ast_parse llm).
#[local] Abbreviation always_syntax_error :=
  (always_syntax_error ast_parse llm).
#[local] Abbreviation never_answers := (never_answers llm).

Lemma check_syntax_run (code : string) (w : list event) :
  _check_syntax ast_parse code w
  = (Returned (syntax_error_of code), (w ++ [EvParse code])%list).
Proof.
  unfold _check_syntax, GenerateAgentCode.syntax_error_of, try_except, bind,
    parse, emit, ret, raise.
  simpl. destruct (ast_parse code) as [body|[]]; reflexivity.
Qed.

Section OneAttempt.

Variables (yaml_specification style_guide additional_instructions : string).
Variable items : list (value * value).
Variable w : list event.

Hypothesis yaml_loads : yaml_safe_load yaml_specification = Returned (YDict items).

Let prompt : string := user_prompt yaml_specification additional_instructions.
Let asked : list event := (w ++ [EvGenerate system_prompt prompt])%list.

(** [generate_agent_code] when the LLM client answers. *)
Lemma generate_answered (text : string) :
  llm (generate_calls w) system_prompt prompt = Returned text ->
  generate_agent_code yaml_specification style_guide additional_instructions w
  = (Returned (result_for items text), asked).
Proof.
  intro H. unfold GenerateAgentCode.generate_agent_code, try_except, bind,
    lift, llm_generate, ret, raise, result_for, details_of, spec_get.
  rewrite yaml_loads. unfold asked, prompt in *.
  destruct (lookup items "agent_name"), (lookup items "agent_type"),
    (lookup items "complexity"); cbn beta iota; rewrite H; reflexivity.
Qed.

(** [generate_agent_code] when the LLM client raises: a [RuntimeError]
    that quotes the failure. *)
Lemma generate_failed (e : exception) :
  llm (generate_calls w) system_prompt prompt = Raised e ->
  generate_agent_code yaml_specification style_guide additional_instructions w
  = (Raised (RuntimeError
               ("Code generation failed: " ++ exc_str e ++ ". "
                  ++ "This indicates an issue with LLM response.")),
     asked).
Proof.
  intro H. unfold GenerateAgentCode.generate_agent_code, try_except, bind,
    lift, llm_generate, ret, raise, spec_get.
  rewrite yaml_loads. unfold asked, prompt in *.
  destruct (lookup items "agent_name"), (lookup items "agent_type"),
    (lookup items "complexity"); cbn beta iota; rewrite H; reflexivity.
Qed.

Variables (max_retries attempt : Z).

Let checked (text : string) : list event :=
  (asked ++ [EvWrite (debug_path attempt) (remove_code_fences text);
             EvParse (remove_code_fences text)])%list.

Lemma attempt_run (text : string) :
  llm (generate_calls w) system_prompt prompt = Returned text ->
  attempt_body yaml_specification style_guide max_retries attempt
    additional_instructions w
  = match syntax_error_of (remove_code_fences text) with
    | None =>
        (Returned
           (Return (mkResult (remove_code_fences text)
                      (metadata (result_for items text)) (Some attempt))),
         checked text)
    | Some syntax_error =>
        if attempt <? max_retries - 1
        then match error_line_num syntax_error with
             | Returned n =>
                 (Returned
                    (Next (feedback syntax_error
                             (context_of (remove_code_fences text) n))),
                  checked text)
             | Raised e => (Raised e, checked text)
             end
        else (Raised
                (ValueError
                   ("Code generation failed after " ++ str_of_Z max_retries
                      ++ " attempts. " ++ "Last error: " ++ syntax_error
                      ++ ". " ++ "Debug code at: " ++ debug_path attempt)),
              checked text)
    end.
Proof.
  intro H. unfold GenerateAgentCode.attempt_body, try_except at 1, bind at 1.
  rewrite (generate_answered text H).
  assert (Hcode : code (result_for items text) = remove_code_fences text).
  { unfold result_for. destruct (details_of items) as [[? ?] ?]. reflexivity. }
  rewrite Hcode. unfold bind, emit. rewrite check_syntax_run.
  unfold checked. rewrite <- app_assoc. cbn [app].
  destruct (syntax_error_of (remove_code_fences text)) as [err|];
    [|reflexivity].
  destruct (attempt <? max_retries - 1); [|reflexivity].
  unfold lift, ret. destruct (error_line_num err) as [n|e] eqn:He;
    [reflexivity|].
  unfold error_line_num in He.
  destruct (contains err "line "); [|discriminate].
  destruct (int_of_str _); [discriminate|]. now injection He as <-.
Qed.

(** One pass through the loop when the LLM client raises. *)
Lemma attempt_unanswered (e : exception) :
  llm (generate_calls w) system_prompt prompt = Raised e ->
  attempt_body yaml_specification style_guide max_retries attempt
    additional_instructions w
  = (if attempt >=? max_retries - 1
     then Raised
            (RuntimeError
               ("Code generation failed after " ++ str_of_Z max_retries
                  ++ " attempts: " ++ "Code generation failed: "
                  ++ exc_str e ++ ". "
                  ++ "This indicates an issue with LLM response."))
     else Returned (Next additional_instructions),
     asked).
Proof.
  intro H. unfold GenerateAgentCode.attempt_body, try_except at 1, bind at 1.
  rewrite (generate_failed e H). cbn beta iota.
  destruct (attempt >=? max_retries - 1); reflexivity.
Qed.

(** C1, as the code has it: a failure raised by the LLM client comes out
    of [generate_agent_code] as a [RuntimeError] that quotes it, and the
    retry loop catches that error.  On every attempt but the last the
    attempt is used up and the loop goes on with the instructions it
    had; on the last attempt the loop raises a [RuntimeError] that
    names the number of attempts and quotes the failure. *)
Theorem llm_failure_consumes_attempt (e : exception) :
  llm (generate_calls w) system_prompt prompt = Raised e ->
  attempt_body yaml_specification style_guide max_retries attempt
    additional_instructions w
  = (if attempt >=? max_retries - 1
     then Raised
            (RuntimeError
               ("Code generation failed after " ++ str_of_Z max_retries
                  ++ " attempts: " ++ "Code generation failed: "
                  ++ exc_str e ++ ". "
                  ++ "This indicates an issue with LLM response."))
     else Returned (Next additional_instructions),
     asked).
Proof.
  intro H. rewrite (attempt_unanswered e H).
  destruct (attempt >=? max_retries - 1); reflexivity.
Qed.

End OneAttempt.

(** ** Whole runs of [generate_agent_code_with_retry] *)

Lemma generate_calls_app (w1 w2 : list event) :
  generate_calls (w1 ++ w2) = (generate_calls w1 + generate_calls w2)%nat.
Proof. unfold generate_calls. now rewrite filter_app, length_app. Qed.

Lemma last_app_nonempty {A : Type} (l1 l2 : list A) (d : A) :
  l2 <> [] -> last (l1 ++ l2) d = last l2 d.
Proof.
  intro H. induction l1 as [|x l1 IH]; [reflexivity|].
  cbn [app last]. destruct (l1 ++ l2)%list eqn:E; [|exact IH].
  apply app_eq_nil in E. tauto.
Qed.

Lemma files_written_app (w1 w2 : list event) :
  files_written (w1 ++ w2) = (files_written w1 ++ files_written w2)%list.
Proof. unfold files_written. apply flat_map_app. Qed.

Lemma attempts_loop_next (yaml_specification style_guide : string)
  (max_retries attempt : Z) (rest : list Z) (additional_instructions : string) :
  attempts_loop yaml_specification style_guide max_retries (attempt :: rest)
    additional_instructions
  = bind (attempt_body yaml_specification style_guide max_retries attempt
            additional_instructions)
      (fun s =>
         match s with
         | Return result => ret result
         | Next additional_instructions =>
             attempts_loop yaml_specification style_guide max_retries rest
               additional_instructions
         end).
Proof. reflexivity. Qed.

Section Runs.

Variables (yaml_specification style_guide : string).
Variable items : list (value * value).
Hypothesis yaml_loads : yaml_safe_load yaml_specification = Returned (YDict items).

(** The first attempt passes: one call of the generator, and the retry
    count of the result is 0. *)
Lemma first_attempt_passes (max_retries : Z) (text : string) :
  1 <= max_retries ->
  llm 0 system_prompt (user_prompt yaml_specification "") = Returned text ->
  syntax_error_of (remove_code_fences text) = None ->
  exists r w,
    generate_agent_code_with_retry ast_parse yaml_safe_load llm
      yaml_specification style_guide max_retries []
    = (Returned r, w)
    /\ code r = remove_code_fences text
    /\ retry_count r = Some 0
    /\ generate_calls w = 1%nat.
Proof.
  intros Hmax Hllm Hok. unfold generate_agent_code_with_retry, range.
  destruct (Z.to_nat max_retries) as [|k] eqn:Hk; [lia|].
  cbn [seq map GenerateAgentCode.attempts_loop]. unfold bind at 1.
  rewrite (attempt_run _ style_guide "" items [] yaml_loads max_retries
             (Z.of_nat 0) text)
    by exact Hllm.
  rewrite Hok. do 2 eexists. split; [reflexivity|]. repeat split.
Qed.


(** The loop from attempt [a] on, with [k] attempts left. *)
Lemma attempts_fail (N : nat) :
  always_fails ->
  forall k a additional_instructions w,
    (a + S k = N)%nat ->
    exists text syntax_error w',
      attempts_loop yaml_specification style_guide (Z.of_nat N)
        (map Z.of_nat (seq a (S k))) additional_instructions w
      = (Raised
           (ValueError
              ("Code generation failed after " ++ str_of_Z (Z.of_nat N)
                 ++ " attempts. " ++ "Last error: " ++ syntax_error
                 ++ ". " ++ "Debug code at: "
                 ++ debug_path (Z.of_nat N - 1))),
         (w ++ w')%list)
      /\ syntax_error_of (remove_code_fences text) = Some syntax_error
      /\ generate_calls w' = S k
      /\ last (files_written w') ("", "")
         = (debug_path (Z.of_nat N - 1), remove_code_fences text).
Proof.
  intro Hfail. induction k as [|k IH]; intros a additional w Ha.
  - cbn [seq map GenerateAgentCode.attempts_loop]. unfold bind at 1.
    destruct (Hfail (generate_calls w) system_prompt
                (user_prompt yaml_specification additional))
      as (text & err & line & Hllm & Herr & Hline).
    rewrite (attempt_run _ style_guide additional items w yaml_loads
               (Z.of_nat N) (Z.of_nat a) text Hllm).
    rewrite Herr.
    replace (Z.of_nat a <? Z.of_nat N - 1) with false
      by (symmetry; apply Z.ltb_ge; lia).
    replace (Z.of_nat a) with (Z.of_nat N - 1) by lia.
    exists text, err. eexists. split; [rewrite <- app_assoc; reflexivity|].
    repeat split; try assumption.
  - change (seq a (S (S k))) with (a :: seq (S a) (S k)). cbn [map].
    rewrite attempts_loop_next. unfold bind at 1.
    destruct (Hfail (generate_calls w) system_prompt
                (user_prompt yaml_specification additional))
      as (text & err & line & Hllm & Herr & Hline).
    rewrite (attempt_run _ style_guide additional items w yaml_loads
               (Z.of_nat N) (Z.of_nat a) text Hllm).
    rewrite Herr.
    replace (Z.of_nat a <? Z.of_nat N - 1) with true
      by (symmetry; apply Z.ltb_lt; lia).
    rewrite Hline.
    destruct (IH (S a) (feedback err (context_of (remove_code_fences text) line))
                ((w ++ [EvGenerate system_prompt
                          (user_prompt yaml_specification additional)])
                   ++ [EvWrite (debug_path (Z.of_nat a))
                         (remove_code_fences text);
                       EvParse (remove_code_fences text)])%list)
      as (text' & err' & w' & Hrun & Herr' & Hcalls & Hlast); [lia|].
    rewrite Hrun. exists text', err'. eexists.
    split; [rewrite <- !app_assoc; reflexivity|].
    split; [assumption|]. split.
    + rewrite !generate_calls_app, Hcalls. reflexivity.
    + rewrite !files_written_app, <- Hlast, app_assoc.
      apply last_app_nonempty. intro Hf. rewrite Hf in Hlast.
      apply (f_equal fst) in Hlast. discriminate Hlast.
Qed.

(** Every attempt fails with an error the feedback builder can read:
    the generator is called [max_retries] times, and the run ends in a
    [ValueError] that quotes the syntax error of the last attempt and
    names the file that holds the text of that attempt. *)
Lemma exhausted_when_located (max_retries : Z) :
  1 <= max_retries ->
  always_fails ->
  exists text syntax_error w,
    generate_agent_code_with_retry ast_parse yaml_safe_load llm
      yaml_specification style_guide max_retries []
    = (Raised
         (ValueError
            ("Code generation failed after " ++ str_of_Z max_retries
               ++ " attempts. " ++ "Last error: " ++ syntax_error
               ++ ". " ++ "Debug code at: " ++ debug_path (max_retries - 1))),
       w)
    /\ syntax_error_of (remove_code_fences text) = Some syntax_error
    /\ generate_calls w = Z.to_nat max_retries
    /\ last (files_written w) ("", "")
       = (debug_path (max_retries - 1), remove_code_fences text).
Proof.
  intros Hmax Hfail. unfold generate_agent_code_with_retry, range.
  destruct (Z.to_nat max_retries) as [|k] eqn:Hk; [lia|].
  destruct (attempts_fail (S k) Hfail k 0%nat "" [] eq_refl)
    as (text & err & w' & Hrun & Herr & Hcalls & Hlast).
  replace max_retries with (Z.of_nat (S k)) by lia.
  exists text, err, w'. auto.
Qed.

Lemma located_errors_fail : always_syntax_error -> always_fails.
Proof.
  intros H n system user.
  destruct (H n system user) as (text & line & msg & Hllm & Hparse).
  exists text. do 2 eexists. split; [exact Hllm|].
  unfold GenerateAgentCode.syntax_error_of. rewrite Hparse.
  split; [reflexivity|]. apply error_line_num_located.
Qed.

(** The same, for a generator whose every text has a syntax error with
    a line number. *)
Lemma exhausted_when_syntax_errors (max_retries : Z) :
  1 <= max_retries ->
  always_syntax_error ->
  exists text syntax_error w,
    generate_agent_code_with_retry ast_parse yaml_safe_load llm
      yaml_specification style_guide max_retries []
    = (Raised
         (ValueError
            ("Code generation failed after " ++ str_of_Z max_retries
               ++ " attempts. " ++ "Last error: " ++ syntax_error
               ++ ". " ++ "Debug code at: " ++ debug_path (max_retries - 1))),
       w)
    /\ syntax_error_of (remove_code_fences text) = Some syntax_error
    /\ generate_calls w = Z.to_nat max_retries
    /\ last (files_written w) ("", "")
       = (debug_path (max_retries - 1), remove_code_fences text).
Proof.
  intros Hmax H. apply exhausted_when_located; [exact Hmax|].
  now apply located_errors_fail.
Qed.

(** The loop from attempt [a] on, with [k] attempts left, when the LLM
    client never answers: every attempt calls it, with the instructions
    the loop started with. *)
Lemma attempts_unanswered (N : nat) :
  never_answers ->
  forall k a additional_instructions w,
    (a + S k = N)%nat ->
    exists e w',
      attempts_loop yaml_specification style_guide (Z.of_nat N)
        (map Z.of_nat (seq a (S k))) additional_instructions w
      = (Raised
           (RuntimeError
              ("Code generation failed after " ++ str_of_Z (Z.of_nat N)
                 ++ " attempts: " ++ "Code generation failed: "
                 ++ exc_str e ++ ". "
                 ++ "This indicates an issue with LLM response.")),
         (w ++ w')%list)
      /\ w' = repeat (EvGenerate system_prompt
                        (user_prompt yaml_specification
                           additional_instructions)) (S k).
Proof.
  intro Hno. induction k as [|k IH]; intros a additional w Ha.
  - cbn [seq map]. rewrite attempts_loop_next. unfold bind at 1.
    destruct (Hno (generate_calls w) system_prompt
                (user_prompt yaml_specification additional)) as [e He].
    rewrite (attempt_unanswered _ style_guide additional items w
               yaml_loads (Z.of_nat N) (Z.of_nat a) e He).
    replace (Z.of_nat a >=? Z.of_nat N - 1) with true
      by (symmetry; rewrite Z.geb_leb; apply Z.leb_le; lia).
    exists e. eexists. split; reflexivity.
  - change (seq a (S (S k))) with (a :: seq (S a) (S k)). cbn [map].
    rewrite attempts_loop_next. unfold bind at 1.
    destruct (Hno (generate_calls w) system_prompt
                (user_prompt yaml_specification additional)) as [e He].
    rewrite (attempt_unanswered _ style_guide additional items w
               yaml_loads (Z.of_nat N) (Z.of_nat a) e He).
    replace (Z.of_nat a >=? Z.of_nat N - 1) with false
      by (symmetry; rewrite Z.geb_leb; apply Z.leb_gt; lia).
    destruct (IH (S a) additional
                (w ++ [EvGenerate system_prompt
                         (user_prompt yaml_specification additional)])%list)
      as (e' & w' & Hrun & Hw'); [lia|].
    rewrite Hrun. exists e'. eexists.
    split; [rewrite <- app_assoc; reflexivity|].
    rewrite Hw'. reflexivity.
Qed.

(** An LLM client that never answers is called on each of the
    [max_retries] attempts, each time with the first prompt, before the
    run ends in a [RuntimeError]. *)
Lemma unanswered_uses_every_attempt (max_retries : Z) :
  1 <= max_retries ->
  never_answers ->
  exists e,
    generate_agent_code_with_retry ast_parse yaml_safe_load llm
      yaml_specification style_guide max_retries []
    = (Raised
         (RuntimeError
            ("Code generation failed after " ++ str_of_Z max_retries
               ++ " attempts: " ++ "Code generation failed: "
               ++ exc_str e ++ ". "
               ++ "This indicates an issue with LLM response.")),
       repeat (EvGenerate system_prompt (user_prompt yaml_specification ""))
         (Z.to_nat max_retries)).
Proof.
  intros Hmax Hno. unfold generate_agent_code_with_retry, range.
  destruct (Z.to_nat max_retries) as [|k] eqn:Hk; [lia|].
  destruct (attempts_unanswered (S k) Hno k 0%nat "" [] eq_refl)
    as (e & w' & Hrun & Hw').
  replace max_retries with (Z.of_nat (S k)) by lia.
  exists e. rewrite Hrun, Hw'. reflexivity.
Qed.

End Runs.

End AgentCode.

(** ** [generate_script] *)

Section Script.

Variable ast_parse : string -> outcome (list Ast.node).
Variable llm : nat -> string -> string -> outcome string.
Variable _clean_code : string -> string.
Variable _generate_requirements :
  ScriptGenerator.ExecutionPlan -> bool -> string -> string.
Variable _generate_env_example :
  ScriptGenerator.TaskAnalysis -> ScriptGenerator.ExecutionPlan -> string
  -> string.
Variable now_isoformat : string.

#[local] Abbreviation script_attempt :=
  (ScriptGenerator.attempt_body ast_parse llm _clean_code
     _generate_requirements _generate_env_example now_isoformat).

(** One pass through the loop of [generate_script] when the LLM client
    answers and the text has a syntax error. *)
Lemma script_attempt_syntax_error
  (task_analysis : ScriptGenerator.TaskAnalysis)
  (execution_plan : ScriptGenerator.ExecutionPlan)
  (user_prompt system_prompt text msg : string) (lineno : option Z)
  (max_retries attempt : Z) (w : list event) :
  llm (generate_calls w) system_prompt user_prompt = Returned text ->
  ast_parse (_clean_code text) = Raised (SyntaxError lineno msg) ->
  script_attempt task_analysis execution_plan user_prompt max_retries attempt
    system_prompt w
  = (if attempt <? max_retries - 1
     then Returned
            (ScriptGenerator.Next
               (system_prompt
                  ++ ScriptGenerator.feedback
                       ("Syntax error at line " ++ str_of_opt_Z lineno ++ ": "
                          ++ msg)
                       (ScriptGenerator.context_of (_clean_code text) lineno)))
     else Raised
            (ValueError
               ("Failed to generate valid script after "
                  ++ str_of_Z max_retries ++ " attempts: "
                  ++ exc_str (SyntaxError lineno msg))),
     (w ++ [EvGenerate system_prompt user_prompt;
            EvParse (_clean_code text)])%list).
Proof.
  intros Hllm Hparse.
  cbv [ScriptGenerator.attempt_body try_except bind
       ScriptGenerator.llm_generate ScriptGenerator.parse emit ret raise].
  rewrite Hllm. cbn beta iota. rewrite Hparse. cbn beta iota.
  rewrite <- app_assoc. cbn [app].
  destruct (attempt <? max_retries - 1) eqn:Hlt; cbn beta iota.
  - reflexivity.
  - replace (attempt >=? max_retries - 1) with true; [reflexivity|].
    symmetry. rewrite Z.geb_leb. apply Z.leb_le. apply Z.ltb_ge in Hlt. lia.
Qed.







End Script.



(** ** The properties at the sample inputs *)

(** C1, counterexample: with two attempts, an LLM client that fails on
    the first call is called a second time, and the run returns the
    code of the second call with a retry count of 1: the failure did
    not reach the caller.  A client that is never reachable is called
    on each of three attempts, and what reaches the caller is not its
    failure but a [RuntimeError] built around it. *)
Lemma llm_failure_is_retried :
  (exists r w,
      generate_agent_code_with_retry Samples.code_parser Samples.yaml_loader
        Samples.llm_fails_once Samples.spec_text "pep8" 2 []
      = (Returned r, w)
      /\ code r = Samples.good_code
      /\ retry_count r = Some 1
      /\ generate_calls w = 2%nat)
  /\ (exists w,
         generate_agent_code_with_retry Samples.code_parser
           Samples.yaml_loader Samples.llm_down Samples.spec_text "pep8" 3 []
         = (Raised
              (RuntimeError
                 "Code generation failed after 3 attempts: Code generation failed: Connection refused. This indicates an issue with LLM response."),
            w)
         /\ generate_calls w = 3%nat).
Proof.
  split.
  - do 2 eexists. split; [vm_compute; reflexivity|]. repeat split.
  - eexists. split; [vm_compute; reflexivity|]. reflexivity.
Qed.

Lemma llm_failure_consumes_attempt_witness :
  Samples.yaml_loader Samples.spec_text
  = Returned (YDict Samples.name_only_spec)
  /\ Samples.llm_fails_once 0%nat system_prompt
       (user_prompt Samples.spec_text "")
     = Raised Samples.llm_unavailable
  /\ attempt_body Samples.code_parser Samples.yaml_loader
       Samples.llm_fails_once Samples.spec_text "pep8" 2 0 "" []
     = (Returned (Next ""),
        [EvGenerate system_prompt (user_prompt Samples.spec_text "")]).
Proof.
  split; [reflexivity|]. split; [reflexivity|].
  exact (llm_failure_consumes_attempt Samples.code_parser Samples.yaml_loader
           Samples.llm_fails_once Samples.spec_text "pep8" ""
           Samples.name_only_spec [] eq_refl 2 0 Samples.llm_unavailable
           eq_refl).
Defined.

(** C2, at the failing input: two attempts, and a generator whose text
    holds a NUL character, for which the parser raises a [SyntaxError]
    that has no line number.  The message of [_check_syntax] then reads
    [line None], the feedback builder calls [int] on [None], and the
    [ValueError] of [int] leaves the loop through [except ValueError]:
    the generator was called once, not twice, and the error that
    reaches the caller carries neither the syntax error nor the path of
    the saved text. *)
Theorem unlocated_syntax_error_aborts :
  syntax_error_of Samples.code_parser Samples.nul_code
  = Some "Syntax error at line None: source code string cannot contain null bytes"
  /\ exists w,
      generate_agent_code_with_retry Samples.code_parser Samples.yaml_loader
        Samples.llm_nul Samples.spec_text "pep8" 2 []
      = (Raised (ValueError "invalid literal for int() with base 10: 'None'"),
         w)
      /\ generate_calls w = 1%nat
      /\ files_written w
         = [("/tmp/generated_code_attempt_1.py", Samples.nul_code)].
Proof.
  split; [reflexivity|].
  eexists. split; [vm_compute; reflexivity|]. split; reflexivity.
Qed.



End RetryProps.

(* ===================================================================== *)
(** * More on code_validator.py                                           *)
(* ===================================================================== *)

Module PolicyProps.
Import Python Ast CodeValidator Policy AstProps CodeValidatorProps.
Import PrimFloat.

Lemma findings_keep_issue (a b : state) (i : ValidationIssue) :
  findings a b -> In i (st_issues a) -> In i (st_issues b).
Proof.
  intros H Hi. destruct (findings_issues _ _ H) as [extra He].
  rewrite He. apply in_or_app. now left.
Qed.

Lemma findings_nonneg (a b : state) :
  findings a b -> Float.nonneg (st_risk a) -> Float.nonneg (st_risk b).
Proof.
  intros H Ha. unfold Float.nonneg.
  eapply FloatProps.leb_trans; [exact Ha | now apply findings_grow].
Qed.

(** Once the risk is 0.4 or more, it stays so. *)
Lemma findings_keep_risk (a b : state) :
  findings a b -> (0.4 <=? st_risk a)%float = true ->
  (0.4 <=? st_risk b)%float = true.
Proof.
  intros H Ha. eapply FloatProps.leb_trans; [exact Ha|].
  apply findings_grow; [exact H|]. unfold Float.nonneg.
  eapply FloatProps.leb_trans; [|exact Ha]. reflexivity.
Qed.

Lemma errors_in_issue (st : state) (i : ValidationIssue) :
  In i (st_issues st) -> is_error i = true -> errors_in st = true.
Proof.
  intros Hi He. unfold errors_in. apply existsb_exists. eauto.
Qed.

(** ** Denied imports *)

Lemma str_mem_exists (x : string) (l : list string) :
  str_mem x l = existsb (fun m => String.eqb x m) l.
Proof. reflexivity. Qed.

Lemma alias_denied (lineno : Z) (st : state) (name : string) :
  str_mem (root_module name) DANGEROUS_IMPORTS = true ->
  errors_in (check_import_alias lineno st name) = true
  /\ st_risk (check_import_alias lineno st name) = (st_risk st + 0.4)%float.
Proof.
  intro H. unfold check_import_alias. rewrite H. split.
  - unfold errors_in, report. cbn [st_issues]. rewrite existsb_app. simpl.
    apply orb_true_r.
  - reflexivity.
Qed.

Lemma aliases_denied (lineno : Z) (names : list string) :
  forall st,
    Float.nonneg (st_risk st) ->
    existsb (fun name => str_mem (root_module name) DANGEROUS_IMPORTS) names
    = true ->
    errors_in (fold_left (check_import_alias lineno) names st) = true
    /\ (0.4 <=? st_risk (fold_left (check_import_alias lineno) names st))%float
       = true.
Proof.
  induction names as [|name names IH]; intros st Hst H; [discriminate|].
  cbn [fold_left]. cbn [existsb] in H.
  destruct (str_mem (root_module name) DANGEROUS_IMPORTS) eqn:Hn.
  - destruct (alias_denied lineno st name Hn) as [He Hr].
    assert (Hf : findings (check_import_alias lineno st name)
                   (fold_left (check_import_alias lineno) names
                      (check_import_alias lineno st name)))
      by (apply fold_findings; intros; apply check_import_alias_findings).
    split; [eapply findings_keep_errors; eassumption|].
    apply (findings_keep_risk _ _ Hf). rewrite Hr.
    apply FloatProps.add_grows_r; [exact Hst | reflexivity].
  - apply IH; [|exact H].
    exact (findings_nonneg _ _ (check_import_alias_findings lineno st name)
             Hst).
Qed.

Lemma imports_denied_names (names : list string) (l : Z) :
  imports_denied (Import names l)
  = existsb (fun name => str_mem (root_module name) DANGEROUS_IMPORTS) names.
Proof.
  unfold imports_denied, imports_module.
  induction names as [|name names IH].
  - reflexivity.
  - cbn [existsb]. rewrite <- IH. unfold str_mem, DANGEROUS_IMPORTS.
    cbn [existsb]. rewrite !orb_false_r.
    repeat match goal with
           | |- context [String.eqb (root_module name) ?m] =>
               destruct (String.eqb (root_module name) m); cbn [orb]
           end; try reflexivity; rewrite ?orb_true_r; reflexivity.
Qed.

Lemma imports_denied_from (full : string) (l : Z) :
  imports_denied (ImportFrom (Some full) l)
  = negb (String.eqb full "")
    && str_mem (root_module full) DANGEROUS_IMPORTS.
Proof.
  unfold imports_denied, imports_module, str_mem, DANGEROUS_IMPORTS.
  cbn [existsb]. destruct (String.eqb full ""); reflexivity.
Qed.

Lemma check_import_denied (st : state) (n : node) :
  Float.nonneg (st_risk st) ->
  imports_denied n = true ->
  errors_in (check_import st n) = true
  /\ (0.4 <=? st_risk (check_import st n))%float = true.
Proof.
  intro Hst.
  destruct n as [| | |names l|module l| | | |]; try discriminate.
  - rewrite imports_denied_names. now apply aliases_denied.
  - destruct module as [full|]; [|discriminate].
    rewrite imports_denied_from. intro H. apply andb_prop in H as [Hne Hd].
    apply negb_true_iff in Hne. cbn [check_import]. rewrite Hne, Hd. split.
    + unfold errors_in, report. cbn [st_issues]. rewrite existsb_app. simpl.
      apply orb_true_r.
    + cbn [report st_risk].
      apply FloatProps.add_grows_r; [exact Hst | reflexivity].
Qed.

Lemma check_imports_denied (l : list node) (n : node) :
  In n l -> imports_denied n = true ->
  forall st,
    Float.nonneg (st_risk st) ->
    errors_in (fold_left check_import l st) = true
    /\ (0.4 <=? st_risk (fold_left check_import l st))%float = true.
Proof.
  intros Hin Hd. induction l as [|x l IH]; intros st Hst; [contradiction|].
  cbn [fold_left]. destruct Hin as [->|Hin].
  - destruct (check_import_denied st n Hst Hd) as [He Hr].
    assert (Hf : findings (check_import st n)
                   (fold_left check_import l (check_import st n)))
      by apply fold_findings, check_import_findings.
    split; [eapply findings_keep_errors; eassumption|].
    exact (findings_keep_risk _ _ Hf Hr).
  - apply (IH Hin).
    exact (findings_nonneg _ _ (check_import_findings st x) Hst).
Qed.

(** ** Conditionally allowed modules *)

Lemma dict_get_set {V : Type} (d : list (string * V)) (k k' : string) (v : V) :
  dict_get (dict_set d k v) k'
  = if String.eqb k' k then Some v else dict_get d k'.
Proof.
  induction d as [|[k0 v0] d IH]; cbn [dict_set dict_get].
  - reflexivity.
  - destruct (String.eqb k k0) eqn:Hk; cbn [dict_get].
    + apply String.eqb_eq in Hk. subst k0.
      destruct (String.eqb k' k); reflexivity.
    + rewrite IH. destruct (String.eqb k' k0) eqn:Hk0; [|reflexivity].
      apply String.eqb_eq in Hk0. subst k0.
      destruct (String.eqb k' k) eqn:Hk'; [|reflexivity].
      apply String.eqb_eq in Hk'. subst k'. now rewrite String.eqb_refl in Hk.
Qed.

Lemma conditional_not_denied (m : string) (allowed : list string) :
  dict_get CONDITIONAL_IMPORTS m = Some allowed ->
  str_mem m DANGEROUS_IMPORTS = false.
Proof.
  unfold CONDITIONAL_IMPORTS. cbn [dict_get].
  repeat match goal with
         | |- context [String.eqb m ?k] =>
             let H := fresh in
             destruct (String.eqb m k) eqn:H;
             [apply String.eqb_eq in H; subst m; reflexivity|]
         end.
  discriminate.
Qed.

Section Tracking.

Variable m : string.
Variable allowed : list string.
Hypothesis conditional : dict_get CONDITIONAL_IMPORTS m = Some allowed.

(** The module is tracked for the usage check. *)
Let tracked (st : state) : Prop :=
  dict_get (conditional_modules st) m = Some allowed.

Lemma alias_tracks (lineno : Z) (st : state) (name : string) :
  tracked st \/ root_module name = m ->
  tracked (check_import_alias lineno st name).
Proof.
  unfold tracked, check_import_alias. intro H.
  pose proof (conditional_not_denied _ _ conditional) as Hm.
  destruct (str_mem (root_module name) DANGEROUS_IMPORTS) eqn:Hd.
  - cbn [report conditional_modules].
    destruct H as [H|H]; [exact H | congruence].
  - destruct (dict_get CONDITIONAL_IMPORTS (root_module name)) as [a|] eqn:Ha.
    + cbn [conditional_modules]. rewrite dict_get_set.
      destruct (String.eqb m (root_module name)) eqn:He.
      * apply String.eqb_eq in He. congruence.
      * destruct H as [H|H]; [exact H|].
        subst m. now rewrite String.eqb_refl in He.
    + assert (Hk : tracked st)
        by (destruct H as [H|H]; [exact H | congruence]).
      destruct (negb _ && negb _); exact Hk.
Qed.

Lemma aliases_track (lineno : Z) (names : list string) :
  forall st,
    tracked st \/ existsb (fun name => String.eqb (root_module name) m) names
                 = true ->
    tracked (fold_left (check_import_alias lineno) names st).
Proof.
  induction names as [|name names IH]; intros st H; cbn [fold_left].
  - destruct H as [H|H]; [exact H | discriminate].
  - apply IH. cbn [existsb] in H.
    destruct (String.eqb (root_module name) m) eqn:He.
    + left. apply alias_tracks. right. now apply String.eqb_eq.
    + destruct H as [H|H]; [left; apply alias_tracks; now left | now right].
Qed.

Lemma check_import_tracks (st : state) (n : node) :
  tracked st \/ imports_module m n = true -> tracked (check_import st n).
Proof.
  intro H.
  assert (Hkeep : tracked st -> tracked (check_import st n)).
  { intro Hk. destruct n as [| | |names l|module l| | | |]; try exact Hk.
    - apply aliases_track. now left.
    - destruct module as [full|]; [|exact Hk]. cbn [check_import].
      destruct (String.eqb full ""); [exact Hk|].
      pose proof (alias_tracks l st full (or_introl Hk)) as Ha.
      unfold check_import_alias in Ha. unfold tracked in *.
      destruct (str_mem (root_module full) DANGEROUS_IMPORTS); [exact Ha|].
      destruct (dict_get CONDITIONAL_IMPORTS (root_module full)); [exact Ha|].
      exact Hk. }
  destruct H as [H|H]; [auto|].
  destruct n as [| | |names l|module l| | | |]; try discriminate H.
  - apply aliases_track. now right.
  - destruct module as [full|]; [|discriminate H]. cbn [imports_module] in H.
    apply andb_prop in H as [Hne He]. apply negb_true_iff in Hne.
    apply String.eqb_eq in He. cbn [check_import]. rewrite Hne.
    pose proof (conditional_not_denied _ _ conditional) as Hm.
    rewrite He, Hm, conditional. unfold tracked. cbn [conditional_modules].
    rewrite dict_get_set. now rewrite String.eqb_refl.
Qed.

Lemma check_imports_track (l : list node) :
  forall st,
    tracked st \/ existsb (imports_module m) l = true ->
    tracked (fold_left check_import l st).
Proof.
  induction l as [|n l IH]; intros st H; cbn [fold_left].
  - destruct H as [H|H]; [exact H | discriminate].
  - apply IH. cbn [existsb] in H.
    destruct (imports_module m n) eqn:Hn.
    + left. apply check_import_tracks. now right.
    + destruct H as [H|H]; [left; apply check_import_tracks; now left
                           | now right].
Qed.

Lemma check_usage_keeps (st : state) (n : node) :
  conditional_modules (check_usage st n) = conditional_modules st.
Proof.
  unfold check_usage. destruct n; try reflexivity.
  destruct n; try reflexivity. destruct n; try reflexivity.
  destruct (dict_get (conditional_modules st) id); [|reflexivity].
  destruct (negb _ && negb _); reflexivity.
Qed.

Lemma check_usages_report (func_name : string) (args : list node)
  (lineno : Z) (l : list node) :
  allowed <> [] ->
  str_mem func_name allowed = false ->
  In (Call (Attribute (Name m) func_name) args lineno) l ->
  forall st,
    tracked st ->
    In (unsafe_usage m func_name allowed lineno)
       (st_issues (fold_left check_usage l st)).
Proof.
  intros Hne Hf Hin. induction l as [|x l IH]; intros st Hk; [contradiction|].
  cbn [fold_left]. destruct Hin as [->|Hin].
  - eapply findings_keep_issue.
    + apply fold_findings, check_usage_findings.
    + unfold tracked in Hk. cbn [check_usage]. rewrite Hk, Hf.
      destruct allowed; [contradiction|]. cbn [List.length Nat.eqb negb andb].
      cbn [report st_issues]. apply in_or_app. right. now left.
  - apply (IH Hin). unfold tracked. now rewrite check_usage_keeps.
Qed.

End Tracking.

(** ** Texts without [import] statements *)

Lemma import_warnings_snoc (st : state) (i : ValidationIssue) (r : float) :
  is_import_warning i = false ->
  filter is_import_warning (st_issues (report i r st))
  = filter is_import_warning (st_issues st).
Proof.
  intro H. cbn [report st_issues]. rewrite filter_app. cbn [filter].
  rewrite H. apply app_nil_r.
Qed.

Lemma fold_unwarned {A : Type} (f : state -> A -> state) (l : list A) :
  (forall st x, In x l ->
                filter is_import_warning (st_issues (f st x))
                = filter is_import_warning (st_issues st)) ->
  forall st,
    filter is_import_warning (st_issues (fold_left f l st))
    = filter is_import_warning (st_issues st).
Proof.
  induction l as [|x l IH]; intros Hf st; cbn [fold_left]; [reflexivity|].
  rewrite IH; [apply Hf; now left|]. intros. apply Hf. now right.
Qed.

Lemma check_call_unwarned (st : state) (n : node) :
  filter is_import_warning (st_issues (check_call st n))
  = filter is_import_warning (st_issues st).
Proof.
  unfold check_call. destruct n; try reflexivity.
  destruct (func_name_of n); [|reflexivity].
  destruct (str_mem s DANGEROUS_FUNCTIONS); [|reflexivity].
  now apply import_warnings_snoc.
Qed.

Lemma check_import_unwarned (st : state) (n : node) :
  is_import n = false ->
  filter is_import_warning (st_issues (check_import st n))
  = filter is_import_warning (st_issues st).
Proof.
  intro Hn. unfold check_import. destruct n; try reflexivity;
    [discriminate Hn|].
  destruct module as [full|]; [|reflexivity].
  destruct (String.eqb full ""); [reflexivity|].
  destruct (str_mem (root_module full) DANGEROUS_IMPORTS);
    [now rewrite import_warnings_snoc|].
  destruct (dict_get CONDITIONAL_IMPORTS (root_module full)); reflexivity.
Qed.

Lemma check_usage_unwarned (st : state) (n : node) :
  filter is_import_warning (st_issues (check_usage st n))
  = filter is_import_warning (st_issues st).
Proof.
  unfold check_usage. destruct n; try reflexivity.
  destruct n; try reflexivity. destruct n; try reflexivity.
  destruct (dict_get (conditional_modules st) id); [|reflexivity].
  destruct (negb _ && negb _); [|reflexivity].
  now apply import_warnings_snoc.
Qed.

Lemma check_credentials_unwarned (code : string) (st : state) :
  filter is_import_warning (st_issues (check_credentials code st))
  = filter is_import_warning (st_issues st).
Proof.
  unfold check_credentials. apply fold_unwarned.
  intros st' [pattern message] _. cbn [check_pattern].
  apply fold_unwarned. intros st'' m _. unfold check_match.
  destruct (is_safe_line (matched_line code m)); [reflexivity|].
  now apply import_warnings_snoc.
Qed.

Lemma check_complexity_unwarned (tree : node) (st : state) :
  filter is_import_warning (st_issues (check_complexity tree st))
  = filter is_import_warning (st_issues st).
Proof.
  unfold check_complexity. destruct (50 <? function_count tree)%Z;
    [|reflexivity].
  cbn [st_issues]. rewrite filter_app. cbn [filter].
  change (is_import_warning _) with false. apply app_nil_r.
Qed.

Section Runs.

Variable ast_parse : string -> outcome (list node).
Variable format_2f : float -> string.

(** X1: the warning for an uncommon module is given for [import]
    statements only.  A text in which every import is written
    [from ... import] gets no such warning, whatever it imports, and
    is valid exactly when no ERROR is found. *)
Theorem from_imports_not_warned (code : string) (body : list node)
  (w : list event) :
  ast_parse code = Returned body ->
  forallb (fun n => negb (is_import n)) (nodes (Module body)) = true ->
  exists r,
    fst (validate_code_security ast_parse format_2f code w) = Returned r
    /\ import_warnings r = 0%nat
    /\ (valid r = true <-> existsb is_error (issues r) = false).
Proof.
  intros Hp Hnone. rewrite (security_parsed _ _ _ _ _ Hp).
  eexists. split; [reflexivity|].
  set (tree := Module body) in *.
  assert (Hwalk : forall n, In n (walk tree) -> is_import n = false).
  { intros n Hn. rewrite forallb_forall in Hnone.
    apply negb_true_iff, Hnone.
    eapply Permutation_in; [apply walk_nodes | exact Hn]. }
  assert (Hw : filter is_import_warning (st_issues (run_checks code tree))
               = []).
  { unfold run_checks. rewrite check_complexity_unwarned,
      check_credentials_unwarned.
    rewrite fold_unwarned by (intros; apply check_usage_unwarned).
    rewrite fold_unwarned
      by (intros st n Hn; apply check_import_unwarned; now apply Hwalk).
    rewrite fold_unwarned by (intros; apply check_call_unwarned).
    reflexivity. }
  unfold import_warnings, finalize. cbn [issues valid].
  rewrite Hw. split; [reflexivity|].
  destruct (existsb is_error (st_issues (run_checks code tree))) eqn:He;
    cbn [negb andb]; [split; discriminate|].
  pose proof (findings_warning_risk _ _ (run_checks_findings code tree) He
                eq_refl)
    as Hrisk.
  unfold warned in Hrisk. rewrite Hw in Hrisk.
  split; [reflexivity|]. intros _. rewrite Hrisk. reflexivity.
Qed.

(** X2: a text that imports a conditionally allowed module with a list of
    allowed functions ([os], [sys]) anywhere, and calls another
    function of it as [module.func(...)] anywhere, before or after
    the import, is not valid: the ERROR for that call is among the
    issues. *)
Theorem unsafe_usage_reported (code : string) (body : list node)
  (w : list event) (m func_name : string) (allowed : list string)
  (args : list node) (lineno : Z) :
  ast_parse code = Returned body ->
  dict_get CONDITIONAL_IMPORTS m = Some allowed ->
  allowed <> [] ->
  str_mem func_name allowed = false ->
  existsb (imports_module m) (nodes (Module body)) = true ->
  In (Call (Attribute (Name m) func_name) args lineno) (nodes (Module body)) ->
  exists r,
    fst (validate_code_security ast_parse format_2f code w) = Returned r
    /\ valid r = false
    /\ In (unsafe_usage m func_name allowed lineno) (issues r).
Proof.
  intros Hp Hc Hne Hf Himp Hcall. rewrite (security_parsed _ _ _ _ _ Hp).
  eexists. split; [reflexivity|].
  set (tree := Module body) in *.
  set (st1 := fold_left check_call (walk tree) (mkState [] 0.0 [] [])).
  set (st2 := fold_left check_import (walk tree) st1).
  set (st3 := fold_left check_usage (walk tree) st2).
  assert (Himp' : existsb (imports_module m) (walk tree) = true).
  { apply existsb_exists in Himp as (n & Hn & Hm). apply existsb_exists.
    exists n. split; [|exact Hm].
    eapply Permutation_in; [symmetry; apply walk_nodes | exact Hn]. }
  assert (Hcall' : In (Call (Attribute (Name m) func_name) args lineno)
                      (walk tree))
    by (eapply Permutation_in; [symmetry; apply walk_nodes | exact Hcall]).
  assert (H2 : dict_get (conditional_modules st2) m = Some allowed)
    by (apply check_imports_track; [exact Hc | now right]).
  pose proof (check_usages_report m allowed Hc func_name args lineno _
                Hne Hf Hcall' st2 H2) as H3. fold st3 in H3.
  assert (Hfin : findings st3 (run_checks code tree)).
  { unfold run_checks. fold tree st1 st2 st3.
    eapply findings_trans; [|apply check_complexity_findings].
    apply check_credentials_findings. }
  pose proof (findings_keep_issue _ _ _ Hfin H3) as Hi.
  unfold finalize. cbn [valid issues]. split; [|exact Hi].
  pose proof (errors_in_issue _ _ Hi eq_refl) as He.
  unfold errors_in in He. now rewrite He.
Qed.

(** X3: the risk score of every result lies between 0 and 1, and a valid
    result has a risk score below 0.5 and no ERROR among its issues. *)
Theorem risk_score_bounds (code : string) (w : list event) :
  exists r,
    fst (validate_code_security ast_parse format_2f code w) = Returned r
    /\ (0 <=? risk_score r)%float = true
    /\ (risk_score r <=? 1.0)%float = true
    /\ (valid r = true ->
        (risk_score r <? 0.5)%float = true
        /\ existsb is_error (issues r) = false).
Proof.
  destruct (ast_parse code) as [body|e] eqn:Hp.
  - rewrite (security_parsed _ _ _ _ _ Hp). eexists. split; [reflexivity|].
    pose proof (findings_nonneg _ _ (run_checks_findings code (Module body))
                  eq_refl) as Hg.
    unfold finalize. cbn [valid issues risk_score].
    split; [apply FloatProps.min_nonneg; [exact Hg | reflexivity]|].
    split; [apply FloatProps.min_le_r; [exact Hg | reflexivity]|].
    intro H. apply andb_prop in H as [He Hr]. split.
    + exact Hr.
    + now apply negb_true_iff.
  - rewrite (security_raised _ _ _ _ _ Hp). eexists. split; [reflexivity|].
    cbn [valid issues risk_score].
    split; [reflexivity|]. split; [reflexivity | discriminate].
Qed.

(** X4: for a text that parses, [validate_code] gives the verdict and the
    risk score of the security validator; the syntax validator only
    adds its warnings, at most two, in front of the security issues. *)
Theorem validate_code_combines (code : string) (body : list node)
  (w : list event) :
  ast_parse code = Returned body ->
  exists syntax_result security_result r,
    fst (validate_code_syntax ast_parse code w) = Returned syntax_result
    /\ fst (validate_code_security ast_parse format_2f code
              (w ++ [EvParse code])%list)
       = Returned security_result
    /\ fst (validate_code ast_parse format_2f code w) = Returned r
    /\ issues r = (issues syntax_result ++ issues security_result)%list
    /\ valid r = valid security_result
    /\ risk_score r = risk_score security_result
    /\ forallb is_warning (issues syntax_result) = true
    /\ (List.length (issues syntax_result) <= 2)%nat.
Proof.
  intro Hp.
  assert (Hs : exists rs,
             validate_code_syntax ast_parse code w
             = (Returned rs, (w ++ [EvParse code])%list)
             /\ valid rs = true
             /\ forallb is_warning (issues rs) = true
             /\ (List.length (issues rs) <= 2)%nat).
  { cbv [validate_code_syntax try_except bind parse emit ret raise].
    rewrite Hp. cbn beta iota.
    destruct body; cbn [body_of];
      match goal with
      | |- context [if ?b then _ else _] => destruct b
      end; eexists; (split; [reflexivity|]);
      cbn [valid issues app filter List.length forallb];
      repeat split; try reflexivity; lia. }
  destruct Hs as (rs & Hrun & Hvalid & Hwarn & Hlen).
  exists rs. eexists. eexists. split; [now rewrite Hrun|].
  split; [rewrite (security_parsed _ _ _ _ _ Hp); reflexivity|].
  unfold validate_code, bind at 1. rewrite Hrun, Hvalid. cbn [negb].
  unfold bind. rewrite (security_parsed _ _ _ _ _ Hp). cbn [fst ret].
  split; [reflexivity|]. cbn [issues valid risk_score].
  repeat split; assumption.
Qed.

(** X5: a text that parses and imports a denied module anywhere (at top
    level, in a function, in a class, among other imports of the same
    statement) is not valid: an ERROR is reported, and the risk score
    is at least 0.4. *)
Theorem denied_import_anywhere (code : string) (body : list node)
  (w : list event) (n : node) :
  ast_parse code = Returned body ->
  In n (nodes (Module body)) ->
  imports_denied n = true ->
  exists r,
    fst (validate_code_security ast_parse format_2f code w) = Returned r
    /\ valid r = false
    /\ existsb is_error (issues r) = true
    /\ (0.4 <=? risk_score r)%float = true.
Proof.
  intros Hp Hin Hd. rewrite (security_parsed _ _ _ _ _ Hp).
  eexists. split; [reflexivity|].
  set (tree := Module body) in *.
  set (st1 := fold_left check_call (walk tree) (mkState [] 0.0 [] [])).
  set (st2 := fold_left check_import (walk tree) st1).
  assert (Hw : In n (walk tree))
    by (eapply Permutation_in; [symmetry; apply walk_nodes | exact Hin]).
  assert (H1 : findings (mkState [] 0.0 [] []) st1)
    by apply fold_findings, check_call_findings.
  destruct (check_imports_denied _ _ Hw Hd st1
              (findings_nonneg _ _ H1 eq_refl)) as [He Hr].
  fold st2 in He, Hr.
  assert (H2 : findings st2 (run_checks code tree)).
  { unfold run_checks. fold tree st1 st2.
    eapply findings_trans; [|apply check_complexity_findings].
    eapply findings_trans; [|apply check_credentials_findings].
    apply fold_findings, check_usage_findings. }
  pose proof (findings_keep_errors _ _ H2 He) as Herr.
  unfold finalize. cbn [valid issues risk_score].
  unfold errors_in in Herr. rewrite Herr. repeat split.
  apply FloatProps.min_glb; [|reflexivity].
  exact (findings_keep_risk _ _ H2 Hr).
Qed.

End Runs.

Lemma denied_import_anywhere_witness :
  In (Import ["pickle"] 2) (nodes (Module MoreSamples.nested_import_body))
  /\ exists r,
      fst (validate_code_security MoreSamples.parser Samples.format_2f
             MoreSamples.nested_import [])
      = Returned r
      /\ valid r = false
      /\ existsb is_error (issues r) = true
      /\ (0.4 <=? risk_score r)%float = true.
Proof.
  assert (H : In (Import ["pickle"] 2)
                (nodes (Module MoreSamples.nested_import_body)))
    by (simpl; tauto).
  split; [exact H|].
  apply (denied_import_anywhere MoreSamples.parser Samples.format_2f
           MoreSamples.nested_import MoreSamples.nested_import_body []
           (Import ["pickle"] 2)); [reflexivity | exact H | reflexivity].
Defined.

Lemma unsafe_usage_reported_witness :
  exists r,
    fst (validate_code_security MoreSamples.parser Samples.format_2f
           MoreSamples.os_system [])
    = Returned r
    /\ valid r = false
    /\ In (unsafe_usage "os" "system" ["getenv"; "environ.get"; "path"] 2)
          (issues r).
Proof.
  apply (unsafe_usage_reported MoreSamples.parser Samples.format_2f
           MoreSamples.os_system MoreSamples.os_system_body []
           "os" "system" ["getenv"; "environ.get"; "path"] [Name "cmd"] 2);
    [reflexivity | reflexivity | discriminate | reflexivity | reflexivity
    | simpl; tauto].
Defined.

Lemma validate_code_combines_witness :
  exists syntax_result security_result r,
    fst (validate_code_syntax MoreSamples.parser MoreSamples.os_system [])
    = Returned syntax_result
    /\ fst (validate_code_security MoreSamples.parser Samples.format_2f
              MoreSamples.os_system [EvParse MoreSamples.os_system])
       = Returned security_result
    /\ fst (validate_code MoreSamples.parser Samples.format_2f
              MoreSamples.os_system [])
       = Returned r
    /\ issues r = (issues syntax_result ++ issues security_result)%list
    /\ valid r = valid security_result
    /\ risk_score r = risk_score security_result
    /\ forallb is_warning (issues syntax_result) = true
    /\ (List.length (issues syntax_result) <= 2)%nat.
Proof.
  apply (validate_code_combines MoreSamples.parser Samples.format_2f
           MoreSamples.os_system MoreSamples.os_system_body []).
  reflexivity.
Defined.

Lemma from_imports_not_warned_witness :
  exists r,
    fst (validate_code_security MoreSamples.parser Samples.format_2f
           MoreSamples.from_numpy [])
    = Returned r
    /\ import_warnings r = 0%nat
    /\ (valid r = true <-> existsb is_error (issues r) = false).
Proof.
  apply (from_imports_not_warned MoreSamples.parser Samples.format_2f
           MoreSamples.from_numpy MoreSamples.from_numpy_body []);
    reflexivity.
Defined.

End PolicyProps.

(* ===================================================================== *)
(** * More on the two retry loops                                         *)
(* ===================================================================== *)

Module RetryMore.
Import Python Yaml GenerateAgentCode PythonProps RetryProps.

Section AgentCode.

Variable ast_parse : string -> outcome (list Ast.node).
Variable yaml_safe_load : string -> outcome value.
Variable llm : nat -> string -> string -> outcome string.

#[local] Abbreviation attempt_body :=
  (attempt_body ast_parse yaml_safe_load llm).
#[local] Abbreviation attempts_loop :=
  (attempts_loop ast_parse yaml_safe_load llm).
#[local] Abbreviation generate_agent_code_with_retry :=
  (generate_agent_code_with_retry ast_parse yaml_safe_load llm).
#[local] Abbreviation syntax_error_of := (syntax_error_of ast_parse).

Variables (yaml_specification style_guide : string).

(** ** A specification that does not load *)

(** X6: a specification that is not valid YAML ends the run on the first
    attempt with a [ValueError]; the LLM client is not called. *)
Theorem invalid_yaml_not_retried (max_retries : Z) (msg : string)
  (w : list event) :
  1 <= max_retries ->
  yaml_safe_load yaml_specification = Raised (YAMLError msg) ->
  generate_agent_code_with_retry yaml_specification style_guide max_retries w
  = (Raised (ValueError ("Invalid YAML specification: " ++ msg)), w).
Proof.
  intros Hmax Hy. unfold GenerateAgentCode.generate_agent_code_with_retry, range.
  destruct (Z.to_nat max_retries) as [|k] eqn:Hk; [lia|].
  cbn [seq map]. rewrite attempts_loop_next.
  unfold bind at 1, GenerateAgentCode.attempt_body, try_except at 1, bind at 1,
    GenerateAgentCode.generate_agent_code, bind at 1, try_except at 1,
    bind at 1, lift.
  rewrite Hy. reflexivity.
Qed.

(** One pass through the loop for a specification that loads as
    something else than a dict: [spec.get] raises, which is no
    [ValueError], so the attempt is used up without a call of the LLM
    client. *)
Lemma attempt_without_dict (spec : value) (e : exception)
  (max_retries attempt : Z) (additional_instructions : string)
  (w : list event) :
  yaml_safe_load yaml_specification = Returned spec ->
  spec_get spec "agent_name" (YStr "UnknownAgent") = Raised e ->
  attempt_body yaml_specification style_guide max_retries attempt
    additional_instructions w
  = (if attempt >=? max_retries - 1
     then Raised
            (RuntimeError
               ("Code generation failed after " ++ str_of_Z max_retries
                  ++ " attempts: " ++ exc_str e))
     else Returned (Next additional_instructions),
     w).
Proof.
  intros Hy He.
  unfold GenerateAgentCode.attempt_body, try_except at 1, bind at 1,
    GenerateAgentCode.generate_agent_code, bind at 1, try_except at 1,
    bind at 1, lift.
  rewrite Hy. unfold bind at 1. rewrite He.
  assert (Hother : exists m, e = OtherException m).
  { unfold spec_get in He. destruct spec; try (injection He as <-; eauto).
    destruct (lookup items "agent_name"); discriminate. }
  destruct Hother as [m ->]. cbn beta iota. unfold raise.
  destruct (attempt >=? max_retries - 1); reflexivity.
Qed.

Lemma attempts_without_dict (spec : value) (e : exception) (N : nat)
  (additional_instructions : string) (w : list event) :
  yaml_safe_load yaml_specification = Returned spec ->
  spec_get spec "agent_name" (YStr "UnknownAgent") = Raised e ->
  forall k a,
    (a + S k = N)%nat ->
    attempts_loop yaml_specification style_guide (Z.of_nat N)
      (map Z.of_nat (seq a (S k))) additional_instructions w
    = (Raised
         (RuntimeError
            ("Code generation failed after " ++ str_of_Z (Z.of_nat N)
               ++ " attempts: " ++ exc_str e)),
       w).
Proof.
  intros Hy He. induction k as [|k IH]; intros a Ha.
  - cbn [seq map]. rewrite attempts_loop_next. unfold bind at 1.
    rewrite (attempt_without_dict spec e _ _ _ _ Hy He).
    replace (Z.of_nat a >=? Z.of_nat N - 1) with true
      by (symmetry; rewrite Z.geb_leb; apply Z.leb_le; lia).
    reflexivity.
  - change (seq a (S (S k))) with (a :: seq (S a) (S k)). cbn [map].
    rewrite attempts_loop_next. unfold bind at 1.
    rewrite (attempt_without_dict spec e _ _ _ _ Hy He).
    replace (Z.of_nat a >=? Z.of_nat N - 1) with false
      by (symmetry; rewrite Z.geb_leb; apply Z.leb_gt; lia).
    apply IH. lia.
Qed.

(** X7: a specification that loads as something else than a dict (an empty
    text loads as [None]) is not rejected as invalid: every attempt
    fails on [spec.get] before the LLM client is called, and after
    [max_retries] attempts the run ends in a [RuntimeError] that quotes
    the [AttributeError]. *)
Theorem non_dict_specification_exhausts (spec : value) (e : exception)
  (max_retries : Z) (w : list event) :
  1 <= max_retries ->
  yaml_safe_load yaml_specification = Returned spec ->
  spec_get spec "agent_name" (YStr "UnknownAgent") = Raised e ->
  generate_agent_code_with_retry yaml_specification style_guide max_retries w
  = (Raised
       (RuntimeError
          ("Code generation failed after " ++ str_of_Z max_retries
             ++ " attempts: " ++ exc_str e)),
     w).
Proof.
  intros Hmax Hy He. unfold GenerateAgentCode.generate_agent_code_with_retry, range.
  destruct (Z.to_nat max_retries) as [|k] eqn:Hk; [lia|].
  replace max_retries with (Z.of_nat (S k)) by lia.
  now apply (attempts_without_dict spec e).
Qed.

(** ** Success after retries *)

Section Loads.

Variable items : list (value * value).
Hypothesis yaml_loads :
  yaml_safe_load yaml_specification = Returned (YDict items).

(** The loop from attempt [a] on, when the answers before call [k]
    have syntax errors that the feedback builder can read and answer
    [k] parses. *)
Lemma attempts_succeed (k N : nat) (good : string) :
  (k < N)%nat ->
  (forall n system user,
      (n < k)%nat ->
      exists text syntax_error line,
        llm n system user = Returned text
        /\ syntax_error_of (remove_code_fences text) = Some syntax_error
        /\ error_line_num syntax_error = Returned line) ->
  (forall system user, llm k system user = Returned good) ->
  syntax_error_of (remove_code_fences good) = None ->
  forall j a additional_instructions w,
    (a + j = k)%nat ->
    generate_calls w = a ->
    exists r w',
      attempts_loop yaml_specification style_guide (Z.of_nat N)
        (map Z.of_nat (seq a (S j + (N - k - 1)))) additional_instructions w
      = (Returned r, (w ++ w')%list)
      /\ code r = remove_code_fences good
      /\ retry_count r = Some (Z.of_nat k)
      /\ generate_calls w' = S j
      /\ List.length (files_written w') = S j.
Proof.
  intros Hk Hbad Hgood Hparse.
  induction j as [|j IH]; intros a additional w Ha Hw.
  - assert (a = k) as -> by lia.
    change (seq k (1 + (N - k - 1))) with (k :: seq (S k) (N - k - 1)).
    cbn [map]. rewrite attempts_loop_next. unfold bind at 1.
    rewrite (attempt_run ast_parse yaml_safe_load llm _ style_guide additional
               items w yaml_loads (Z.of_nat N) (Z.of_nat k) good)
      by (rewrite Hw; apply Hgood).
    rewrite Hparse. do 2 eexists. split; [rewrite <- app_assoc; reflexivity|].
    repeat split.
  - change (seq a (S (S j) + (N - k - 1)))
      with (a :: seq (S a) (S j + (N - k - 1))).
    cbn [map]. rewrite attempts_loop_next. unfold bind at 1.
    destruct (Hbad a system_prompt (user_prompt yaml_specification additional))
      as (text & err & line & Hllm & Herr & Hline); [lia|].
    rewrite (attempt_run ast_parse yaml_safe_load llm _ style_guide additional
               items w yaml_loads (Z.of_nat N) (Z.of_nat a) text)
      by (rewrite Hw; exact Hllm).
    rewrite Herr.
    replace (Z.of_nat a <? Z.of_nat N - 1) with true
      by (symmetry; apply Z.ltb_lt; lia).
    rewrite Hline.
    destruct (IH (S a)
                (feedback err (context_of (remove_code_fences text) line))
                ((w ++ [EvGenerate system_prompt
                          (user_prompt yaml_specification additional)])
                   ++ [EvWrite (debug_path (Z.of_nat a))
                         (remove_code_fences text);
                       EvParse (remove_code_fences text)])%list)
      as (r & w' & Hrun & Hcode & Hretry & Hcalls & Hfiles); [lia | |].
    { rewrite !generate_calls_app, Hw. cbn. lia. }
    rewrite Hrun. exists r. eexists.
    split; [rewrite <- !app_assoc; reflexivity|].
    split; [assumption|]. split; [assumption|]. split.
    + rewrite !generate_calls_app, Hcalls. reflexivity.
    + rewrite !files_written_app, !length_app, Hfiles. reflexivity.
Qed.

(** X8: when the first [k] answers of the LLM client have syntax errors
    with a line number and answer [k] parses, with [k < max_retries],
    the run returns the code of that answer with retry count [k],
    after [k + 1] calls of the client and [k + 1] debug files. *)
Theorem succeeds_after_retries (k : nat) (max_retries : Z) (good : string) :
  Z.of_nat k < max_retries ->
  (forall n system user,
      (n < k)%nat ->
      exists text syntax_error line,
        llm n system user = Returned text
        /\ syntax_error_of (remove_code_fences text) = Some syntax_error
        /\ error_line_num syntax_error = Returned line) ->
  (forall system user, llm k system user = Returned good) ->
  syntax_error_of (remove_code_fences good) = None ->
  exists r w,
    generate_agent_code_with_retry yaml_specification style_guide
      max_retries []
    = (Returned r, w)
    /\ code r = remove_code_fences good
    /\ retry_count r = Some (Z.of_nat k)
    /\ generate_calls w = S k
    /\ List.length (files_written w) = S k.
Proof.
  intros Hk Hbad Hgood Hparse.
  unfold GenerateAgentCode.generate_agent_code_with_retry, range.
  set (N := Z.to_nat max_retries).
  assert (HN : (k < N)%nat) by (unfold N; lia).
  destruct (attempts_succeed k N good HN Hbad Hgood Hparse k 0%nat "" [])
    as (r & w' & Hrun & H); [lia | reflexivity |].
  replace (S k + (N - k - 1))%nat with N in Hrun by lia.
  replace max_retries with (Z.of_nat N) by (unfold N; lia).
  exists r, w'. split; [exact Hrun | exact H].
Qed.

End Loads.

End AgentCode.

(** ** [generate_script] *)

Section Script.

Variable ast_parse : string -> outcome (list Ast.node).
Variable llm : nat -> string -> string -> outcome string.
Variable _build_system_prompt : string.
Variable Schema : Type.
Variable _build_user_prompt :
  ScriptGenerator.TaskAnalysis -> ScriptGenerator.ExecutionPlan
  -> option Schema -> string.
Variable _clean_code : string -> string.
Variable _generate_requirements :
  ScriptGenerator.ExecutionPlan -> bool -> string -> string.
Variable _generate_env_example :
  ScriptGenerator.TaskAnalysis -> ScriptGenerator.ExecutionPlan -> string
  -> string.
Variable now_isoformat : string.

#[local] Abbreviation script_attempt :=
  (ScriptGenerator.attempt_body ast_parse llm _clean_code
     _generate_requirements _generate_env_example now_isoformat).
#[local] Abbreviation script_loop :=
  (ScriptGenerator.attempts_loop ast_parse llm _clean_code
     _generate_requirements _generate_env_example now_isoformat).
#[local] Abbreviation generate_script :=
  (ScriptGenerator.generate_script ast_parse llm _build_system_prompt Schema
     _build_user_prompt _clean_code _generate_requirements
     _generate_env_example now_isoformat).

Variable task_analysis : ScriptGenerator.TaskAnalysis.
Variable execution_plan : ScriptGenerator.ExecutionPlan.
Variable database_schema : option Schema.

Lemma script_attempt_llm_failure (user_prompt system_prompt : string)
  (max_retries attempt : Z) (e : exception) (w : list event) :
  llm (generate_calls w) system_prompt user_prompt = Raised e ->
  (forall lineno msg, e <> SyntaxError lineno msg) ->
  script_attempt task_analysis execution_plan user_prompt max_retries attempt
    system_prompt w
  = (Raised (ValueError ("Failed to generate script: " ++ exc_str e)),
     (w ++ [EvGenerate system_prompt user_prompt])%list).
Proof.
  intros Hllm He.
  cbv [ScriptGenerator.attempt_body try_except bind
       ScriptGenerator.llm_generate ScriptGenerator.parse emit ret raise].
  rewrite Hllm. cbn beta iota.
  destruct e as [lineno msg| | | |]; try reflexivity.
  now destruct (He lineno msg).
Qed.

(** The loop from attempt [a] on, when the answers to come have the
    syntax errors of [failures] and the call after them fails. *)
Lemma script_failure_after (user_prompt : string) (e : exception) :
  (forall lineno msg, e <> SyntaxError lineno msg) ->
  forall failures a m system_prompt w,
    (List.length failures <= m)%nat ->
    (forall i text lineno msg,
        nth_error failures i = Some (text, lineno, msg) ->
        llm (generate_calls w + i)
          (ScriptGenerator.prompt_after _clean_code system_prompt
             (firstn i failures))
          user_prompt
        = Returned text
        /\ ast_parse (_clean_code text) = Raised (SyntaxError lineno msg)) ->
    llm (generate_calls w + List.length failures)
      (ScriptGenerator.prompt_after _clean_code system_prompt failures)
      user_prompt
    = Raised e ->
    exists w',
      script_loop task_analysis execution_plan user_prompt
        (Z.of_nat (a + S m)) (map Z.of_nat (seq a (S m))) system_prompt w
      = (Raised (ValueError ("Failed to generate script: " ++ exc_str e)),
         (w ++ w'
            ++ [EvGenerate
                  (ScriptGenerator.prompt_after _clean_code system_prompt
                     failures)
                  user_prompt])%list)
      /\ generate_calls w' = List.length failures
      /\ List.length w' = (2 * List.length failures)%nat.
Proof.
  intro He.
  induction failures as [|[[text lineno] msg] failures IH];
    intros a m system_prompt w Hm Hbad Hllm.
  - cbn [seq map ScriptGenerator.attempts_loop]. unfold bind at 1.
    cbn [List.length] in Hllm. rewrite Nat.add_0_r in Hllm.
    cbn [ScriptGenerator.prompt_after fold_left] in *.
    rewrite (script_attempt_llm_failure _ _ _ _ _ _ Hllm He).
    exists []. repeat split.
  - cbn [List.length] in Hm. destruct m as [|m]; [lia|].
    change (seq a (S (S m))) with (a :: seq (S a) (S m)).
    cbn [map ScriptGenerator.attempts_loop]. unfold bind at 1.
    destruct (Hbad 0%nat text lineno msg eq_refl) as [Hfirst Hparse].
    rewrite Nat.add_0_r in Hfirst.
    cbn [firstn ScriptGenerator.prompt_after fold_left] in Hfirst.
    rewrite (script_attempt_syntax_error ast_parse llm _clean_code
               _generate_requirements _generate_env_example now_isoformat
               task_analysis execution_plan user_prompt system_prompt text
               msg lineno (Z.of_nat (a + S (S m))) (Z.of_nat a) w
               Hfirst Hparse).
    replace (Z.of_nat a <? Z.of_nat (a + S (S m)) - 1) with true
      by (symmetry; apply Z.ltb_lt; lia).
    set (system_prompt' :=
           system_prompt
             ++ ScriptGenerator.feedback
                  ("Syntax error at line " ++ str_of_opt_Z lineno ++ ": "
                     ++ msg)
                  (ScriptGenerator.context_of (_clean_code text) lineno)).
    set (w1 := (w ++ [EvGenerate system_prompt user_prompt;
                      EvParse (_clean_code text)])%list).
    assert (Hcalls : generate_calls w1 = S (generate_calls w)).
    { unfold w1. rewrite generate_calls_app. cbn. lia. }
    destruct (IH (S a) m system_prompt' w1) as (w' & Hrun & Hgen & Hlen).
    + lia.
    + intros i text' lineno' msg' Hi.
      specialize (Hbad (S i) text' lineno' msg' Hi).
      rewrite Hcalls. replace (S (generate_calls w) + i)%nat
        with (generate_calls w + S i)%nat by lia.
      exact Hbad.
    + rewrite Hcalls. cbn [List.length] in Hllm.
      replace (S (generate_calls w) + List.length failures)%nat
        with (generate_calls w + S (List.length failures))%nat by lia.
      exact Hllm.
    + replace (Z.of_nat (a + S (S m))) with (Z.of_nat (S a + S m)) by lia.
      rewrite Hrun.
      exists ([EvGenerate system_prompt user_prompt;
               EvParse (_clean_code text)] ++ w')%list.
      split; [|split].
      * unfold w1. rewrite <- !app_assoc. reflexivity.
      * rewrite generate_calls_app, Hgen. reflexivity.
      * rewrite length_app, Hlen. cbn [List.length]. lia.
Qed.

(** X9: unlike the loop of [generate_agent_code_with_retry], the loop of
    [generate_script] does not retry a failure of the LLM client: the
    first failure that is no [SyntaxError] ends the run in a
    [ValueError] that quotes it, on the first attempt as well as after
    attempts that were retried for their syntax errors ([failures],
    with the system prompt that their feedback has made); the failed
    call is the last call of the client. *)
Theorem script_llm_failure_not_retried (max_retries : Z)
  (failures : list (string * option Z * string)) (e : exception)
  (w : list event) :
  Z.of_nat (List.length failures) < max_retries ->
  (forall i text lineno msg,
      nth_error failures i = Some (text, lineno, msg) ->
      llm (generate_calls w + i)
        (ScriptGenerator.prompt_after _clean_code _build_system_prompt
           (firstn i failures))
        (_build_user_prompt task_analysis execution_plan database_schema)
      = Returned text
      /\ ast_parse (_clean_code text) = Raised (SyntaxError lineno msg)) ->
  llm (generate_calls w + List.length failures)
    (ScriptGenerator.prompt_after _clean_code _build_system_prompt failures)
    (_build_user_prompt task_analysis execution_plan database_schema)
  = Raised e ->
  (forall lineno msg, e <> SyntaxError lineno msg) ->
  exists w',
    generate_script task_analysis execution_plan database_schema max_retries w
    = (Raised (ValueError ("Failed to generate script: " ++ exc_str e)),
       (w ++ w'
          ++ [EvGenerate
                (ScriptGenerator.prompt_after _clean_code
                   _build_system_prompt failures)
                (_build_user_prompt task_analysis execution_plan
                   database_schema)])%list)
    /\ generate_calls w' = List.length failures
    /\ List.length w' = (2 * List.length failures)%nat.
Proof.
  intros Hmax Hbad Hllm He. unfold ScriptGenerator.generate_script, range.
  destruct (Z.to_nat max_retries) as [|m] eqn:Hm; [lia|].
  replace max_retries with (Z.of_nat (0 + S m)) by lia.
  apply script_failure_after; [exact He | lia | exact Hbad | exact Hllm].
Qed.

(** The loop from attempt [a] on when every answer has a syntax
    error. *)
Lemma script_attempts_fail (user_prompt : string) (N : nat) :
  (forall n system user,
      exists text lineno msg,
        llm n system user = Returned text
        /\ ast_parse (_clean_code text) = Raised (SyntaxError lineno msg)) ->
  forall k a system_prompt w,
    (a + S k = N)%nat ->
    exists lineno msg w',
      script_loop task_analysis execution_plan user_prompt (Z.of_nat N)
        (map Z.of_nat (seq a (S k))) system_prompt w
      = (Raised
           (ValueError
              ("Failed to generate valid script after "
                 ++ str_of_Z (Z.of_nat N) ++ " attempts: "
                 ++ exc_str (SyntaxError lineno msg))),
         (w ++ w')%list)
      /\ generate_calls w' = S k.
Proof.
  intro Hbad. induction k as [|k IH]; intros a system_prompt w Ha.
  - cbn [seq map ScriptGenerator.attempts_loop]. unfold bind at 1.
    destruct (Hbad (generate_calls w) system_prompt user_prompt)
      as (text & lineno & msg & Hllm & Hparse).
    rewrite (script_attempt_syntax_error ast_parse llm _clean_code
               _generate_requirements _generate_env_example now_isoformat
               task_analysis execution_plan user_prompt system_prompt text
               msg lineno (Z.of_nat N) (Z.of_nat a) w Hllm Hparse).
    replace (Z.of_nat a <? Z.of_nat N - 1) with false
      by (symmetry; apply Z.ltb_ge; lia).
    exists lineno, msg. eexists. split; reflexivity.
  - change (seq a (S (S k))) with (a :: seq (S a) (S k)).
    cbn [map ScriptGenerator.attempts_loop]. unfold bind at 1.
    destruct (Hbad (generate_calls w) system_prompt user_prompt)
      as (text & lineno & msg & Hllm & Hparse).
    rewrite (script_attempt_syntax_error ast_parse llm _clean_code
               _generate_requirements _generate_env_example now_isoformat
               task_analysis execution_plan user_prompt system_prompt text
               msg lineno (Z.of_nat N) (Z.of_nat a) w Hllm Hparse).
    replace (Z.of_nat a <? Z.of_nat N - 1) with true
      by (symmetry; apply Z.ltb_lt; lia).
    match goal with
    | |- context [script_loop _ _ _ _ _ ?p ?w1] =>
        destruct (IH (S a) p w1) as (lineno' & msg' & w' & Hrun & Hcalls);
        [lia|]
    end.
    rewrite Hrun. exists lineno', msg'. eexists.
    split; [rewrite <- app_assoc; reflexivity|].
    rewrite generate_calls_app, Hcalls. reflexivity.
Qed.

(** X10: when every answer of the LLM client has a syntax error, with or
    without a line number, [generate_script] calls the client
    [max_retries] times and ends in a [ValueError] that names the
    number of attempts and quotes the last syntax error. *)
Theorem script_exhausted (max_retries : Z) :
  1 <= max_retries ->
  (forall n system user,
      exists text lineno msg,
        llm n system user = Returned text
        /\ ast_parse (_clean_code text) = Raised (SyntaxError lineno msg)) ->
  exists lineno msg w,
    generate_script task_analysis execution_plan database_schema
      max_retries []
    = (Raised
         (ValueError
            ("Failed to generate valid script after "
               ++ str_of_Z max_retries ++ " attempts: "
               ++ exc_str (SyntaxError lineno msg))),
       w)
    /\ generate_calls w = Z.to_nat max_retries.
Proof.
  intros Hmax Hbad. unfold ScriptGenerator.generate_script, range.
  destruct (Z.to_nat max_retries) as [|k] eqn:Hk; [lia|].
  destruct (script_attempts_fail
              (_build_user_prompt task_analysis execution_plan
                 database_schema)
              (S k) Hbad k 0%nat _build_system_prompt [] eq_refl)
    as (lineno & msg & w' & Hrun & Hcalls).
  replace max_retries with (Z.of_nat (S k)) by lia.
  exists lineno, msg, w'. split; [exact Hrun | exact Hcalls].
Qed.

(** X11: with [max_retries <= 0] neither loop makes an attempt:
    [generate_agent_code_with_retry] raises a [RuntimeError], and
    [generate_script] falls off the end of its loop and returns
    [None], neither a script nor an error. *)
Theorem no_attempts_allowed (yaml_safe_load : string -> outcome value)
  (yaml_specification style_guide : string) (max_retries : Z)
  (w : list event) :
  max_retries <= 0 ->
  generate_agent_code_with_retry ast_parse yaml_safe_load llm
    yaml_specification style_guide max_retries w
  = (Raised (RuntimeError "Code generation failed: Maximum retries reached"),
     w)
  /\ generate_script task_analysis execution_plan database_schema
       max_retries w
     = (Returned None, w).
Proof.
  intro Hmax.
  unfold generate_agent_code_with_retry, ScriptGenerator.generate_script,
    range.
  replace (Z.to_nat max_retries) with 0%nat by lia. split; reflexivity.
Qed.

End Script.

(** ** The properties at the sample inputs *)

Lemma invalid_yaml_not_retried_witness :
  generate_agent_code_with_retry Samples.code_parser Samples.yaml_loader
    Samples.llm_third_time "agent_name: [" "pep8" 5 []
  = (Raised
       (ValueError
          "Invalid YAML specification: could not find expected ':'"),
     []).
Proof.
  apply (invalid_yaml_not_retried Samples.code_parser Samples.yaml_loader
           Samples.llm_third_time "agent_name: [" "pep8" 5
           "could not find expected ':'" []); [lia | reflexivity].
Defined.

Lemma non_dict_specification_exhausts_witness :
  generate_agent_code_with_retry Samples.code_parser MoreSamples.yaml_loader
    Samples.llm_third_time "" "pep8" 5 []
  = (Raised
       (RuntimeError
          ("Code generation failed after " ++ str_of_Z 5 ++ " attempts: "
             ++ exc_str
                  (OtherException
                     "'NoneType' object has no attribute 'get'"))),
     []).
Proof.
  apply (non_dict_specification_exhausts Samples.code_parser
           MoreSamples.yaml_loader Samples.llm_third_time "" "pep8" YNone
           (OtherException "'NoneType' object has no attribute 'get'") 5 []);
    [lia | reflexivity | reflexivity].
Defined.

Lemma succeeds_after_retries_witness :
  exists r w,
    generate_agent_code_with_retry Samples.code_parser Samples.yaml_loader
      Samples.llm_third_time Samples.spec_text "pep8" 5 []
    = (Returned r, w)
    /\ code r = remove_code_fences Samples.good_code
    /\ retry_count r = Some (Z.of_nat 2)
    /\ generate_calls w = 3%nat
    /\ List.length (files_written w) = 3%nat.
Proof.
  apply (succeeds_after_retries Samples.code_parser Samples.yaml_loader
           Samples.llm_third_time Samples.spec_text "pep8"
           Samples.name_only_spec eq_refl 2 5 Samples.good_code).
  - lia.
  - intros n system user Hn.
    destruct n as [|[|n]]; [| |lia].
    + exists Samples.bad_code_1, "Syntax error at line 1: invalid syntax", 1.
      repeat split; reflexivity.
    + exists Samples.bad_code_2,
        "Syntax error at line 1: '(' was never closed", 1.
      repeat split; reflexivity.
  - reflexivity.
  - reflexivity.
Defined.

Lemma script_llm_failure_not_retried_witness :
  exists w',
    ScriptGenerator.generate_script Samples.code_parser Samples.llm_bad
      Samples.script_system_prompt unit Samples.script_user_prompt strip
      Samples.requirements_of Samples.env_example_of Samples.clock
      Samples.task Samples.plan None 3 []
    = (Raised
         (ValueError ("Failed to generate script: " ++ "Connection refused")),
       ([] ++ w'
          ++ [EvGenerate
                (ScriptGenerator.prompt_after strip
                   Samples.script_system_prompt
                   [(Samples.bad_code_1, Some 1, "invalid syntax")])
                (Samples.script_user_prompt Samples.task Samples.plan
                   None)])%list)
    /\ generate_calls w' = 1%nat
    /\ List.length w' = 2%nat.
Proof.
  apply (script_llm_failure_not_retried Samples.code_parser Samples.llm_bad
           Samples.script_system_prompt unit Samples.script_user_prompt strip
           Samples.requirements_of Samples.env_example_of Samples.clock
           Samples.task Samples.plan None 3
           [(Samples.bad_code_1, Some 1, "invalid syntax")]
           (OtherException "Connection refused") []).
  - simpl. lia.
  - intros i text lineno msg Hi. destruct i as [|[|i]]; try discriminate Hi.
    injection Hi as <- <- <-. split; reflexivity.
  - reflexivity.
  - discriminate.
Defined.

Lemma script_exhausted_witness :
  exists lineno msg w,
    ScriptGenerator.generate_script Samples.code_parser
      MoreSamples.llm_always_bad Samples.script_system_prompt unit
      Samples.script_user_prompt strip Samples.requirements_of
      Samples.env_example_of Samples.clock Samples.task Samples.plan None 3 []
    = (Raised
         (ValueError
            ("Failed to generate valid script after " ++ str_of_Z 3
               ++ " attempts: " ++ exc_str (SyntaxError lineno msg))),
       w)
    /\ generate_calls w = Z.to_nat 3.
Proof.
  apply (script_exhausted Samples.code_parser MoreSamples.llm_always_bad
           Samples.script_system_prompt unit Samples.script_user_prompt strip
           Samples.requirements_of Samples.env_example_of Samples.clock
           Samples.task Samples.plan None 3); [lia|].
  intros n system user.
  exists Samples.bad_code_1, (Some 1), "invalid syntax".
  split; reflexivity.
Defined.

Lemma no_attempts_allowed_witness :
  generate_agent_code_with_retry Samples.code_parser Samples.yaml_loader
    Samples.llm_third_time Samples.spec_text "pep8" 0 []
  = (Raised (RuntimeError "Code generation failed: Maximum retries reached"),
     [])
  /\ ScriptGenerator.generate_script Samples.code_parser
       Samples.llm_third_time Samples.script_system_prompt unit
       Samples.script_user_prompt strip Samples.requirements_of
       Samples.env_example_of Samples.clock Samples.task Samples.plan None
       0 []
     = (Returned None, []).
Proof.
  apply (no_attempts_allowed Samples.code_parser Samples.llm_third_time
           Samples.script_system_prompt unit Samples.script_user_prompt strip
           Samples.requirements_of Samples.env_example_of Samples.clock
           Samples.task Samples.plan None Samples.yaml_loader
           Samples.spec_text "pep8" 0 []).
  lia.
Defined.

End RetryMore.

(* ===================================================================== *)
(** * The clean-up of the generated text and the feedback context         *)
(* ===================================================================== *)

Module TextProps.
Import Python Yaml GenerateAgentCode PythonProps.

(** ** Slices of a concatenation *)

Lemma length_append (a b : string) :
  String.length (a ++ b) = (String.length a + String.length b)%nat.
Proof. induction a as [|c a IH]; simpl; [reflexivity | now rewrite IH]. Qed.

Lemma drop_append (a b : string) : drop (String.length a) (a ++ b) = b.
Proof. induction a as [|c a IH]; simpl; [now destruct b | exact IH]. Qed.

Lemma take_append (a b : string) : take (String.length a) (a ++ b) = a.
Proof.
  induction a as [|c a IH]; simpl; [now destruct b | now rewrite IH].
Qed.

Lemma take_all (a : string) : take (String.length a) a = a.
Proof. induction a as [|c a IH]; simpl; [reflexivity | now rewrite IH]. Qed.

Lemma drop_0 (s : string) : drop 0 s = s.
Proof. now destruct s. Qed.

Ltac slice_bounds :=
  unfold slice_from, slice_to, slice, slice_bound, len;
  rewrite ?length_append;
  repeat match goal with
         | |- context [?a <? ?b] => destruct (Z.ltb_spec a b); try lia
         end.

(** [(a + b)[len(a):] == b] *)
Lemma slice_from_append (a b : string) : slice_from (a ++ b) (len a) = b.
Proof.
  slice_bounds.
  match goal with
  | |- take (Z.to_nat ?x) (drop (Z.to_nat ?y) _) = _ =>
      replace (Z.to_nat y) with (String.length a) by lia;
      replace (Z.to_nat x) with (String.length b) by lia
  end.
  rewrite drop_append. apply take_all.
Qed.

(** [(a + b)[:-len(b)] == a] for a non-empty [b] *)
Lemma slice_to_append (a b : string) :
  b <> "" -> slice_to (a ++ b) (- len b) = a.
Proof.
  intro Hb.
  assert (0 < String.length b)%nat by (destruct b; simpl; [easy | lia]).
  slice_bounds.
  match goal with
  | |- take (Z.to_nat ?x) (drop (Z.to_nat ?y) _) = _ =>
      replace (Z.to_nat y) with 0%nat by lia;
      replace (Z.to_nat x) with (String.length a) by lia
  end.
  rewrite drop_0. apply take_append.
Qed.

Lemma endswith_append (a b : string) : endswith (a ++ b) b = true.
Proof.
  unfold endswith. apply andb_true_intro. split.
  - apply Z.leb_le. unfold len. rewrite length_append. lia.
  - replace (len (a ++ b) - len b) with (len a)
      by (unfold len; rewrite length_append; lia).
    rewrite slice_from_append. apply String.eqb_refl.
Qed.

Lemma startswith_append (p s : string) : startswith (p ++ s) p = true.
Proof.
  induction p as [|c p IH]; [now destruct s|].
  simpl. now rewrite Ascii.eqb_refl, IH.
Qed.

Lemma startswith_longer (s p more : string) :
  startswith s p = false -> startswith s (p ++ more) = false.
Proof.
  revert s. induction p as [|c p IH]; intros s H; [discriminate|].
  destruct s as [|d s]; [reflexivity|]. cbn [append startswith] in *.
  destruct (Ascii.eqb c d); [now apply IH | reflexivity].
Qed.

(** ** [strip] *)

Lemma rstrip_app_space (s : string) (c : ascii) :
  is_space c = true -> rstrip (s ++ String c "") = rstrip s.
Proof.
  intro Hc. induction s as [|d s IH]; cbn [append rstrip].
  - now rewrite Hc.
  - now rewrite IH.
Qed.

Lemma rstrip_app_plain (s : string) (c : ascii) :
  is_space c = false -> rstrip (s ++ String c "") = s ++ String c "".
Proof.
  intro Hc. induction s as [|d s IH]; cbn [append rstrip].
  - now rewrite Hc.
  - rewrite IH. now destruct s.
Qed.

Lemma length_lstrip (s : string) :
  (String.length (lstrip s) <= String.length s)%nat.
Proof.
  induction s as [|c s IH]; simpl; [lia|].
  destruct (is_space c); simpl; lia.
Qed.

Lemma length_rstrip (s : string) :
  (String.length (rstrip s) <= String.length s)%nat.
Proof.
  induction s as [|c s IH]; simpl; [lia|].
  destruct (rstrip s); [destruct (is_space c)|]; simpl in *; lia.
Qed.

(** A text that [strip] leaves as it is neither begins nor ends with
    white space. *)
Lemma strip_fixed (s : string) :
  strip s = s -> lstrip s = s /\ rstrip s = s.
Proof.
  unfold strip. intro H.
  assert (Hl : lstrip s = s).
  { destruct s as [|c s]; [reflexivity|]. cbn [lstrip] in *.
    destruct (is_space c); [|reflexivity].
    pose proof (length_rstrip (lstrip s)). pose proof (length_lstrip s).
    rewrite H in *. simpl in *. lia. }
  split; [exact Hl | now rewrite Hl in H].
Qed.

Lemma strip_between_newlines (code : string) :
  strip code = code -> strip (nl ++ code ++ nl) = code.
Proof.
  intro H. destruct (strip_fixed code H) as [Hl Hr].
  unfold strip. change (lstrip (nl ++ code ++ nl)) with (lstrip (code ++ nl)).
  destruct code as [|c code]; [reflexivity|].
  cbn [lstrip append] in *. destruct (is_space c) eqn:Hc.
  - pose proof (length_lstrip code). rewrite Hl in *. simpl in *. lia.
  - change (String c (code ++ nl)) with (String c code ++ nl).
    unfold nl. rewrite rstrip_app_space by reflexivity. exact Hr.
Qed.

Lemma strip_plain_ends (c d : ascii) (s : string) :
  is_space c = false -> is_space d = false ->
  strip (String c s ++ String d "") = String c s ++ String d "".
Proof.
  intros Hc Hd. unfold strip. cbn [append lstrip]. rewrite Hc.
  change (String c (s ++ String d "")) with (String c s ++ String d "").
  now apply rstrip_app_plain.
Qed.

Lemma strip_fenced (opening body : string) :
  strip ("```" ++ opening ++ body ++ "```")
  = "```" ++ opening ++ body ++ "```".
Proof.
  assert (E : "```" ++ opening ++ body ++ "```"
              = String "`" ("``" ++ opening ++ body ++ "``") ++ String "`" "").
  { cbn [append]. do 3 f_equal.
    now rewrite !PythonProps.append_assoc. }
  rewrite E. now apply strip_plain_ends.
Qed.

(** X12: the clean-up gives back the code that an answer wraps in a
    markdown fence, with or without the language tag [python], and
    leaves an answer without fences as it is; the code is taken to
    have no white space at its ends, which the clean-up strips. *)
Theorem remove_code_fences_unwraps (code : string) :
  strip code = code ->
  remove_code_fences ("```python" ++ nl ++ code ++ nl ++ "```") = code
  /\ remove_code_fences ("```" ++ nl ++ code ++ nl ++ "```") = code
  /\ (startswith code "```" = false -> endswith code "```" = false ->
      remove_code_fences code = code).
Proof.
  intro H.
  assert (E : nl ++ code ++ nl ++ "```" = (nl ++ code ++ nl) ++ "```")
    by (now rewrite !PythonProps.append_assoc).
  pose proof (strip_between_newlines code H) as Hstrip.
  rewrite E. set (inner := nl ++ code ++ nl) in *.
  assert (Hnl : startswith (inner ++ "```") "```" = false) by reflexivity.
  split; [|split].
  - unfold remove_code_fences.
    change ("```python" ++ inner ++ "```")
      with ("```" ++ "python" ++ inner ++ "```").
    rewrite strip_fenced.
    change ("```" ++ "python" ++ inner ++ "```")
      with ("```python" ++ (inner ++ "```")).
    rewrite startswith_append.
    change 9 with (len "```python"). rewrite slice_from_append.
    rewrite Hnl, endswith_append.
    change (-3) with (- len "```"). rewrite slice_to_append by discriminate.
    exact Hstrip.
  - unfold remove_code_fences.
    change ("```" ++ inner ++ "```") with ("```" ++ "" ++ inner ++ "```").
    rewrite strip_fenced.
    change ("```" ++ "" ++ inner ++ "```") with ("```" ++ (inner ++ "```")).
    change (startswith ("```" ++ inner ++ "```") "```python") with false.
    cbn iota. rewrite startswith_append.
    change 3 with (len "```"). rewrite slice_from_append.
    rewrite endswith_append.
    change (-3) with (- len "```"). rewrite slice_to_append by discriminate.
    exact Hstrip.
  - intros Hs He. unfold remove_code_fences. rewrite H.
    assert (Hp : startswith code "```python" = false)
      by (apply (startswith_longer code "```" "python"); exact Hs).
    now rewrite Hp, Hs, He.
Qed.

Lemma remove_code_fences_unwraps_witness :
  strip "x = 1" = "x = 1"
  /\ remove_code_fences ("```python" ++ nl ++ "x = 1" ++ nl ++ "```")
     = "x = 1"
  /\ remove_code_fences ("```" ++ nl ++ "x = 1" ++ nl ++ "```") = "x = 1"
  /\ (startswith "x = 1" "```" = false -> endswith "x = 1" "```" = false ->
      remove_code_fences "x = 1" = "x = 1").
Proof.
  split; [reflexivity|].
  apply (remove_code_fences_unwraps "x = 1"). reflexivity.
Defined.

(** ** The context of a syntax error *)

Lemma enumerate_app {A : Type} (l1 l2 : list A) :
  forall start,
    enumerate (l1 ++ l2) start
    = (enumerate l1 start
         ++ enumerate l2 (start + Z.of_nat (List.length l1)))%list.
Proof.
  induction l1 as [|x l1 IH]; intro start; cbn [app enumerate List.length].
  - now rewrite Z.add_0_r.
  - rewrite IH.
    replace (start + 1 + Z.of_nat (List.length l1))
      with (start + Z.of_nat (S (List.length l1))) by lia.
    reflexivity.
Qed.

Lemma length_enumerate {A : Type} (l : list A) :
  forall start, List.length (enumerate l start) = List.length l.
Proof.
  induction l as [|x l IH]; intro start; simpl; [reflexivity|].
  now rewrite IH.
Qed.

(** A slice that holds index [i]: what is before it, it, and what is
    after it. *)
Lemma window_split {A : Type} (l : list A) (d : A) (a i b : nat) :
  (a <= i < b)%nat -> (b <= List.length l)%nat ->
  firstn (b - a) (skipn a l)
  = (firstn (i - a) (skipn a l) ++ nth i l d
       :: firstn (b - i - 1) (skipn (S i) l))%list.
Proof.
  intros Hi Hb.
  rewrite <- (firstn_skipn (i - a) (firstn (b - a) (skipn a l))) at 1.
  rewrite firstn_firstn, Nat.min_l by lia. f_equal.
  rewrite skipn_firstn_comm, skipn_skipn.
  replace (i - a + a)%nat with i by lia.
  replace (b - a - (i - a))%nat with (S (b - i - 1)) by lia.
  assert (Hlen : (i < List.length l)%nat) by lia.
  generalize (b - i - 1)%nat as k. intro k. clear -Hlen. revert i Hlen.
  induction l as [|x l IH]; intros i Hlen; simpl in Hlen; [lia|].
  destruct i as [|i]; [reflexivity|].
  change (skipn (S i) (x :: l)) with (skipn i l).
  change (skipn (S (S i)) (x :: l)) with (skipn (S i) l).
  change (nth (S i) (x :: l) d) with (nth i l d).
  apply IH. lia.
Qed.

(** X13: when the syntax error names a line of the text, the context that
    goes into the feedback shows that line under its number, after the
    two lines before it and before the two lines after it, as far as
    the text has them. *)
Theorem context_shows_error_line (code : string) (error_line_num : Z) :
  1 <= error_line_num <= Z.of_nat (List.length (split code nl)) ->
  exists before after,
    context_of code error_line_num
    = join nl
        (before
           ++ (str_of_Z error_line_num ++ ": "
                 ++ nth (Z.to_nat (error_line_num - 1)) (split code nl) "")
           :: after)
    /\ Z.of_nat (List.length before) = Z.min 2 (error_line_num - 1)
    /\ Z.of_nat (List.length after)
       = Z.min 2 (Z.of_nat (List.length (split code nl)) - error_line_num).
Proof.
  intros Hn. unfold context_of, list_slice, slice_bound.
  set (code_lines := split code nl) in *.
  set (n := Z.of_nat (List.length code_lines)) in *.
  repeat match goal with
         | |- context [?a <? ?b] => destruct (Z.ltb_spec a b); try lia
         end.
  set (a := Z.to_nat (Z.max 0 (error_line_num - 3))).
  set (b := Z.to_nat (Z.min n (error_line_num + 2))).
  set (i := Z.to_nat (error_line_num - 1)).
  replace (Z.to_nat (Z.max 0 (Z.min n (Z.max 0 (error_line_num - 3)))))
    with a by lia.
  replace (Z.to_nat (_ - _)) with (b - a)%nat by lia.
  rewrite (window_split code_lines "" a i b) by lia.
  rewrite enumerate_app, map_app. cbn [enumerate map].
  assert (Hlen : Z.max 0 (error_line_num - 3)
                 + Z.of_nat
                     (List.length (firstn (i - a) (skipn a code_lines)))
                 + 1
                 = error_line_num)
    by (rewrite length_firstn, length_skipn; lia).
  rewrite Hlen. do 2 eexists. split; [reflexivity|].
  split; rewrite length_map, length_enumerate, length_firstn, length_skipn;
    lia.
Qed.

Lemma context_shows_error_line_witness :
  exists before after,
    context_of Samples.five_imports 4
    = join nl
        (before
           ++ (str_of_Z 4 ++ ": "
                 ++ nth (Z.to_nat (4 - 1)) (split Samples.five_imports nl) "")
           :: after)
    /\ Z.of_nat (List.length before) = Z.min 2 (4 - 1)
    /\ Z.of_nat (List.length after)
       = Z.min 2
           (Z.of_nat (List.length (split Samples.five_imports nl)) - 4).
Proof.
  apply (context_shows_error_line Samples.five_imports 4).
  vm_compute. split; discriminate.
Defined.

End TextProps.

(* ===================================================================== *)
(** * The specification validation tool                                   *)
(* ===================================================================== *)

Module SpecToolProps.
Import Python Yaml SpecValidator SpecTool SpecValidatorProps.

(** The validator of the score accepts every completeness score. *)
Lemma score_accepted (spec : list (value * value)) :
  validate_score (_calculate_completeness spec)
  = Returned (_calculate_completeness spec).
Proof.
  pose proof (completeness_counts spec) as Hc.
  destruct (filter_all (present spec) tracked_fields) as [Hle _].
  change (List.length tracked_fields) with 13%nat in *.
  set (c := List.length (filter (present spec) tracked_fields)) in *.
  clearbody c.
  assert (H0 : (inject_Z 0 <= inject_Z (Z.of_nat c))%Q)
    by (rewrite <- Zle_Qle; lia).
  assert (H13 : (inject_Z (Z.of_nat c) <= inject_Z 13)%Q)
    by (rewrite <- Zle_Qle; lia).
  change (inject_Z 0) with 0%Q in H0. change (inject_Z 13) with 13%Q in H13.
  assert (Hlo : (0 <= _calculate_completeness spec)%Q) by (rewrite Hc; lra).
  assert (Hhi : (_calculate_completeness spec <= 100)%Q) by (rewrite Hc; lra).
  unfold validate_score. apply Qle_bool_iff in Hlo, Hhi. now rewrite Hlo, Hhi.
Qed.

Lemma count_severity_app (s : string) (l1 l2 : list ValidationIssue) :
  count_severity s (l1 ++ l2) = count_severity s l1 + count_severity s l2.
Proof.
  unfold count_severity. rewrite filter_app, length_app. lia.
Qed.

Lemma count_severity_nonneg (s : string) (l : list ValidationIssue) :
  0 <= count_severity s l.
Proof. unfold count_severity. lia. Qed.

Lemma count_severity_all (s : string) (l : list ValidationIssue) :
  forallb (has_severity s) l = true ->
  count_severity s l = Z.of_nat (List.length l).
Proof.
  intro H. unfold count_severity. f_equal.
  induction l as [|i l IH]; [reflexivity|]. simpl in *.
  apply andb_prop in H as [Hi Hl]. rewrite Hi. simpl. now rewrite IH.
Qed.

Lemma forallb_flat_map {A B : Type} (p : B -> bool) (f : A -> list B)
  (l : list A) :
  (forall x, forallb p (f x) = true) -> forallb p (flat_map f l) = true.
Proof.
  intro H. induction l as [|x l IH]; [reflexivity|].
  cbn [flat_map]. now rewrite forallb_app, H, IH.
Qed.

Lemma flat_map_nil {A B : Type} (f : A -> list B) (l : list A) :
  flat_map f l = [] -> forall x, In x l -> f x = [].
Proof.
  induction l as [|y l IH]; intros H x Hx; [contradiction|].
  cbn [flat_map] in H. apply app_eq_nil in H as [Hy Hl].
  destruct Hx as [->|Hx]; auto.
Qed.

Section Tool.

Variable yaml_safe_load : string -> outcome value.
Variable repr : value -> string.

#[local] Abbreviation validate_specification :=
  (validate_specification yaml_safe_load repr).
#[local] Abbreviation collect_issues := (collect_issues repr).

(** ** The three ways out of [validate_specification] *)

Lemma rejected_run (i : ValidationIssue) :
  severity i = "error" ->
  _create_result [i] false = Returned (mkResult false [i] 0 1 0.0).
Proof.
  intro H. unfold _create_result, count_severity, has_severity.
  cbn [filter]. rewrite H. reflexivity.
Qed.

Lemma dict_run (spec_content : string) (spec : list (value * value))
  (strict_mode : bool) :
  yaml_safe_load spec_content = Returned (YDict spec) ->
  validate_specification spec_content strict_mode
  = match collect_issues spec strict_mode with
    | Raised e => Raised e
    | Returned issues =>
        Returned
          (mkResult (count_severity "error" issues =? 0) issues
             (count_severity "warning" issues)
             (count_severity "error" issues)
             (_calculate_completeness spec))
    end.
Proof.
  intro H. unfold SpecTool.validate_specification. rewrite H.
  destruct (collect_issues spec strict_mode); [|reflexivity].
  unfold SpecValidationResult_new. now rewrite score_accepted.
Qed.

(** X14: a document that does not load, or that loads as something else
    than a dict, is rejected with one error and a completeness score
    of 0, whatever is in it. *)
Theorem document_rejected (spec_content : string) (strict_mode : bool) :
  (exists msg, yaml_safe_load spec_content = Raised (YAMLError msg))
  \/ (exists v, yaml_safe_load spec_content = Returned v
                /\ is_dict v = false) ->
  exists i,
    validate_specification spec_content strict_mode
    = Returned (mkResult false [i] 0 1 0.0)
    /\ severity i = "error".
Proof.
  unfold SpecTool.validate_specification.
  intros [[msg H]|(v & H & Hv)]; rewrite H.
  - eexists. split; [apply rejected_run|]; reflexivity.
  - destruct v; try discriminate Hv;
      (eexists; split; [apply rejected_run|]; reflexivity).
Qed.

(** X15: in every result the two counts are the numbers of issues of
    severity error and warning, and the result is valid exactly when
    there is no error. *)
Theorem result_counts (spec_content : string) (strict_mode : bool)
  (r : SpecValidationResult) :
  validate_specification spec_content strict_mode = Returned r ->
  errors r = count_severity "error" (issues r)
  /\ warnings r = count_severity "warning" (issues r)
  /\ is_valid r = (errors r =? 0).
Proof.
  destruct (yaml_safe_load spec_content) as [v|e] eqn:Hload.
  - destruct (is_dict v) eqn:Hv.
    + destruct v; try discriminate Hv. rewrite (dict_run _ _ _ Hload).
      destruct (collect_issues items strict_mode); [|discriminate].
      intros [= <-]. repeat split.
    + destruct (document_rejected spec_content strict_mode) as (i & -> & Hi).
      { right. eauto. }
      intros [= <-]. unfold count_severity, has_severity. cbn [issues filter].
      rewrite Hi. repeat split.
  - unfold SpecTool.validate_specification. rewrite Hload.
    destruct e; try discriminate. rewrite rejected_run by reflexivity.
    intros [= <-]. repeat split.
Qed.

(** ** The checks on a dict *)

Lemma collect_issues_shape (spec : list (value * value))
  (strict_mode : bool) :
  collect_issues spec strict_mode
  = match _validate_version spec with
    | Raised e => Raised e
    | Returned version_issues =>
        Returned
          (_validate_required_fields spec
             ++ _validate_field_types spec
             ++ (_validate_agent_type repr spec ++ _validate_role repr spec
                   ++ version_issues ++ _validate_capabilities spec
                   ++ _validate_workflow spec ++ _validate_dependencies spec
                   ++ (if has_key spec "testing"
                       then _validate_testing spec else []))
             ++ (if strict_mode then [] else _check_optional_fields spec))%list
    end.
Proof.
  unfold SpecTool.collect_issues.
  destruct (_validate_version spec); [|reflexivity].
  destruct (has_key spec "testing"), strict_mode; cbn [negb app];
    rewrite <- ?app_assoc, ?app_nil_r; reflexivity.
Qed.

Lemma version_raises (spec : list (value * value)) :
  (exists e, _validate_version spec = Raised e)
  <-> (exists v, lookup spec "version" = Some v /\ is_str v = false).
Proof.
  unfold _validate_version.
  destruct (lookup spec "version") as [v|].
  - destruct v; cbn [value_split is_str];
      try (split; [intros _; eexists; split; reflexivity
                  | intros _; eexists; reflexivity]).
    split.
    + intros [e H]. destruct (negb _); [discriminate|].
      destruct (existsb _ _); discriminate.
    + intros (v & [= <-] & Hv). discriminate Hv.
  - split; [intros [e H]; discriminate | intros (v & H & _); discriminate].
Qed.

(** X16: on a document that loads as a dict, [validate_specification]
    raises instead of returning a result exactly when the dict has a
    version that is no string (a YAML float such as 1.0, a number, a
    date, an empty value): the version check splits it without a look
    at its type. *)
Theorem raises_on_non_string_version (spec_content : string)
  (spec : list (value * value)) (strict_mode : bool) :
  yaml_safe_load spec_content = Returned (YDict spec) ->
  ((exists e, validate_specification spec_content strict_mode = Raised e)
   <-> (exists v, lookup spec "version" = Some v /\ is_str v = false)).
Proof.
  intro Hload. rewrite (dict_run _ _ _ Hload), collect_issues_shape.
  rewrite <- version_raises.
  destruct (_validate_version spec) as [version_issues|e].
  - split; intros [e H]; discriminate.
  - split; intros _; eauto.
Qed.

Lemma required_issues_are_errors (spec : list (value * value)) :
  forallb (has_severity "error") (_validate_required_fields spec) = true
  /\ forallb (has_severity "error") (_validate_field_types spec) = true.
Proof.
  split; apply forallb_flat_map; intros [f types].
  - destruct (negb (has_key spec f)); reflexivity.
  - destruct (lookup spec f); [|reflexivity].
    destruct (is_tuple types), (negb (isinstance_any v types)); reflexivity.
Qed.

Lemma no_errors_nil (l : list ValidationIssue) :
  forallb (has_severity "error") l = true ->
  count_severity "error" l = 0 -> l = [].
Proof.
  intros Hall H. rewrite (count_severity_all _ _ Hall) in H.
  destruct l; [reflexivity | simpl in H; lia].
Qed.

(** X17: a valid result vouches for the required fields: each of the eight
    is a key of the document, with a value of (one of) the expected
    type(s). *)
Theorem valid_has_required_fields (spec_content : string)
  (spec : list (value * value)) (strict_mode : bool)
  (r : SpecValidationResult) :
  yaml_safe_load spec_content = Returned (YDict spec) ->
  validate_specification spec_content strict_mode = Returned r ->
  is_valid r = true ->
  forall field expected_type,
    In (field, expected_type) REQUIRED_FIELDS ->
    exists v, lookup spec field = Some v
              /\ isinstance_any v expected_type = true.
Proof.
  intros Hload Hrun Hvalid. rewrite (dict_run _ _ _ Hload) in Hrun.
  rewrite collect_issues_shape in Hrun.
  destruct (_validate_version spec) as [version_issues|]; [|discriminate].
  injection Hrun as <-. cbn [is_valid] in Hvalid. apply Z.eqb_eq in Hvalid.
  rewrite !count_severity_app in Hvalid.
  destruct (required_issues_are_errors spec) as [Hreq Htypes].
  assert (H1 : _validate_required_fields spec = []).
  { apply no_errors_nil; [exact Hreq|].
    repeat match goal with
           | H : context [count_severity "error" ?l] |- _ =>
               lazymatch goal with
               | _ : 0 <= count_severity "error" l |- _ => fail
               | _ => pose proof (count_severity_nonneg "error" l)
               end
           end.
    lia. }
  assert (H2 : _validate_field_types spec = []).
  { apply no_errors_nil; [exact Htypes|].
    repeat match goal with
           | H : context [count_severity "error" ?l] |- _ =>
               lazymatch goal with
               | _ : 0 <= count_severity "error" l |- _ => fail
               | _ => pose proof (count_severity_nonneg "error" l)
               end
           end.
    lia. }
  intros f types Hin.
  pose proof (flat_map_nil _ _ H1 _ Hin) as Hf1.
  pose proof (flat_map_nil _ _ H2 _ Hin) as Hf2.
  cbn beta iota in Hf1, Hf2. unfold has_key in Hf1.
  destruct (lookup spec f) as [v|]; [|discriminate Hf1].
  exists v. split; [reflexivity|].
  destruct (isinstance_any v types); [reflexivity|].
  destruct (is_tuple types); discriminate Hf2.
Qed.

Lemma optional_issues_are_notes (spec : list (value * value)) (s : string) :
  s <> "info" -> count_severity s (_check_optional_fields spec) = 0.
Proof.
  intro Hs. assert (Hf : has_severity s
                           (mkIssue "info" "" "" None) = false).
  { unfold has_severity. cbn [severity]. apply String.eqb_neq. congruence. }
  unfold _check_optional_fields, count_severity, has_severity in *.
  cbn [severity] in Hf.
  destruct (negb (has_key spec "performance")),
    (negb (has_key spec "logging")); cbn [app filter severity];
    rewrite ?Hf; reflexivity.
Qed.

(** X18: the flag [strict_mode] changes neither the verdict nor the counts:
    without it the two notes on missing optional sections are added
    after the other issues, and nothing else differs. *)
Theorem strict_mode_adds_no_check (spec_content : string)
  (spec : list (value * value)) (r : SpecValidationResult) :
  yaml_safe_load spec_content = Returned (YDict spec) ->
  validate_specification spec_content true = Returned r ->
  exists r',
    validate_specification spec_content false = Returned r'
    /\ issues r' = (issues r ++ _check_optional_fields spec)%list
    /\ is_valid r' = is_valid r
    /\ errors r' = errors r
    /\ warnings r' = warnings r
    /\ completeness_score r' = completeness_score r.
Proof.
  intros Hload Hrun. rewrite (dict_run _ _ true Hload) in Hrun.
  rewrite (dict_run _ _ false Hload).
  rewrite collect_issues_shape in Hrun. rewrite collect_issues_shape.
  destruct (_validate_version spec) as [version_issues|];
    [|discriminate Hrun].
  injection Hrun as <-. eexists. split; [reflexivity|].
  cbn [issues is_valid errors warnings completeness_score].
  rewrite !app_nil_r.
  assert (He : forall s l, s <> "info" ->
                           count_severity s (l ++ _check_optional_fields spec)
                           = count_severity s l).
  { intros s l Hs. rewrite count_severity_app, optional_issues_are_notes by
      exact Hs. lia. }
  rewrite !app_assoc. rewrite !He by discriminate.
  rewrite <- !app_assoc. repeat split.
Qed.

End Tool.

(** ** The properties at the sample inputs *)

Lemma document_rejected_witness :
  exists i,
    validate_specification MoreSamples.spec_loader MoreSamples.repr "" true
    = Returned (mkResult false [i] 0 1 0.0)
    /\ severity i = "error".
Proof.
  apply (document_rejected MoreSamples.spec_loader MoreSamples.repr "" true).
  right. exists YNone. split; reflexivity.
Defined.

Lemma result_counts_witness :
  exists r,
    validate_specification MoreSamples.spec_loader MoreSamples.repr
      Samples.spec_text true
    = Returned r
    /\ errors r = count_severity "error" (issues r)
    /\ warnings r = count_severity "warning" (issues r)
    /\ is_valid r = (errors r =? 0).
Proof.
  eexists. split; [vm_compute; reflexivity|].
  eapply (result_counts MoreSamples.spec_loader MoreSamples.repr
            Samples.spec_text true).
  vm_compute. reflexivity.
Defined.

Lemma raises_on_non_string_version_witness :
  (exists e,
      validate_specification MoreSamples.spec_loader MoreSamples.repr
        MoreSamples.float_version_text true
      = Raised e)
  <-> (exists v, lookup MoreSamples.float_version_spec "version" = Some v
                 /\ is_str v = false).
Proof.
  apply (raises_on_non_string_version MoreSamples.spec_loader
           MoreSamples.repr MoreSamples.float_version_text
           MoreSamples.float_version_spec true).
  reflexivity.
Defined.

Lemma valid_has_required_fields_witness :
  exists v, lookup Samples.complete_spec "workflow" = Some v
            /\ isinstance_any v [TDict] = true.
Proof.
  eapply (valid_has_required_fields MoreSamples.spec_loader MoreSamples.repr
            MoreSamples.complete_spec_text Samples.complete_spec true).
  - reflexivity.
  - vm_compute. reflexivity.
  - reflexivity.
  - simpl. tauto.
Defined.

Lemma strict_mode_adds_no_check_witness :
  exists r',
    validate_specification MoreSamples.spec_loader MoreSamples.repr
      Samples.spec_text false
    = Returned r'
    /\ issues r'
       = (_validate_required_fields Samples.name_only_spec
            ++ _validate_agent_type MoreSamples.repr Samples.name_only_spec
            ++ _validate_role MoreSamples.repr Samples.name_only_spec
            ++ _check_optional_fields Samples.name_only_spec)%list
    /\ is_valid r' = false
    /\ errors r' = 7
    /\ warnings r' = 0
    /\ completeness_score r' = _calculate_completeness Samples.name_only_spec.
Proof.
  destruct (strict_mode_adds_no_check MoreSamples.spec_loader MoreSamples.repr
              Samples.spec_text Samples.name_only_spec
              (mkResult false
                 (_validate_required_fields Samples.name_only_spec
                    ++ _validate_agent_type MoreSamples.repr
                         Samples.name_only_spec
                    ++ _validate_role MoreSamples.repr Samples.name_only_spec)
                 0 7 (_calculate_completeness Samples.name_only_spec))
              eq_refl eq_refl)
    as (r' & Hrun & Hissues & Hvalid & Herrors & Hwarnings & Hscore).
  exists r'. rewrite Hrun, Hissues, Hvalid, Herrors, Hwarnings, Hscore.
  repeat split.
Defined.

End SpecToolProps.

(* ===================================================================== *)
(** * The requirements of a generated script                              *)
(* ===================================================================== *)

Module ScriptPartsProps.
Import Python ScriptGenerator ScriptParts.

Lemma str_mem_In (x : string) (l : list string) :
  str_mem x l = true <-> In x l.
Proof.
  unfold str_mem. rewrite existsb_exists. split.
  - intros (y & Hy & He). apply String.eqb_eq in He. now subst.
  - intro H. exists x. split; [exact H | apply String.eqb_refl].
Qed.

Lemma In_set_add (x y : string) (s : list string) :
  In y (set_add x s) <-> y = x \/ In y s.
Proof.
  unfold set_add. destruct (str_mem x s) eqn:Hx.
  - apply str_mem_In in Hx. split; [auto | intros [->|H]; assumption].
  - rewrite in_app_iff. simpl. intuition.
Qed.

Lemma NoDup_set_add (x : string) (s : list string) :
  NoDup s -> NoDup (set_add x s).
Proof.
  intro H. unfold set_add. destruct (str_mem x s) eqn:Hx; [exact H|].
  assert (Hn : ~ In x s)
    by (rewrite <- str_mem_In, Hx; discriminate).
  clear Hx. induction H as [|y s Hy Hs IH]; simpl.
  - constructor; [tauto | constructor].
  - constructor.
    + rewrite in_app_iff. simpl. simpl in Hn. intuition.
    + apply IH. simpl in Hn. tauto.
Qed.

Lemma set_of_list_spec (l : list string) :
  forall s0,
    NoDup s0 ->
    NoDup (fold_left (fun s x => set_add x s) l s0)
    /\ forall y, In y (fold_left (fun s x => set_add x s) l s0)
                 <-> In y l \/ In y s0.
Proof.
  induction l as [|x l IH]; intros s0 H0; cbn [fold_left].
  - split; [exact H0 | simpl; tauto].
  - destruct (IH (set_add x s0) (NoDup_set_add x s0 H0)) as [Hn Hin].
    split; [exact Hn|]. intro y. rewrite Hin, In_set_add. simpl. intuition.
Qed.

Lemma In_set_remove (x y : string) (s : list string) :
  In y (set_remove x s) <-> In y s /\ y <> x.
Proof.
  unfold set_remove. rewrite filter_In, negb_true_iff, String.eqb_neq.
  tauto.
Qed.

Lemma NoDup_set_remove (x : string) (s : list string) :
  NoDup s -> NoDup (set_remove x s).
Proof. apply NoDup_filter. Qed.

Lemma In_detect (script_code m y : string) (s : list string) :
  In y (detect script_code m s)
  <-> In y s \/ (y = m /\ imports script_code m = true).
Proof.
  unfold detect. destruct (imports script_code m).
  - rewrite In_set_add. intuition.
  - intuition discriminate.
Qed.

Lemma NoDup_detect (script_code m : string) (s : list string) :
  NoDup s -> NoDup (detect script_code m s).
Proof.
  intro H. unfold detect. destruct (imports script_code m);
    [now apply NoDup_set_add | exact H].
Qed.

(** ** Sorting *)

Lemma In_insert_sorted (x y : string) (l : list string) :
  In y (insert_sorted x l) <-> y = x \/ In y l.
Proof.
  induction l as [|z l IH]; simpl; [intuition|].
  destruct (String.leb x z); simpl; rewrite ?IH; intuition.
Qed.

Lemma In_sorted (y : string) (l : list string) :
  In y (sorted l) <-> In y l.
Proof.
  induction l as [|x l IH]; simpl; [tauto|].
  rewrite In_insert_sorted, IH. intuition.
Qed.

Lemma NoDup_insert_sorted (x : string) (l : list string) :
  ~ In x l -> NoDup l -> NoDup (insert_sorted x l).
Proof.
  intros Hx Hl. induction Hl as [|z l Hz Hl IH]; simpl.
  - constructor; [tauto | constructor].
  - destruct (String.leb x z).
    + constructor; [exact Hx | now constructor].
    + constructor.
      * rewrite In_insert_sorted. simpl in Hx. intuition.
      * apply IH. simpl in Hx. tauto.
Qed.

Lemma NoDup_sorted (l : list string) : NoDup l -> NoDup (sorted l).
Proof.
  induction 1 as [|x l Hx Hl IH]; simpl; [constructor|].
  apply NoDup_insert_sorted; [now rewrite In_sorted | exact IH].
Qed.

Lemma ascending_insert (x : string) (l : list string) :
  ascending l -> ascending (insert_sorted x l).
Proof.
  induction l as [|y l IH]; intro H; [simpl; tauto|].
  cbn [insert_sorted]. destruct (String.leb x y) eqn:Hxy.
  - cbn [ascending] in *. tauto.
  - assert (Hyx : String.leb y x = true)
      by (destruct (String.leb_total x y); congruence).
    destruct H as [Hhead Htail]. specialize (IH Htail).
    cbn [ascending]. split; [|exact IH].
    destruct l as [|z l]; cbn [insert_sorted]; [exact Hyx|].
    destruct (String.leb x z); assumption.
Qed.

Lemma ascending_sorted (l : list string) : ascending (sorted l).
Proof.
  induction l as [|x l IH]; simpl; [exact I | now apply ascending_insert].
Qed.

(** ** The requirements *)

Section Requirements.

Variable execution_plan : ExecutionPlan.
Variable has_web_interface : bool.
Variable script_code : string.

Lemma imports_nothing (m : string) : imports "" m = false.
Proof. reflexivity. Qed.

Lemma requirements_set_spec :
  NoDup (requirements_set execution_plan has_web_interface script_code)
  /\ forall r,
      In r (requirements_set execution_plan has_web_interface script_code)
      <-> r = "loguru" \/ r = "python-dotenv" \/ r = "pydantic"
          \/ (r = "flask" /\ has_web_interface = true)
          \/ (r = "psycopg2-binary"
              /\ wanted execution_plan script_code "psycopg2")
          \/ (r <> "psycopg2" /\ wanted execution_plan script_code r).
Proof.
  unfold requirements_set.
  destruct (set_of_list_spec (dependencies execution_plan) [] (NoDup_nil _))
    as [N0 I0].
  fold (set_of_list (dependencies execution_plan)) in N0, I0.
  set (s0 := set_of_list (dependencies execution_plan)) in *.
  set (s1 := if negb (String.eqb script_code "") then _ else s0).
  assert (H1 : NoDup s1
               /\ forall r, In r s1 <-> wanted execution_plan script_code r).
  { unfold s1, wanted, detected_modules.
    destruct (String.eqb script_code "") eqn:He; cbn [negb].
    - apply String.eqb_eq in He. subst script_code.
      split; [exact N0|]. intro r. rewrite I0, imports_nothing. simpl.
      intuition discriminate.
    - split; [now repeat apply NoDup_detect|].
      intro r. rewrite !In_detect, I0. simpl.
      intuition (subst; auto). }
  destruct H1 as [N1 I1]. clearbody s1. clear s0 N0 I0.
  set (s2 := if str_mem "psycopg2" s1 then _ else s1).
  assert (H2 : NoDup s2
               /\ forall r, In r s2
                            <-> (r = "psycopg2-binary" /\ In "psycopg2" s1)
                                \/ (In r s1 /\ r <> "psycopg2")).
  { unfold s2. destruct (str_mem "psycopg2" s1) eqn:Hp.
    - apply str_mem_In in Hp.
      split; [now apply NoDup_set_add, NoDup_set_remove|].
      intro r. rewrite In_set_add, In_set_remove. tauto.
    - assert (Hn : ~ In "psycopg2" s1)
        by (rewrite <- str_mem_In, Hp; discriminate).
      split; [exact N1|]. intro r. split.
      + intro H. right. split; [exact H|]. intros ->. contradiction.
      + intros [[_ H]|[H _]]; [contradiction | exact H]. }
  destruct H2 as [N2 I2]. clearbody s2.
  set (s3 := if has_web_interface then _ else s2).
  assert (H3 : NoDup s3
               /\ forall r, In r s3
                            <-> (r = "flask" /\ has_web_interface = true)
                                \/ In r s2).
  { unfold s3. destruct has_web_interface.
    - split; [now apply NoDup_set_add|]. intro r. rewrite In_set_add. tauto.
    - split; [exact N2|]. intro r. intuition discriminate. }
  destruct H3 as [N3 I3]. clearbody s3.
  split; [now repeat apply NoDup_set_add|].
  intro r. rewrite !In_set_add, I3, I2, !I1. tauto.
Qed.

(** X19: the lines of requirements.txt: the three packages every script
    gets, [flask] for a web interface, and what the plan lists or the
    script is seen to import, with [psycopg2] replaced by
    [psycopg2-binary]; in ascending order, each once. *)
Theorem requirements_characterized :
  _generate_requirements execution_plan has_web_interface script_code
  = join nl (req_list execution_plan has_web_interface script_code)
  /\ ascending (req_list execution_plan has_web_interface script_code)
  /\ NoDup (req_list execution_plan has_web_interface script_code)
  /\ forall r,
      In r (req_list execution_plan has_web_interface script_code)
      <-> r = "loguru" \/ r = "python-dotenv" \/ r = "pydantic"
          \/ (r = "flask" /\ has_web_interface = true)
          \/ (r = "psycopg2-binary"
              /\ wanted execution_plan script_code "psycopg2")
          \/ (r <> "psycopg2" /\ wanted execution_plan script_code r).
Proof.
  destruct requirements_set_spec as [Hn Hin]. unfold req_list.
  split; [reflexivity|]. split; [apply ascending_sorted|].
  split; [now apply NoDup_sorted|].
  intro r. rewrite In_sorted. apply Hin.
Qed.

End Requirements.

End ScriptPartsProps.

(* ===================================================================== *)
(** * The script validator                                                *)
(* ===================================================================== *)

Module ScriptValidatorProps.
Import Python ScriptValidator TextProps.

(** ** Issues are appended, the score goes down *)

Lemma advances_refl (st : state) : advances st st.
Proof. split; [exists []; now rewrite app_nil_r | lra]. Qed.

Lemma advances_trans (a b c : state) :
  advances a b -> advances b c -> advances a c.
Proof.
  intros [[e1 H1] L1] [[e2 H2] L2]. split; [|lra].
  exists (e1 ++ e2)%list. now rewrite H2, H1, app_assoc.
Qed.

Lemma fold_advances {A : Type} (f : state -> A -> state) (l : list A) :
  (forall st x, advances st (f st x)) ->
  forall st, advances st (fold_left f l st).
Proof.
  intro Hf. induction l as [|x l IH]; intro st; cbn [fold_left].
  - apply advances_refl.
  - eapply advances_trans; [apply Hf | apply IH].
Qed.

Lemma advances_report (st : state) (i : ValidationIssue) (d : Q) :
  (0 <= d)%Q -> advances st (mkState (st_issues st ++ [i]) (score st - d)).
Proof. intro Hd. split; [eexists; reflexivity | cbn [score]; lra]. Qed.

Lemma check_match_advances (code message : string) (strict : bool)
  (st : state) (m : nat * nat) :
  advances st (check_match code message strict st m).
Proof.
  unfold check_match. destruct m as [m_start m_end].
  destruct (_ || _); [apply advances_refl|].
  destruct (_ || _); [apply advances_refl|].
  apply advances_report. lra.
Qed.

Lemma security_advances (code : string) (strict : bool) (st : state) :
  advances st
    (fold_left (check_dangerous_pattern code) dangerous_patterns
       (check_env_usage code
          (fold_left (check_credential_pattern code strict)
             credential_patterns st))).
Proof.
  set (st1 := fold_left (check_credential_pattern code strict)
                credential_patterns st).
  assert (H1 : advances st st1).
  { apply fold_advances. intros st' [pattern message].
    apply fold_advances. intros. apply check_match_advances. }
  assert (H2 : advances st1 (check_env_usage code st1)).
  { unfold check_env_usage. destruct (_ || _);
      [apply advances_refl | apply advances_report; lra]. }
  assert (H3 : forall st', advances st'
                 (fold_left (check_dangerous_pattern code)
                    dangerous_patterns st')).
  { apply fold_advances. intros st' [pattern message].
    unfold check_dangerous_pattern.
    destruct (search false pattern code);
      [apply advances_report; lra | apply advances_refl]. }
  eapply advances_trans; [exact H1|].
  eapply advances_trans; [exact H2 | apply H3].
Qed.

Lemma best_practices_appends (code : string) (issues : list ValidationIssue) :
  exists extra, _validate_best_practices code issues = (issues ++ extra)%list.
Proof.
  unfold _validate_best_practices.
  repeat match goal with
         | |- context [if ?b then _ else _] => destruct b
         end;
    rewrite <- ?app_assoc; eexists;
    first [reflexivity | symmetry; apply app_nil_r].
Qed.

(** ** What a match of a credential pattern ends with *)

Lemma drop_drop (a b : nat) (s : string) :
  drop a (drop b s) = drop (b + a) s.
Proof.
  revert s. induction b as [|b IH]; intro s; [now rewrite drop_0|].
  destruct s as [|c s]; cbn [drop plus]; [now destruct a | apply IH].
Qed.

Lemma length_drop (n : nat) (s : string) :
  String.length (drop n s) = (String.length s - n)%nat.
Proof.
  revert s. induction n as [|n IH]; intro s; [rewrite drop_0; lia|].
  destruct s as [|c s]; cbn [drop String.length]; [reflexivity | apply IH].
Qed.

Lemma take_add (a b : nat) (s : string) :
  take (a + b) s = take a s ++ take b (drop a s).
Proof.
  revert s. induction a as [|a IH]; intro s; [now rewrite drop_0|].
  destruct s as [|c s]; cbn [take drop plus append].
  - now destruct b.
  - now rewrite IH.
Qed.

Lemma all_chars_app (p : ascii -> bool) (a b : string) :
  all_chars p (a ++ b) = all_chars p a && all_chars p b.
Proof.
  induction a as [|c a IH]; cbn [append all_chars]; [reflexivity|].
  now rewrite IH, andb_assoc.
Qed.

Lemma last_char (s : string) :
  s <> "" -> exists init x, s = init ++ String x "".
Proof.
  induction s as [|c s IH]; intro H; [contradiction|].
  destruct s as [|d s].
  - exists "", c. reflexivity.
  - destruct IH as (init & x & E); [discriminate|].
    exists (String c init), x. cbn [append]. now rewrite E.
Qed.

Lemma exactly_split (ok : ascii -> bool) (k : string -> option nat) :
  forall n s r,
    Re.exactly n ok k s = Some r ->
    (n <= r)%nat /\ (n <= String.length s)%nat
    /\ k (drop n s) = Some (r - n)%nat
    /\ all_chars ok (take n s) = true.
Proof.
  induction n as [|n IH]; intros s r H; cbn [Re.exactly] in H.
  - rewrite drop_0, Nat.sub_0_r. repeat split; [lia | lia | exact H].
  - destruct s as [|c s]; [discriminate|].
    destruct (ok c) eqn:Hc; [|discriminate].
    destruct (Re.exactly n ok k s) as [r'|] eqn:E; [|discriminate].
    injection H as <-. destruct (IH s r' E) as (H1 & H2 & H3 & H4).
    cbn [drop take all_chars String.length]. rewrite Hc, H4.
    repeat split; try lia. exact H3.
Qed.

Lemma greedy_split (ok : ascii -> bool) (k : string -> option nat) :
  forall s r,
    Re.greedy ok k s = Some r ->
    exists m,
      (m <= r)%nat /\ (m <= String.length s)%nat
      /\ k (drop m s) = Some (r - m)%nat
      /\ all_chars ok (take m s) = true.
Proof.
  assert (Hzero : forall s r, k s = Some r ->
                  exists m, (m <= r)%nat /\ (m <= String.length s)%nat
                            /\ k (drop m s) = Some (r - m)%nat
                            /\ all_chars ok (take m s) = true).
  { intros s r H. exists 0%nat. rewrite drop_0, Nat.sub_0_r.
    repeat split; try lia. exact H. }
  induction s as [|c s IH]; intros r H; cbn [Re.greedy] in H;
    [now apply Hzero|].
  destruct (ok c) eqn:Hc; [|now apply Hzero].
  destruct (Re.greedy ok k s) as [r'|] eqn:E; [|now apply Hzero].
  injection H as <-. destruct (IH r' eq_refl) as (m & H1 & H2 & H3 & H4).
  exists (S m). cbn [drop take all_chars String.length]. rewrite Hc, H4.
  repeat split; try lia. exact H3.
Qed.

Lemma optional_split (ok : ascii -> bool) (k : string -> option nat)
  (s : string) (r : nat) :
  optional ok k s = Some r ->
  exists m,
    (m <= r)%nat /\ (m <= String.length s)%nat
    /\ k (drop m s) = Some (r - m)%nat.
Proof.
  assert (Hzero : k s = Some r ->
                  exists m, (m <= r)%nat /\ (m <= String.length s)%nat
                            /\ k (drop m s) = Some (r - m)%nat).
  { intro H. exists 0%nat. rewrite drop_0, Nat.sub_0_r.
    repeat split; try lia. exact H. }
  unfold optional. destruct s as [|c s]; [exact Hzero|].
  destruct (ok c); [|exact Hzero].
  destruct (k s) as [r'|] eqn:E; [|exact Hzero].
  intros [= <-]. exists 1%nat. cbn [drop String.length].
  replace (S r' - 1)%nat with r' by lia. repeat split; try lia. exact E.
Qed.

(** A match of a pattern ends with a match of the end of the
    pattern. *)
Lemma match_here_app (ignorecase : bool) (r1 r2 : pattern) :
  forall s n,
    match_here ignorecase (r1 ++ r2)%list s = Some n ->
    exists n1,
      (n1 <= n)%nat /\ (n1 <= String.length s)%nat
      /\ match_here ignorecase r2 (drop n1 s) = Some (n - n1)%nat.
Proof.
  induction r1 as [|[a [| |k]|a] r1 IH]; intros s n H;
    cbn [app match_here] in H.
  - exists 0%nat. rewrite drop_0, Nat.sub_0_r. repeat split; try lia. exact H.
  - apply exactly_split in H as (H1 & H2 & H3 & _).
    apply IH in H3 as (n1 & G1 & G2 & G3).
    rewrite length_drop in G2. rewrite drop_drop in G3.
    exists (1 + n1)%nat. repeat split; try lia.
    now replace (n - (1 + n1))%nat with (n - 1 - n1)%nat by lia.
  - apply greedy_split in H as (m & H1 & H2 & H3 & _).
    apply IH in H3 as (n1 & G1 & G2 & G3).
    rewrite length_drop in G2. rewrite drop_drop in G3.
    exists (m + n1)%nat. repeat split; try lia.
    now replace (n - (m + n1))%nat with (n - m - n1)%nat by lia.
  - apply exactly_split in H as (H1 & H2 & H3 & _).
    apply greedy_split in H3 as (m & F1 & F2 & F3 & _).
    apply IH in F3 as (n1 & G1 & G2 & G3).
    rewrite !length_drop in *. rewrite !drop_drop in G3.
    exists (k + (m + n1))%nat. repeat split; try lia.
    now replace (n - (k + (m + n1)))%nat with (n - k - m - n1)%nat by lia.
  - apply optional_split in H as (m & H1 & H2 & H3).
    apply IH in H3 as (n1 & G1 & G2 & G3).
    rewrite length_drop in G2. rewrite drop_drop in G3.
    exists (m + n1)%nat. repeat split; try lia.
    now replace (n - (m + n1))%nat with (n - m - n1)%nat by lia.
Qed.

Lemma not_quote_char (ignorecase : bool) (x : ascii) :
  Re.atom_matches ignorecase not_quote x = true ->
  x <> dquote /\ x <> squote.
Proof.
  intro H. split; intros ->; destruct ignorecase; discriminate H.
Qed.

(** The text of a match of the quoted literal: it ends with a
    character that is no quote and the closing quote. *)
Lemma quoted_literal_end (ignorecase : bool) (t : string) (n : nat) :
  match_here ignorecase quoted_literal t = Some n ->
  (2 <= n <= String.length t)%nat
  /\ exists init x y,
      take n t = init ++ String x (String y "")
      /\ x <> dquote /\ x <> squote.
Proof.
  intro H. unfold quoted_literal in H. cbn [match_here] in H.
  apply exactly_split in H as (H1 & H2 & H3 & _).
  apply exactly_split in H3 as (F1 & F2 & F3 & F4).
  apply greedy_split in F3 as (m & G1 & G2 & G3 & G4).
  apply exactly_split in G3 as (K1 & K2 & K3 & _).
  rewrite !length_drop in *. rewrite !drop_drop in *.
  injection K3 as K3. split; [lia|].
  assert (Hn : n = (1 + (1 + m) + 1)%nat) by lia.
  assert (Hbody : all_chars (Re.atom_matches ignorecase not_quote)
                    (take (1 + m) (drop 1 t)) = true)
    by (rewrite take_add, all_chars_app, F4, drop_drop, G4; reflexivity).
  destruct (last_char (take (1 + m) (drop 1 t))) as (init & x & E).
  { destruct (drop 1 t) as [|c u] eqn:Eu; [|discriminate].
    apply (f_equal String.length) in Eu. rewrite length_drop in Eu.
    simpl in Eu. lia. }
  rewrite E, all_chars_app in Hbody. apply andb_prop in Hbody as [_ Hx].
  cbn [all_chars] in Hx. rewrite andb_true_r in Hx.
  destruct (drop (1 + (1 + m)) t) as [|y rest] eqn:Ey;
    [apply (f_equal String.length) in Ey; rewrite length_drop in Ey;
     simpl in Ey; lia|].
  exists (take 1 t ++ init), x, y. split; [|now apply not_quote_char in Hx].
  rewrite Hn, (take_add (1 + (1 + m)) 1), (take_add 1 (1 + m)), E, Ey.
  cbn [take]. now rewrite !PythonProps.append_assoc.
Qed.

Lemma finditer_spans (ignorecase : bool) (r : pattern) :
  forall s pos skip a b,
    In (a, b) (finditer_from ignorecase r s pos skip) ->
    exists n,
      b = (a + n)%nat /\ (pos <= a)%nat
      /\ match_here ignorecase r (drop (a - pos) s) = Some n.
Proof.
  induction s as [|c s IH]; intros pos skip a b H; cbn [finditer_from] in H.
  - destruct skip; [|contradiction].
    destruct (match_here ignorecase r "") as [n|] eqn:E; [|contradiction].
    destruct H as [[= <- <-]|[]]. exists n. rewrite Nat.sub_diag.
    repeat split; [lia | exact E].
  - assert (Hnext : forall k,
               In (a, b) (finditer_from ignorecase r s (S pos) k) ->
               exists n, b = (a + n)%nat /\ (pos <= a)%nat
                         /\ match_here ignorecase r
                              (drop (a - pos) (String c s)) = Some n).
    { intros k Hk. destruct (IH _ _ _ _ Hk) as (n & H1 & H2 & H3).
      exists n. repeat split; [exact H1 | lia|].
      replace (a - pos)%nat with (S (a - S pos)) by lia. exact H3. }
    destruct skip as [|k]; [|now apply (Hnext k)].
    destruct (match_here ignorecase r (String c s)) as [n|] eqn:E;
      [|now apply (Hnext 0%nat)].
    destruct H as [[= <- <-]|H]; [|now apply (Hnext (n - 1)%nat)].
    exists n. rewrite Nat.sub_diag. repeat split; [lia | exact E].
Qed.

Lemma slice_span (code : string) (a n : nat) :
  (a + n <= String.length code)%nat ->
  slice code (Z.of_nat a) (Z.of_nat (a + n)) = take n (drop a code).
Proof.
  intro H. unfold slice, slice_bound, len.
  repeat match goal with
         | |- context [?x <? ?y] => destruct (Z.ltb_spec x y); try lia
         end.
  match goal with
  | |- take (Z.to_nat ?x) (drop (Z.to_nat ?y) _) = _ =>
      replace (Z.to_nat y) with a by lia;
      replace (Z.to_nat x) with n by lia
  end.
  reflexivity.
Qed.

Lemma endswith_other (g : string) (x y d e : ascii) :
  x <> d -> endswith (g ++ String x (String y "")) (String d (String e ""))
            = false.
Proof.
  intro H. unfold endswith. apply andb_false_iff. right.
  replace (len (g ++ String x (String y "")) - len (String d (String e "")))
    with (len g)
    by (unfold len; rewrite length_append; cbn [String.length]; lia).
  rewrite slice_from_append. cbn [String.eqb].
  destruct (Ascii.eqb_spec x d); [contradiction | reflexivity].
Qed.

(** Each credential pattern ends with the quoted literal. *)
Lemma credential_pattern_end (pm : pattern * string) :
  In pm credential_patterns ->
  exists before, fst pm = (before ++ quoted_literal)%list.
Proof.
  intro H. unfold credential_patterns in H. cbn [In] in H.
  destruct H as [<-|[<-|[<-|[<-|[]]]]]; cbn [fst].
  - exists (lit "password"
            ++ [Piece Re.space Re.Star; Piece (Re.Lit "=") Re.One;
                Piece Re.space Re.Star])%list. reflexivity.
  - exists (lit "api"
            ++ [Maybe (Re.Bracket false [Re.IChar "_"; Re.IChar "-"])]
            ++ lit "key"
            ++ [Piece Re.space Re.Star; Piece (Re.Lit "=") Re.One;
                Piece Re.space Re.Star])%list. reflexivity.
  - exists (lit "secret"
            ++ [Piece Re.space Re.Star; Piece (Re.Lit "=") Re.One;
                Piece Re.space Re.Star])%list. reflexivity.
  - exists (lit "token"
            ++ [Piece Re.space Re.Star; Piece (Re.Lit "=") Re.One;
                Piece Re.space Re.Star])%list. reflexivity.
Qed.

(** X20: the exemption for an empty default never applies: the text of a
    match of a credential pattern ends with a character that is no
    quote and the closing quote, so it ends neither with two double
    quotes nor with two single quotes, and every match that has no
    environment lookup within 50 characters is reported. *)
Theorem empty_default_never_exempt (code : string) (pm : pattern * string)
  (m : nat * nat) :
  In pm credential_patterns ->
  In m (finditer true (fst pm) code) ->
  endswith (group code m) (String dquote (String dquote "")) = false
  /\ endswith (group code m) "''" = false
  /\ forall strict st,
      check_match code (snd pm) strict st m = st
      \/ check_match code (snd pm) strict st m
         = mkState
             (st_issues st
                ++ [mkIssue (if strict then "error" else "warning")
                      "security" (snd pm) None])
             (score st - 0.2).
Proof.
  intros Hpm Hm. destruct m as [a b].
  destruct (credential_pattern_end pm Hpm) as [before Hend].
  unfold finditer in Hm.
  apply finditer_spans in Hm as (n & -> & _ & Hmatch).
  rewrite Nat.sub_0_r, Hend in Hmatch.
  apply match_here_app in Hmatch as (n1 & H1 & H2 & Htail).
  apply quoted_literal_end in Htail as ([H0 H3] & init & x & y & E & Hd & Hs).
  rewrite length_drop in H2, H3. rewrite length_drop in H3.
  assert (Hgroup : group code (a, (a + n)%nat)
                   = (take n1 (drop a code) ++ init)
                       ++ String x (String y "")).
  { unfold group. cbn [fst snd]. rewrite slice_span by lia.
    replace n with (n1 + (n - n1))%nat at 1 by lia.
    now rewrite take_add, E, PythonProps.append_assoc. }
  assert (E1 : endswith (group code (a, (a + n)%nat))
                 (String dquote (String dquote "")) = false)
    by (rewrite Hgroup; now apply endswith_other).
  assert (E2 : endswith (group code (a, (a + n)%nat)) "''" = false)
    by (rewrite Hgroup; now apply endswith_other).
  split; [exact E1|]. split; [exact E2|].
  intros strict st. unfold check_match. unfold group in E1, E2.
  cbn [fst snd] in E1, E2. rewrite E1, E2. cbn [orb].
  destruct (_ || _); [now left | now right].
Qed.

(** ** Strict mode against the other mode *)

Lemma relaxed_refl (l : list ValidationIssue) : Forall2 relaxed l l.
Proof. induction l; constructor; [now left | assumption]. Qed.

Lemma relaxed_snoc (l1 l2 : list ValidationIssue) (i1 i2 : ValidationIssue) :
  Forall2 relaxed l1 l2 -> relaxed i1 i2 ->
  Forall2 relaxed (l1 ++ [i1]) (l2 ++ [i2]).
Proof. intros Hl Hi. apply Forall2_app; [exact Hl | now constructor]. Qed.

Lemma relaxed_app (l1 l2 extra : list ValidationIssue) :
  Forall2 relaxed l1 l2 -> Forall2 relaxed (l1 ++ extra) (l2 ++ extra).
Proof. intro Hl. apply Forall2_app; [exact Hl | apply relaxed_refl]. Qed.

(** The states of the two modes go together: the same score, and
    issues that differ in the severity of credential issues only. *)
Lemma check_match_paired (code message : string) (st1 st2 : state)
  (m : nat * nat) :
  is_credential_issue (mkIssue "error" "security" message None) = true ->
  score st1 = score st2 ->
  Forall2 relaxed (st_issues st1) (st_issues st2) ->
  score (check_match code message true st1 m)
  = score (check_match code message false st2 m)
  /\ Forall2 relaxed (st_issues (check_match code message true st1 m))
                     (st_issues (check_match code message false st2 m)).
Proof.
  intros Hm Hs Hi. unfold check_match. destruct m as [m_start m_end].
  destruct (_ || _); [now split|]. destruct (_ || _); [now split|].
  cbn [score st_issues]. split; [now rewrite Hs|].
  apply relaxed_snoc; [exact Hi|]. right. exists message. auto.
Qed.

Lemma credential_patterns_paired (code : string)
  (l : list (pattern * string)) :
  Forall (fun pm => is_credential_issue
                      (mkIssue "error" "security" (snd pm) None) = true) l ->
  forall st1 st2,
    score st1 = score st2 ->
    Forall2 relaxed (st_issues st1) (st_issues st2) ->
    score (fold_left (check_credential_pattern code true) l st1)
    = score (fold_left (check_credential_pattern code false) l st2)
    /\ Forall2 relaxed
         (st_issues (fold_left (check_credential_pattern code true) l st1))
         (st_issues (fold_left (check_credential_pattern code false) l st2)).
Proof.
  induction 1 as [|[pattern message] l Hpm _ IH]; intros st1 st2 Hs Hi;
    cbn [fold_left]; [now split|].
  apply IH; cbn [check_credential_pattern snd] in *.
  - generalize (finditer true pattern code) as ms. intro ms.
    revert st1 st2 Hs Hi. induction ms as [|m ms IHm]; intros st1 st2 Hs Hi;
      cbn [fold_left]; [exact Hs|].
    destruct (check_match_paired code message st1 st2 m Hpm Hs Hi).
    now apply IHm.
  - generalize (finditer true pattern code) as ms. intro ms.
    revert st1 st2 Hs Hi. induction ms as [|m ms IHm]; intros st1 st2 Hs Hi;
      cbn [fold_left]; [exact Hi|].
    destruct (check_match_paired code message st1 st2 m Hpm Hs Hi).
    now apply IHm.
Qed.

Lemma later_checks_paired (code : string) (st1 st2 : state) :
  score st1 = score st2 ->
  Forall2 relaxed (st_issues st1) (st_issues st2) ->
  score (fold_left (check_dangerous_pattern code) dangerous_patterns
           (check_env_usage code st1))
  = score (fold_left (check_dangerous_pattern code) dangerous_patterns
             (check_env_usage code st2))
  /\ Forall2 relaxed
       (st_issues (fold_left (check_dangerous_pattern code)
                     dangerous_patterns (check_env_usage code st1)))
       (st_issues (fold_left (check_dangerous_pattern code)
                     dangerous_patterns (check_env_usage code st2))).
Proof.
  intros Hs Hi. unfold dangerous_patterns, check_env_usage,
    check_dangerous_pattern. cbn [fold_left].
  repeat match goal with
         | |- context [if ?b then _ else _] => destruct b
         end;
    cbn [score st_issues]; rewrite ?Hs; (split; [reflexivity|]);
    repeat apply relaxed_snoc; try exact Hi; now left.
Qed.

Lemma security_paired (code : string) (issues : list ValidationIssue) :
  snd (_validate_security code issues true)
  = snd (_validate_security code issues false)
  /\ Forall2 relaxed (fst (_validate_security code issues true))
                     (fst (_validate_security code issues false)).
Proof.
  unfold _validate_security. cbn [fst snd].
  assert (Hall : Forall (fun pm => is_credential_issue
                                     (mkIssue "error" "security" (snd pm) None)
                                   = true) credential_patterns)
    by (repeat constructor).
  destruct (credential_patterns_paired code credential_patterns Hall
              (mkState issues 1.0) (mkState issues 1.0) eq_refl
              (relaxed_refl _)) as [Hs Hi].
  destruct (later_checks_paired code _ _ Hs Hi) as [Hs' Hi'].
  split; [now rewrite Hs' | exact Hi'].
Qed.

Lemma relaxed_findings (l1 l2 : list ValidationIssue) :
  Forall2 relaxed l1 l2 ->
  same_findings l1 l2
  /\ (filter is_error l1 = [] -> filter is_error l2 = []).
Proof.
  unfold same_findings.
  induction 1 as [|i1 i2 l1 l2 Hi Hl [IHs IHe]]; [split; auto|]. split.
  - constructor; [|exact IHs].
    destruct Hi as [->|(message & Hc & -> & ->)]; [auto|].
    repeat split. intro H. rewrite Hc in H. discriminate H.
  - cbn [filter]. destruct Hi as [->|(message & Hc & -> & ->)].
    + destruct (is_error i1); [discriminate | exact IHe].
    + discriminate.
Qed.

(** ** At most one credential in a valid script *)

Lemma filter_snoc {A : Type} (p : A -> bool) (l : list A) (x : A) :
  filter p (l ++ [x]) = (filter p l ++ if p x then [x] else [])%list.
Proof. rewrite filter_app. cbn [filter]. now destruct (p x). Qed.

Lemma charged_report (st : state) (i : ValidationIssue) (d : Q) :
  (0 <= d)%Q ->
  (is_credential_issue i = true -> (0.2 <= d)%Q) ->
  charged st -> charged (mkState (st_issues st ++ [i]) (score st - d)).
Proof.
  unfold charged. intros Hd Hc H. cbn [score st_issues].
  rewrite filter_snoc, length_app.
  destruct (is_credential_issue i); cbn [List.length].
  - specialize (Hc eq_refl).
    rewrite Nat2Z.inj_add, inject_Z_plus.
    change (inject_Z (Z.of_nat 1)) with 1%Q. lra.
  - rewrite Nat.add_0_r. lra.
Qed.

Lemma security_charged (code : string) (strict : bool) (st : state) :
  charged st ->
  charged
    (fold_left (check_dangerous_pattern code) dangerous_patterns
       (check_env_usage code
          (fold_left (check_credential_pattern code strict)
             credential_patterns st))).
Proof.
  intro H0.
  assert (H1 : charged (fold_left (check_credential_pattern code strict)
                          credential_patterns st)).
  { revert st H0. generalize credential_patterns as l.
    induction l as [|[pattern message] l IH]; intros st H0; cbn [fold_left];
      [exact H0|].
    apply IH. cbn [check_credential_pattern].
    generalize (finditer true pattern code) as ms. intro ms. revert st H0.
    induction ms as [|m ms IHm]; intros st H0; cbn [fold_left]; [exact H0|].
    apply IHm. unfold check_match. destruct m as [m_start m_end].
    destruct (_ || _); [exact H0|]. destruct (_ || _); [exact H0|].
    apply charged_report; [lra | intros _; lra | exact H0]. }
  set (st1 := fold_left (check_credential_pattern code strict)
                credential_patterns st) in *.
  assert (H2 : charged (check_env_usage code st1)).
  { unfold check_env_usage. destruct (_ || _); [exact H1|].
    apply charged_report; [lra | discriminate | exact H1]. }
  unfold dangerous_patterns, check_dangerous_pattern. cbn [fold_left].
  repeat match goal with
         | |- context [if ?b then _ else _] => destruct b
         end;
    repeat (apply charged_report; [lra | discriminate |]); exact H2.
Qed.

Lemma best_practices_no_credential (code : string)
  (issues : list ValidationIssue) :
  filter is_credential_issue (_validate_best_practices code issues)
  = filter is_credential_issue issues.
Proof.
  unfold _validate_best_practices.
  repeat match goal with
         | |- context [if ?b then _ else _] => destruct b
         end;
    rewrite ?filter_snoc; cbn [is_credential_issue message];
    rewrite ?app_nil_r; reflexivity.
Qed.

Section Validator.

Variable ast_parse : string -> outcome (list Ast.node).

Lemma syntax_run (script_code : string) (w : list event) :
  exists issues0 syntax_valid0,
    _validate_syntax ast_parse script_code [] w
    = (Returned (issues0, syntax_valid0), (w ++ [EvParse script_code])%list)
    /\ filter is_credential_issue issues0 = []
    /\ (forall e, ast_parse script_code = Raised e ->
                  syntax_valid0 = false
                  /\ exists i,
                      issues0 = [i] /\ severity i = "error"
                      /\ category i = "syntax").
Proof.
  unfold _validate_syntax, bind, emit, ret.
  destruct (ast_parse script_code) as [body|e].
  - do 2 eexists. split; [reflexivity|]. split; [reflexivity | discriminate].
  - destruct e; do 2 eexists; (split; [reflexivity|]);
      (split; [reflexivity|]); intros e' _; (split; [reflexivity|]);
      eexists; (split; [reflexivity|]); split; reflexivity.
Qed.

Lemma validate_script_run (script_code : string) (w : list event) :
  exists issues0 syntax_valid0,
    filter is_credential_issue issues0 = []
    /\ (forall e, ast_parse script_code = Raised e ->
                  syntax_valid0 = false
                  /\ exists i,
                      issues0 = [i] /\ severity i = "error"
                      /\ category i = "syntax")
    /\ forall strict_mode,
        exists r,
          validate_script ast_parse script_code strict_mode w
          = (Returned r, (w ++ [EvParse script_code])%list)
          /\ syntax_valid r = syntax_valid0
          /\ issues r
             = _validate_best_practices script_code
                 (fst (_validate_security script_code issues0 strict_mode))
          /\ security_score r
             = snd (_validate_security script_code issues0 strict_mode)
          /\ estimated_memory_mb r = fst (_estimate_resources script_code)
          /\ estimated_cpu_cores r = snd (_estimate_resources script_code)
          /\ is_valid r
             = syntax_valid0
               && (Z.of_nat (List.length (filter is_error (issues r))) =? 0)
               && Qle_bool 0.8 (security_score r).
Proof.
  destruct (syntax_run script_code w)
    as (issues0 & syntax_valid0 & Hrun & Hnone & Hbad).
  exists issues0, syntax_valid0. split; [exact Hnone|]. split; [exact Hbad|].
  intro strict_mode. unfold validate_script, bind at 1. rewrite Hrun.
  destruct (_validate_security script_code issues0 strict_mode),
    (_estimate_resources script_code).
  eexists. split; [reflexivity|]. repeat split.
Qed.

(** X21: the flag [strict_mode] decides the severity of the credential
    issues and nothing else: the two modes give the same issues up to
    that severity, the same security score and the same estimates, and
    a script that is valid in strict mode is valid in the other mode
    too. *)
Theorem strict_mode_changes_severity_only (script_code : string)
  (w : list event) :
  exists strict relaxed_result,
    fst (validate_script ast_parse script_code true w) = Returned strict
    /\ fst (validate_script ast_parse script_code false w)
       = Returned relaxed_result
    /\ same_findings (issues strict) (issues relaxed_result)
    /\ security_score strict = security_score relaxed_result
    /\ syntax_valid strict = syntax_valid relaxed_result
    /\ estimated_memory_mb strict = estimated_memory_mb relaxed_result
    /\ estimated_cpu_cores strict = estimated_cpu_cores relaxed_result
    /\ (is_valid strict = true -> is_valid relaxed_result = true).
Proof.
  destruct (validate_script_run script_code w)
    as (issues0 & syntax_valid0 & _ & _ & Hrun).
  destruct (Hrun true) as (r1 & -> & Hv1 & Hi1 & Hs1 & Hm1 & Hc1 & Hok1).
  destruct (Hrun false) as (r2 & -> & Hv2 & Hi2 & Hs2 & Hm2 & Hc2 & Hok2).
  exists r1, r2. cbn [fst]. split; [reflexivity|]. split; [reflexivity|].
  destruct (security_paired script_code issues0) as [Hscore Hissues].
  destruct (best_practices_appends script_code
              (fst (_validate_security script_code issues0 true)))
    as [extra He1].
  assert (He2 : _validate_best_practices script_code
                  (fst (_validate_security script_code issues0 false))
                = (fst (_validate_security script_code issues0 false)
                     ++ extra)%list).
  { revert He1. unfold _validate_best_practices.
    repeat match goal with
           | |- context [if ?b then _ else _] => destruct b
           end;
      rewrite <- ?app_assoc; intro H;
      first [apply app_inv_head in H; subst extra; reflexivity
            | rewrite <- (app_nil_r (fst _)) in H at 1;
              apply app_inv_head in H; subst extra;
              now rewrite app_nil_r]. }
  pose proof (relaxed_app _ _ extra Hissues) as Hall.
  rewrite <- He1, <- He2, <- Hi1, <- Hi2 in Hall.
  destruct (relaxed_findings _ _ Hall) as [Hsame Herr].
  split; [exact Hsame|]. split; [congruence|]. split; [congruence|].
  split; [congruence|]. split; [congruence|].
  rewrite Hok1, Hok2. intro H.
  apply andb_prop in H as [H Hq]. apply andb_prop in H as [Hv He].
  rewrite <- Hs2, <- Hscore, Hs1 in *. rewrite Hq, Hv. cbn [andb].
  rewrite andb_true_r. apply Z.eqb_eq. apply Z.eqb_eq in He.
  rewrite Herr; [reflexivity|].
  destruct (filter is_error (issues r1)); [reflexivity | simpl in He; lia].
Qed.

(** X22: a valid script has at most one credential issue: each one costs
    0.2 of the score, in both modes, and a valid script has a score of
    0.8 or more. *)
Theorem valid_script_credentials (script_code : string) (strict_mode : bool)
  (w : list event) (r : ValidationResult) :
  fst (validate_script ast_parse script_code strict_mode w) = Returned r ->
  is_valid r = true ->
  (List.length (filter is_credential_issue (issues r)) <= 1)%nat.
Proof.
  destruct (validate_script_run script_code w)
    as (issues0 & syntax_valid0 & Hnone & _ & Hrun).
  destruct (Hrun strict_mode) as (r' & -> & _ & Hi & Hs & _ & _ & Hok).
  cbn [fst]. intros [= <-] Hvalid. rewrite Hok in Hvalid.
  apply andb_prop in Hvalid as [_ Hq]. apply Qle_bool_iff in Hq.
  rewrite Hi, best_practices_no_credential.
  assert (H0 : charged (mkState issues0 1.0)).
  { unfold charged. cbn [score st_issues]. rewrite Hnone.
    cbn [List.length Z.of_nat]. change (inject_Z 0) with 0%Q. lra. }
  pose proof (security_charged script_code strict_mode _ H0) as Hc.
  unfold charged in Hc. rewrite Hs in Hq. unfold _validate_security in *.
  cbn [fst snd] in *.
  set (st := fold_left _ dangerous_patterns _) in *.
  set (c := List.length (filter is_credential_issue (st_issues st))) in *.
  assert (Hscore : (0.8 <= score st)%Q).
  { destruct (Q.max_spec 0.0 (score st)) as [[_ E]|[_ E]];
      rewrite E in Hq; lra. }
  assert (Hq1 : (inject_Z (Z.of_nat c) <= inject_Z 1)%Q)
    by (change (inject_Z 1) with 1%Q; lra).
  rewrite <- Zle_Qle in Hq1. lia.
Qed.

(** X23: [validate_script] returns a result for every text, also for one
    that does not parse: the security score is between 0 and 1, a valid
    result has a text that parses, no error and a score of 0.8 or
    more, and a text that does not parse gets a result that is not
    valid and whose first issue is the syntax error. *)
Theorem validate_script_total (script_code : string) (strict_mode : bool)
  (w : list event) :
  exists r,
    validate_script ast_parse script_code strict_mode w
    = (Returned r, (w ++ [EvParse script_code])%list)
    /\ (0 <= security_score r)%Q /\ (security_score r <= 1)%Q
    /\ (is_valid r = true ->
        syntax_valid r = true
        /\ filter is_error (issues r) = []
        /\ (0.8 <= security_score r)%Q)
    /\ (forall e, ast_parse script_code = Raised e ->
                  is_valid r = false
                  /\ syntax_valid r = false
                  /\ exists i rest,
                      issues r = i :: rest
                      /\ severity i = "error" /\ category i = "syntax").
Proof.
  unfold validate_script, _validate_syntax, bind, emit, ret.
  set (checked :=
         match ast_parse script_code with
         | Returned _ => _ | Raised _ => _ end).
  assert (Hc : exists issues0 syntax_valid0,
             checked (w ++ [EvParse script_code])%list
             = (Returned (issues0, syntax_valid0),
                (w ++ [EvParse script_code])%list)
             /\ (forall e, ast_parse script_code = Raised e ->
                           syntax_valid0 = false
                           /\ exists i,
                               issues0 = [i] /\ severity i = "error"
                               /\ category i = "syntax")).
  { unfold checked. destruct (ast_parse script_code) as [body|e].
    - do 2 eexists. split; [reflexivity | discriminate].
    - destruct e; do 2 eexists; (split; [reflexivity|]);
        intros e' _; (split; [reflexivity|]); eexists;
        (split; [reflexivity|]); split; reflexivity. }
  destruct Hc as (issues0 & syntax_valid0 & Hrun & Hbad). rewrite Hrun.
  unfold _validate_security, _estimate_resources.
  pose proof (security_advances script_code strict_mode
                (mkState issues0 1.0)) as [[extra Hextra] Hscore].
  set (st := fold_left _ dangerous_patterns _) in *.
  cbn [st_issues score] in Hextra, Hscore.
  destruct (best_practices_appends script_code (st_issues st))
    as [extra' Hextra'].
  eexists. split; [reflexivity|].
  cbn [security_score is_valid syntax_valid issues].
  split; [eapply Qle_trans; [|apply Q.le_max_l]; lra|].
  split; [apply Q.max_lub; lra|]. split.
  - intro H. apply andb_prop in H as [H Hs]. apply andb_prop in H as [Hv He].
    split; [exact Hv|]. split.
    + apply Z.eqb_eq in He.
      destruct (filter is_error _); [reflexivity | simpl in He; lia].
    + now apply Qle_bool_iff.
  - intros e He. destruct (Hbad e He) as (-> & i & -> & Hsev & Hcat).
    split; [reflexivity|]. split; [reflexivity|].
    exists i, (extra ++ extra')%list.
    rewrite Hextra', Hextra. split; [reflexivity | split; assumption].
Qed.

End Validator.

(** ** The properties at the sample inputs *)

Lemma valid_script_credentials_witness :
  exists r,
    fst (validate_script MoreSamples.script_parser
           MoreSamples.script_with_token false [])
    = Returned r
    /\ is_valid r = true
    /\ security_score r == 0.8
    /\ (List.length (filter is_credential_issue (issues r)) <= 1)%nat.
Proof.
  eexists. split; [vm_compute; reflexivity|].
  split; [reflexivity|]. split; [reflexivity|].
  eapply (valid_script_credentials MoreSamples.script_parser
            MoreSamples.script_with_token false []).
  - vm_compute. reflexivity.
  - reflexivity.
Defined.

Lemma empty_default_never_exempt_witness :
  In (190, 206)%nat
     (finditer true
        (lit "token" ++ assigned_literal)%list MoreSamples.script_with_token)
  /\ endswith (group MoreSamples.script_with_token (190, 206)%nat)
       (String dquote (String dquote "")) = false
  /\ endswith (group MoreSamples.script_with_token (190, 206)%nat) "''" = false
  /\ forall strict st,
      check_match MoreSamples.script_with_token "Potential hardcoded token"
        strict st (190, 206)%nat
      = st
      \/ check_match MoreSamples.script_with_token
           "Potential hardcoded token" strict st (190, 206)%nat
         = mkState
             (st_issues st
                ++ [mkIssue (if strict then "error" else "warning")
                      "security" "Potential hardcoded token" None])
             (score st - 0.2).
Proof.
  assert (H : In (190, 206)%nat
                (finditer true (lit "token" ++ assigned_literal)%list
                   MoreSamples.script_with_token))
    by (vm_compute; tauto).
  split; [exact H|].
  apply (empty_default_never_exempt MoreSamples.script_with_token
           ((lit "token" ++ assigned_literal)%list,
            "Potential hardcoded token")
           (190, 206)%nat); [simpl; tauto | exact H].
Defined.

End ScriptValidatorProps.

(* ===================================================================== *)
(** * Code in several files                                               *)
(* ===================================================================== *)

Module MultiFileProps.
Import Python Yaml GenerateAgentCode MultiFile PythonProps RetryProps.

Lemma append_inj (a x y : string) : a ++ x = a ++ y -> x = y.
Proof.
  induction a as [|c a IH]; cbn [append]; [auto|].
  intros [= H]. auto.
Qed.

Lemma length_dict_set {V : Type} (d : list (string * V)) (k : string) (v : V) :
  (List.length (CodeValidator.dict_set d k v) <= S (List.length d))%nat.
Proof.
  induction d as [|[k' v'] d IH]; cbn [CodeValidator.dict_set List.length];
    [lia|].
  destruct (String.eqb k k'); cbn [List.length]; lia.
Qed.

Section MultiFile.

Variable yaml_safe_load : string -> outcome value.
Variable llm : nat -> string -> string -> outcome string.
Variable repr : value -> string.

(** Whatever happens in it, [generate_agent_code] calls the LLM client
    once at most. *)
Lemma generate_shape (yaml_specification style_guide
                        additional_instructions : string) (w : list event) :
  exists o w',
    generate_agent_code yaml_safe_load llm yaml_specification style_guide
      additional_instructions w
    = (o, (w ++ w')%list)
    /\ (generate_calls w' <= 1)%nat.
Proof.
  unfold generate_agent_code, try_except, bind, lift, llm_generate, ret, raise.
  assert (Hnil : forall o : outcome Result,
             exists o' w', (o, w) = (o', (w ++ w')%list)
                           /\ (generate_calls w' <= 1)%nat).
  { intro o. exists o, []. rewrite app_nil_r. split; [reflexivity|]. cbn. lia. }
  destruct (yaml_safe_load yaml_specification) as [spec|e];
    [|destruct e; apply Hnil].
  unfold spec_get. destruct spec; try apply Hnil.
  destruct (lookup items "agent_name"), (lookup items "agent_type"),
    (lookup items "complexity"); cbn beta iota;
    destruct (llm _ _ _); do 2 eexists; split; try reflexivity; cbn; lia.
Qed.

Section Components.

Variables (name main_code : string).

Let main_file : string := ScriptValidator.str_lower name ++ ".py".

(** The loop over the components keeps the main file as it is. *)
Lemma generate_component_keeps (component : value)
  (files : list (string * string)) (w : list event) :
  CodeValidator.dict_get files main_file = Some main_code ->
  exists files' w',
    generate_component yaml_safe_load llm repr (YStr name) files component w
    = (Returned files', (w ++ w')%list)
    /\ CodeValidator.dict_get files' main_file = Some main_code
    /\ (List.length files' <= S (List.length files))%nat
    /\ (generate_calls w' <= 1)%nat.
Proof.
  intro Hmain. unfold generate_component, try_except, bind at 1.
  destruct (generate_shape (component_spec repr component (YStr name))
              "pep8" "" w) as (o & w' & -> & Hcalls).
  assert (Hskip : exists files' w'0,
             (Returned files, (w ++ w')%list)
             = (Returned files', (w ++ w'0)%list)
             /\ CodeValidator.dict_get files' main_file = Some main_code
             /\ (List.length files' <= S (List.length files))%nat
             /\ (generate_calls w'0 <= 1)%nat).
  { exists files, w'. repeat split; [exact Hmain | lia | exact Hcalls]. }
  destruct o as [component_result|e]; [|exact Hskip].
  unfold bind, lift, ret. cbn [value_lower].
  destruct (value_lower component) as [lowered|e]; [|exact Hskip].
  do 2 eexists. split; [reflexivity|]. split; [|split].
  - rewrite PolicyProps.dict_get_set.
    destruct (String.eqb_spec main_file
                (SpecTool.str_of_value repr
                   (YStr (ScriptValidator.str_lower name))
                   ++ "_" ++ SpecTool.str_of_value repr lowered ++ ".py"))
      as [E|_]; [|exact Hmain].
    unfold main_file in E. cbn [SpecTool.str_of_value] in E.
    apply append_inj in E. discriminate E.
  - apply length_dict_set.
  - exact Hcalls.
Qed.

Lemma generate_components_keep (components : list value) :
  forall files w,
    CodeValidator.dict_get files main_file = Some main_code ->
    exists files' w',
      generate_components yaml_safe_load llm repr (YStr name) components
        files w
      = (Returned files', (w ++ w')%list)
      /\ CodeValidator.dict_get files' main_file = Some main_code
      /\ (List.length files'
          <= List.length files + List.length components)%nat
      /\ (generate_calls w' <= List.length components)%nat.
Proof.
  induction components as [|component rest IH]; intros files w Hmain;
    cbn [generate_components].
  - exists files, []. rewrite app_nil_r.
    repeat split; [exact Hmain | cbn; lia | cbn; lia].
  - unfold bind at 1.
    destruct (generate_component_keeps component files w Hmain)
      as (files1 & w1 & -> & Hmain1 & Hlen1 & Hcalls1).
    destruct (IH files1 (w ++ w1)%list Hmain1)
      as (files2 & w2 & -> & Hmain2 & Hlen2 & Hcalls2).
    exists files2, (w1 ++ w2)%list. rewrite app_assoc.
    split; [reflexivity|]. split; [exact Hmain2|].
    rewrite generate_calls_app. cbn [List.length]. split; lia.
Qed.

End Components.

(** X24: when the main file is generated, the components cannot make
    [generate_multi_file_code] fail: a component whose generation
    raises, or whose name is no string, is left out, and the result
    holds the main file with its code, at most one more file for each
    component, after at most one call of the LLM client for each
    file. *)
Theorem component_failures_skipped (yaml_specification name text : string)
  (items : list (value * value)) (components : list value)
  (w : list event) :
  yaml_safe_load yaml_specification = Returned (YDict items) ->
  lookup items "agent_name" = Some (YStr name) ->
  lookup items "internal_components" = Some (YList components) ->
  llm (generate_calls w) system_prompt (user_prompt yaml_specification "")
  = Returned text ->
  exists files w',
    generate_multi_file_code yaml_safe_load llm repr yaml_specification w
    = (Returned files, (w ++ w')%list)
    /\ CodeValidator.dict_get files (ScriptValidator.str_lower name ++ ".py")
       = Some (remove_code_fences text)
    /\ (1 <= List.length files <= 1 + List.length components)%nat
    /\ (1 <= generate_calls w' <= 1 + List.length components)%nat.
Proof.
  intros Hload Hname Hcomponents Hllm.
  unfold generate_multi_file_code, bind at 1, load_components, try_except,
    bind, lift, ret, spec_get.
  rewrite Hload, Hname, Hcomponents. cbn beta iota.
  pose proof (generate_answered yaml_safe_load llm yaml_specification "pep8"
                "" items w Hload text Hllm) as Hmain.
  assert (Hcode : code (result_for items text) = remove_code_fences text).
  { unfold result_for. destruct (details_of items) as [[? ?] ?]. reflexivity. }
  assert (Hone : generate_calls
                   [EvGenerate system_prompt
                      (user_prompt yaml_specification "")] = 1%nat)
    by reflexivity.
  destruct components as [|component rest]; cbn [truthy List.length Nat.eqb negb].
  - rewrite Hmain. unfold main_filename, bind, lift, ret. cbn [value_lower].
    do 2 eexists. split; [reflexivity|].
    cbn [SpecTool.str_of_value CodeValidator.dict_get List.length].
    rewrite String.eqb_refl, Hcode, Hone. repeat split; lia.
  - cbn [py_len]. rewrite Hmain. unfold main_filename, bind, lift, ret, iterate.
    cbn [value_lower SpecTool.str_of_value]. rewrite Hcode.
    destruct (generate_components_keep name (remove_code_fences text)
                (component :: rest)
                [(ScriptValidator.str_lower name ++ ".py",
                  remove_code_fences text)]
                (w ++ [EvGenerate system_prompt
                         (user_prompt yaml_specification "")])%list)
      as (files & w' & -> & Hfile & Hlen & Hcalls).
    { cbn [CodeValidator.dict_get]. now rewrite String.eqb_refl. }
    do 2 eexists. split; [rewrite <- app_assoc; reflexivity|].
    split; [exact Hfile|]. rewrite generate_calls_app, Hone.
    cbn [List.length] in *. split; [|lia]. split; [|lia].
    destruct files; [discriminate Hfile | cbn; lia].
Qed.

End MultiFile.

Lemma component_failures_skipped_witness :
  exists files w',
    generate_multi_file_code MoreSamples.component_loader
      MoreSamples.llm_answers_once MoreSamples.repr MoreSamples.components_text []
    = (Returned files, ([] ++ w')%list)
    /\ CodeValidator.dict_get files
         (ScriptValidator.str_lower "CalcAgent" ++ ".py")
       = Some (remove_code_fences Samples.good_code)
    /\ (1 <= List.length files <= 1 + List.length [YStr "Loader"; YInt 7])%nat
    /\ (1 <= generate_calls w'
        <= 1 + List.length [YStr "Loader"; YInt 7])%nat.
Proof.
  apply (component_failures_skipped MoreSamples.component_loader
           MoreSamples.llm_answers_once MoreSamples.repr
           MoreSamples.components_text "CalcAgent" Samples.good_code
           MoreSamples.components_spec [YStr "Loader"; YInt 7] []);
    reflexivity.
Defined.

End MultiFileProps.

(* ===================================================================== *)
(** * The structure check of a generated specification                    *)
(* ===================================================================== *)

Module SpecStructureProps.
Import Python Yaml SpecStructure.

Lemma py_in_names (cap : value) :
  py_in "name" cap = Returned true <-> names_itself cap = true.
Proof.
  destruct cap; cbn [py_in names_itself]; split; intro H;
    try discriminate H; try (injection H as H); try (now rewrite H);
    assumption.
Qed.

Lemma check_names_passes (capabilities : list value) :
  check_names capabilities = Returned tt
  <-> forallb names_itself capabilities = true.
Proof.
  induction capabilities as [|cap rest IH]; cbn [check_names forallb];
    [tauto|].
  rewrite andb_true_iff, <- IH, <- py_in_names.
  destruct (py_in "name" cap) as [[|]|e].
  - tauto.
  - split; [discriminate | intros [H _]; discriminate H].
  - split; [discriminate | intros [H _]; discriminate H].
Qed.

Lemma check_required_passes (items : list (value * value))
  (fields : list string) :
  check_required (YDict items) fields = Returned tt
  <-> forallb (SpecTool.has_key items) fields = true.
Proof.
  induction fields as [|field rest IH]; cbn [check_required forallb py_in];
    [tauto|].
  rewrite andb_true_iff, <- IH.
  destruct (SpecTool.has_key items field).
  - tauto.
  - split; [discriminate | intros [H _]; discriminate H].
Qed.

Section Structure.

Variable yaml_safe_load : string -> outcome value.

(** X25: on a document that is a dict the structure check never returns
    [False]: it returns [True] or raises.  It returns [True] exactly
    when the five required fields are keys, the capabilities, if
    given, are a list in which every entry names itself (a dict with
    the key [name]; a plain string passes only if the text [name]
    occurs in it), and the dependencies, if given, are a dict. *)
Theorem structure_accepted (yaml_spec : string)
  (items : list (value * value)) :
  yaml_safe_load yaml_spec = Returned (YDict items) ->
  validate_specification_structure yaml_safe_load yaml_spec
  <> Returned false
  /\ (validate_specification_structure yaml_safe_load yaml_spec
      = Returned true
      <-> forallb (SpecTool.has_key items) required_fields = true
          /\ match lookup items "capabilities" with
             | Some (YList capabilities) =>
                 forallb names_itself capabilities = true
             | Some _ => False
             | None => True
             end
          /\ match lookup items "dependencies" with
             | Some (YDict _) | None => True
             | Some _ => False
             end).
Proof.
  intro Hload. unfold validate_specification_structure. rewrite Hload.
  rewrite <- check_required_passes.
  destruct (check_required (YDict items) required_fields) as [[]|e].
  - unfold check_capabilities, check_dependencies, getitem.
    cbn [py_in]. unfold SpecTool.has_key.
    destruct (lookup items "capabilities") as [capabilities|].
    + destruct capabilities;
        try (split; [discriminate | split; [discriminate | tauto]]).
      rewrite <- check_names_passes.
      destruct (check_names items0) as [[]|e];
        [|split; [discriminate|];
          split; [discriminate | intros (_ & H & _); discriminate H]].
      destruct (lookup items "dependencies") as [dependencies|];
        [destruct dependencies|];
        (split; [discriminate|]); split; try discriminate; tauto.
    + destruct (lookup items "dependencies") as [dependencies|];
        [destruct dependencies|];
        (split; [discriminate|]); split; try discriminate; tauto.
  - split; [discriminate|]. split; [discriminate|].
    intros (H & _). discriminate H.
Qed.

End Structure.

Lemma structure_accepted_witness :
  validate_specification_structure MoreSamples.spec_loader
    MoreSamples.complete_spec_text
  <> Returned false
  /\ (validate_specification_structure MoreSamples.spec_loader
        MoreSamples.complete_spec_text
      = Returned true
      <-> forallb (SpecTool.has_key Samples.complete_spec) required_fields
          = true
          /\ match lookup Samples.complete_spec "capabilities" with
             | Some (YList capabilities) =>
                 forallb names_itself capabilities = true
             | Some _ => False
             | None => True
             end
          /\ match lookup Samples.complete_spec "dependencies" with
             | Some (YDict _) | None => True
             | Some _ => False
             end).
Proof.
  apply (structure_accepted MoreSamples.spec_loader
           MoreSamples.complete_spec_text Samples.complete_spec).
  reflexivity.
Defined.

End SpecStructureProps.
